(** * FocusPop: a shallow embedding of [src/app.ts]

    The TypeScript class [FocusPopApp] is embedded as a record of its
    fields together with the parts of the page it reads and writes (the
    store of [Task] objects, the [dark] class of the document, the
    [localStorage] item and the pending [setTimeout] mode switches).
    Methods are computations in a small monad [M] that threads the
    application state, collects the calls made to the presentation layer
    and propagates JavaScript exceptions.

    Conventions of the embedding:
    - JavaScript numbers are integers ([Z]); every number the program
      creates itself is one (counters, seconds, [Date.now()]).
    - A JavaScript string is held as the UTF-8 bytes of its characters
      ([String.string]); only [trim] looks inside a string.
    - [JSON.parse] and [JSON.stringify] are not re-implemented on text: a
      text is either [Garbage] (on which [JSON.parse] throws) or [Text j],
      the text of the JSON value [j].
    - TypeScript types are erased at run time, so [loadData] and
      [importData] can store any JSON value in a field.  The embedding is
      typed: when a field would receive a value outside its declared type
      the computation ends in [OutOfType] and is not followed further.
    - DOM rendering ([updateDisplay], [renderTasks], [renderHistory], ...)
      has no effect on the state and is left out; messages, notifications
      and alerts are recorded as [Event]s.  Of the rendering only the text
      of [updateDisplay], the icons of [updateSessionIcons] and the counts of
      [renderAchievements] are given, as functions of the state.
    - The interval handle [timer] is not a field of the embedding: the
      start button is hidden while the timer runs, so the interval exists
      exactly while [isRunning] is true. *)

From Stdlib Require Import ZArith String Ascii List Bool Lia.
From stdpp Require Import base list strings pretty.
Import ListNotations.

Open Scope Z_scope.

(** ** JSON values and the JavaScript operations used on them *)

#[local] Set Warnings "-register-all".

Inductive json : Type :=
| JNull
| JBool (b : bool)
| JNum (n : Z)
| JStr (s : string)
| JArr (items : list json)
| JObj (fields : list (string * json)).

(** What [JSON.parse] is applied to. *)
Inductive jsonText : Type :=
| Garbage
| Text (j : json).

Fixpoint assoc (k : string) (fields : list (string * json)) : option json :=
  match fields with
  | [] => None
  | (k', v) :: rest => if String.eqb k k' then Some v else assoc k rest
  end.

(** [v.k] for a value [v] that is not [null]; [None] is [undefined].  The
    keys used by the program are never array indices, ["length"] or other
    built-in properties, so only objects have them. *)
Definition prop (v : json) (k : string) : option json :=
  match v with
  | JObj fields => assoc k fields
  | _ => None
  end.

(** JavaScript truthiness; [None] is [undefined]. *)
Definition truthy (v : option json) : bool :=
  match v with
  | None => false
  | Some JNull => false
  | Some (JBool b) => b
  | Some (JNum n) => negb (n =? 0)
  | Some (JStr s) => negb (String.eqb s "")
  | Some (JArr _) => true
  | Some (JObj _) => true
  end.

(** [typeof v === 'object'] *)
Definition typeof_object (v : json) : bool :=
  match v with
  | JNull | JArr _ | JObj _ => true
  | _ => false
  end.

(** [String.prototype.trim] strips the white space and the line
    terminators of ECMAScript from both ends.  A string is held as the
    UTF-8 bytes of its characters, so a character is one to four bytes; no
    byte of one character is the first byte of another. *)

(** U+0009 to U+000D and U+0020. *)
Definition is_space (c : ascii) : bool :=
  let n := nat_of_ascii c in
  (Nat.eqb n 32 || (Nat.leb 9 n && Nat.leb n 13))%bool.

(** U+00A0, no-break space: [C2 A0]. *)
Definition is_space2 (c1 c2 : ascii) : bool :=
  (Nat.eqb (nat_of_ascii c1) 194 && Nat.eqb (nat_of_ascii c2) 160)%bool.

(** U+1680 [E1 9A 80]; U+2000 to U+200A [E2 80 80] to [E2 80 8A]; the
    line and paragraph separators U+2028, U+2029 [E2 80 A8], [E2 80 A9];
    U+202F [E2 80 AF]; U+205F [E2 81 9F]; U+3000 [E3 80 80]; and the byte
    order mark U+FEFF [EF BB BF]. *)
Definition is_space3 (c1 c2 c3 : ascii) : bool :=
  let n1 := nat_of_ascii c1 in
  let n2 := nat_of_ascii c2 in
  let n3 := nat_of_ascii c3 in
  (  (Nat.eqb n1 225 && Nat.eqb n2 154 && Nat.eqb n3 128)
  || (Nat.eqb n1 226 && Nat.eqb n2 128 &&
      ((Nat.leb 128 n3 && Nat.leb n3 138) || Nat.eqb n3 168 || Nat.eqb n3 169
       || Nat.eqb n3 175))
  || (Nat.eqb n1 226 && Nat.eqb n2 129 && Nat.eqb n3 159)
  || (Nat.eqb n1 227 && Nat.eqb n2 128 && Nat.eqb n3 128)
  || (Nat.eqb n1 239 && Nat.eqb n2 187 && Nat.eqb n3 191))%bool.

Fixpoint trim_start (s : string) : string :=
  match s with
  | String c1 rest1 =>
      if is_space c1 then trim_start rest1
      else
        match rest1 with
        | String c2 rest2 =>
            if is_space2 c1 c2 then trim_start rest2
            else
              match rest2 with
              | String c3 rest3 => if is_space3 c1 c2 c3 then trim_start rest3 else s
              | EmptyString => s
              end
        | EmptyString => s
        end
  | EmptyString => EmptyString
  end.

(** [s] consists of white space. *)
Definition blank (s : string) : bool := String.eqb (trim_start s) "".

(** Cuts [s] where the rest of it is white space. *)
Fixpoint trim_end (s : string) : string :=
  match s with
  | String c rest => if blank s then EmptyString else String c (trim_end rest)
  | EmptyString => EmptyString
  end.

Definition trim (s : string) : string := trim_end (trim_start s).

(** ** Data model (the interfaces at the top of [app.ts]) *)

(** Address of a [Task] object. *)
Abbreviation loc := nat (only parsing).

Module Task.
Record t : Type := mk { id : Z; text : string; completed : bool }.
End Task.

Module PomodoroSet.
Record t : Type := mk {
  id : Z;
  date : string;
  name : string;
  completedSessions : Z;
  tasks : list loc
}.
End PomodoroSet.

Inductive ModeType : Type := work | short_break | long_break.

Module TimerMode.
Record t : Type := mk { duration : Z; label : string; color : string }.
End TimerMode.

(** What an achievement condition can read from the application: the three
    public getters, and the objects its history refers to. *)
Record Getters : Type := {
  getCompletedSessions : Z;
  getHistory : list PomodoroSet.t;
  getTotalBreaks : Z;
  getObjects : list Task.t
}.

Module Achievement.
Record t : Type := mk {
  id : string;
  name : string;
  description : string;
  icon : string;
  (** the second argument is [new Date().getHours()] *)
  condition : Getters -> Z -> bool;
  unlocked : bool;
  unlockedDate : option string
}.
End Achievement.

Record FocusPopApp : Type := mkApp {
  currentMode : ModeType;
  timeLeft : Z;
  isRunning : bool;
  completedSessions : Z;
  tasks : list loc;
  history : list PomodoroSet.t;
  achievements : list Achievement.t;
  totalBreaks : Z;
  (** the page around the object *)
  objects : list Task.t;             (* Task objects, by address *)
  isDark : bool;                     (* the document has class 'dark' *)
  localStorage : option jsonText;    (* item 'focusAppData' *)
  pendingSwitch : list ModeType      (* setTimeout(() => switchMode(m), 1000) not yet run *)
}.

(** The clock, read through [Date]. *)
Record Clock : Type := {
  now : Z;                 (* Date.now() *)
  localeString : string;   (* new Date().toLocaleString() *)
  hours : Z                (* new Date().getHours() *)
}.

(** Calls to the presentation layer. *)
Inductive Event : Type :=
| CharacterMessage (messageType emojiType : string)   (* showCharacterMessage *)
| CharacterText (text : string)                       (* characterMessage.textContent = ... *)
| AchievementBubble (name description icon : string)  (* showAchievementNotification *)
| Notification (message : string)                     (* showNotification *)
| Sound                                               (* playNotification *)
| Alert (message : string)                            (* alert *)
| ConsoleError (message : string)                     (* console.error *)
| Later (ms : Z) (e : Event).                         (* setTimeout(() => e, ms) *)

Inductive Error : Type :=
| SyntaxError                 (* JSON.parse *)
| TypeError                   (* property of null, call of a non-function *)
| InvalidDataFormat.          (* new Error('Invalid data format') *)

(** Field updates. *)
Definition set_currentMode (v : ModeType) (s : FocusPopApp) : FocusPopApp :=
  mkApp v (timeLeft s) (isRunning s) (completedSessions s) (tasks s) (history s)
        (achievements s) (totalBreaks s) (objects s) (isDark s) (localStorage s)
        (pendingSwitch s).
Definition set_timeLeft (v : Z) (s : FocusPopApp) : FocusPopApp :=
  mkApp (currentMode s) v (isRunning s) (completedSessions s) (tasks s) (history s)
        (achievements s) (totalBreaks s) (objects s) (isDark s) (localStorage s)
        (pendingSwitch s).
Definition set_isRunning (v : bool) (s : FocusPopApp) : FocusPopApp :=
  mkApp (currentMode s) (timeLeft s) v (completedSessions s) (tasks s) (history s)
        (achievements s) (totalBreaks s) (objects s) (isDark s) (localStorage s)
        (pendingSwitch s).
Definition set_completedSessions (v : Z) (s : FocusPopApp) : FocusPopApp :=
  mkApp (currentMode s) (timeLeft s) (isRunning s) v (tasks s) (history s)
        (achievements s) (totalBreaks s) (objects s) (isDark s) (localStorage s)
        (pendingSwitch s).
Definition set_tasks (v : list loc) (s : FocusPopApp) : FocusPopApp :=
  mkApp (currentMode s) (timeLeft s) (isRunning s) (completedSessions s) v (history s)
        (achievements s) (totalBreaks s) (objects s) (isDark s) (localStorage s)
        (pendingSwitch s).
Definition set_history (v : list PomodoroSet.t) (s : FocusPopApp) : FocusPopApp :=
  mkApp (currentMode s) (timeLeft s) (isRunning s) (completedSessions s) (tasks s) v
        (achievements s) (totalBreaks s) (objects s) (isDark s) (localStorage s)
        (pendingSwitch s).
Definition set_achievements (v : list Achievement.t) (s : FocusPopApp) : FocusPopApp :=
  mkApp (currentMode s) (timeLeft s) (isRunning s) (completedSessions s) (tasks s)
        (history s) v (totalBreaks s) (objects s) (isDark s) (localStorage s)
        (pendingSwitch s).
Definition set_totalBreaks (v : Z) (s : FocusPopApp) : FocusPopApp :=
  mkApp (currentMode s) (timeLeft s) (isRunning s) (completedSessions s) (tasks s)
        (history s) (achievements s) v (objects s) (isDark s) (localStorage s)
        (pendingSwitch s).
Definition set_objects (v : list Task.t) (s : FocusPopApp) : FocusPopApp :=
  mkApp (currentMode s) (timeLeft s) (isRunning s) (completedSessions s) (tasks s)
        (history s) (achievements s) (totalBreaks s) v (isDark s) (localStorage s)
        (pendingSwitch s).
Definition set_isDark (v : bool) (s : FocusPopApp) : FocusPopApp :=
  mkApp (currentMode s) (timeLeft s) (isRunning s) (completedSessions s) (tasks s)
        (history s) (achievements s) (totalBreaks s) (objects s) v (localStorage s)
        (pendingSwitch s).
Definition set_localStorage (v : option jsonText) (s : FocusPopApp) : FocusPopApp :=
  mkApp (currentMode s) (timeLeft s) (isRunning s) (completedSessions s) (tasks s)
        (history s) (achievements s) (totalBreaks s) (objects s) (isDark s) v
        (pendingSwitch s).
Definition set_pendingSwitch (v : list ModeType) (s : FocusPopApp) : FocusPopApp :=
  mkApp (currentMode s) (timeLeft s) (isRunning s) (completedSessions s) (tasks s)
        (history s) (achievements s) (totalBreaks s) (objects s) (isDark s)
        (localStorage s) v.

(** ** The monad of methods *)

Inductive Outcome (A : Type) : Type :=
| Ok (a : A) (s : FocusPopApp) (out : list Event)       (* normal return *)
| Throw (e : Error) (s : FocusPopApp) (out : list Event) (* exception, in state [s] *)
| OutOfType.                                              (* left the typed embedding *)
Arguments Ok {A} a s out.
Arguments Throw {A} e s out.
Arguments OutOfType {A}.

Definition M (A : Type) : Type := FocusPopApp -> Outcome A.

(** [out] was sent before [o] came about. *)
Definition prepend {A} (out : list Event) (o : Outcome A) : Outcome A :=
  match o with
  | Ok a s out' => Ok a s (out ++ out')
  | Throw e s out' => Throw e s (out ++ out')
  | OutOfType => OutOfType
  end.

Definition ret {A} (a : A) : M A := fun s => Ok a s [].

Definition bind {A B} (m : M A) (k : A -> M B) : M B := fun s =>
  match m s with
  | Ok a s1 out1 => prepend out1 (k a s1)
  | Throw e s1 out1 => Throw e s1 out1
  | OutOfType => OutOfType
  end.

#[global] Instance M_ret : MRet M := @ret.
#[global] Instance M_bind : MBind M := fun A B k m => bind m k.

Definition throw {A} (e : Error) : M A := fun s => Throw e s [].
Definition emit (e : Event) : M unit := fun s => Ok tt s [e].
Definition this : M FocusPopApp := fun s => Ok s s [].
Definition modify (f : FocusPopApp -> FocusPopApp) : M unit := fun s => Ok tt (f s) [].

(** A value whose declared type is [A]; [None] is a value of another type. *)
Definition typed {A} (v : option A) : M A := fun s =>
  match v with
  | Some a => Ok a s []
  | None => OutOfType
  end.

(** [try { m } catch (error) { handler }] *)
Definition try_catch (m : M unit) (handler : Error -> M unit) : M unit := fun s =>
  match m s with
  | Ok a s1 out1 => Ok a s1 out1
  | Throw e s1 out1 => prepend out1 (handler e s1)
  | OutOfType => OutOfType
  end.

(** [list.forEach(f)] *)
Fixpoint forEach {A} (f : A -> M unit) (l : list A) : M unit :=
  match l with
  | [] => mret tt
  | x :: rest => f x ;; forEach f rest
  end.

Definition when (b : bool) (m : M unit) : M unit := if b then m else mret tt.

(** ** Configuration tables *)

(** [modes] *)
Definition modes (mode : ModeType) : TimerMode.t :=
  match mode with
  | work =>
      TimerMode.mk (25 * 60)
        "Well done! You just completed 25 minutes of deep focus. Keep the momentum going!"
        "work"
  | short_break =>
      TimerMode.mk (5 * 60)
        "Break's over! Hope you feel refreshed. Ready to dive back in?"
        "short-break"
  | long_break =>
      TimerMode.mk (15 * 60)
        "Great rest! Now that you're recharged, let's get back to making progress."
        "long-break"
  end.

(** The string a [ModeType] is at run time, and back. *)
Definition mode_string (mode : ModeType) : string :=
  match mode with
  | work => "work"
  | short_break => "short-break"
  | long_break => "long-break"
  end.

Definition asModeType (v : json) : option ModeType :=
  match v with
  | JStr s =>
      if String.eqb s "work" then Some work
      else if String.eqb s "short-break" then Some short_break
      else if String.eqb s "long-break" then Some long_break
      else None
  | _ => None
  end.

Definition is_work (mode : ModeType) : bool :=
  match mode with work => true | _ => false end.

(** [array.length] as a number *)
Definition len {A} (l : list A) : Z := Z.of_nat (length l).

(** The objects a list of references points to. *)
Definition deref (objs : list Task.t) (refs : list loc) : list Task.t :=
  omap (fun l => objs !! l) refs.
Arguments deref : simpl never.

(** [getHistory().reduce((sum, set) => sum + f(set), 0)] *)
Definition sum_over (f : PomodoroSet.t -> Z) (sets : list PomodoroSet.t) : Z :=
  fold_left (fun sum set => sum + f set) sets 0.

Definition completedTasks (g : Getters) (set : PomodoroSet.t) : Z :=
  len (filter (fun t => Task.completed t = true) (deref (getObjects g) (PomodoroSet.tasks set))).

(** The initial value of [achievements]. *)
Definition achievementTable : list Achievement.t :=
  [ Achievement.mk "first-blood" "First Blood"
      "Complete your very first Pomodoro session" "🎯"
      (fun app _ => getCompletedSessions app >=? 1)
      false None;
    Achievement.mk "getting-serious" "Getting Serious Now"
      "Complete a full set of 8 sessions" "🔥"
      (fun app _ => existsb (fun set => PomodoroSet.completedSessions set >=? 8) (getHistory app))
      false None;
    Achievement.mk "procrastination-slayer" "Procrastination Slayer"
      "Complete 3 sets in your history" "⚔️"
      (fun app _ => len (getHistory app) >=? 3)
      false None;
    Achievement.mk "night-owl" "Night Owl Warrior"
      "Complete a session after 10 PM" "🦉"
      (fun app hour => (hour >=? 22) && (getCompletedSessions app >=? 1))
      false None;
    Achievement.mk "early-bird" "Early Bird Gets the Worm"
      "Complete a session before 7 AM" "🐦"
      (fun app hour => (hour <? 7) && (getCompletedSessions app >=? 1))
      false None;
    Achievement.mk "task-master" "Task Demolition Expert"
      "Complete 10 tasks across all your sets" "💣"
      (fun app _ => sum_over (completedTasks app) (getHistory app) >=? 10)
      false None;
    Achievement.mk "marathon" "Marathon Legend"
      "Complete 5 sets in your history" "🏃"
      (fun app _ => len (getHistory app) >=? 5)
      false None;
    Achievement.mk "consistency" "Habit Hacker"
      "Complete 10 total sessions" "🎮"
      (fun app _ =>
         sum_over PomodoroSet.completedSessions (getHistory app) + getCompletedSessions app >=? 10)
      false None;
    Achievement.mk "overachiever" "Certified Overachiever"
      "Complete 50 total sessions" "🏆"
      (fun app _ =>
         sum_over PomodoroSet.completedSessions (getHistory app) + getCompletedSessions app >=? 50)
      false None;
    Achievement.mk "multitasker" "Multitasking Myth Buster"
      "Complete a set with 5 or more tasks" "🎪"
      (fun app _ => existsb (fun set => len (PomodoroSet.tasks set) >=? 5) (getHistory app))
      false None;
    Achievement.mk "speed-demon" "Speed Demon"
      "Complete 3 sessions in a row without long breaks" "⚡"
      (fun app _ => getCompletedSessions app >=? 3)
      false None;
    Achievement.mk "zen-master" "Zen Master"
      "Complete 20 break sessions" "🧘"
      (fun app _ => getTotalBreaks app >=? 20)
      false None ].

(** The object as the field initialisers leave it, before the constructor
    body runs, on a page whose storage item is [stored]. *)
Definition initial (dark : bool) (stored : option jsonText) : FocusPopApp :=
  {| currentMode := work;
     timeLeft := 25 * 60;
     isRunning := false;
     completedSessions := 0;
     tasks := [];
     history := [];
     achievements := achievementTable;
     totalBreaks := 0;
     objects := [];
     isDark := dark;
     localStorage := stored;
     pendingSwitch := [] |}.

Definition getters (s : FocusPopApp) : Getters :=
  {| getCompletedSessions := completedSessions s;
     getHistory := history s;
     getTotalBreaks := totalBreaks s;
     getObjects := objects s |}.

(** ** Persistence: the value [JSON.stringify(data)] writes *)

Definition Task_toJSON (t : Task.t) : json :=
  JObj [ ("id", JNum (Task.id t));
         ("text", JStr (Task.text t));
         ("completed", JBool (Task.completed t)) ].

Definition PomodoroSet_toJSON (objs : list Task.t) (set : PomodoroSet.t) : json :=
  JObj [ ("id", JNum (PomodoroSet.id set));
         ("name", JStr (PomodoroSet.name set));
         ("date", JStr (PomodoroSet.date set));
         ("completedSessions", JNum (PomodoroSet.completedSessions set));
         ("tasks", JArr (map Task_toJSON (deref objs (PomodoroSet.tasks set)))) ].

(** [condition] is a function and an absent [unlockedDate] is [undefined]:
    [JSON.stringify] leaves both out. *)
Definition Achievement_toJSON (a : Achievement.t) : json :=
  JObj ([ ("id", JStr (Achievement.id a));
          ("name", JStr (Achievement.name a));
          ("description", JStr (Achievement.description a));
          ("icon", JStr (Achievement.icon a));
          ("unlocked", JBool (Achievement.unlocked a)) ]
        ++ match Achievement.unlockedDate a with
           | Some d => [ ("unlockedDate", JStr d) ]
           | None => []
           end).

(** The object [data] of [saveData] (and of [exportData]). *)
Definition appData (s : FocusPopApp) : json :=
  JObj [ ("currentMode", JStr (mode_string (currentMode s)));
         ("timeLeft", JNum (timeLeft s));
         ("completedSessions", JNum (completedSessions s));
         ("tasks", JArr (map Task_toJSON (deref (objects s) (tasks s))));
         ("isDark", JBool (isDark s));
         ("history", JArr (map (PomodoroSet_toJSON (objects s)) (history s)));
         ("achievements", JArr (map Achievement_toJSON (achievements s)));
         ("totalBreaks", JNum (totalBreaks s)) ].

Definition saveData : M unit :=
  s ← this;
  modify (set_localStorage (Some (Text (appData s)))).

(** ** Presentation *)

Definition showCharacterMessage (messageType emojiType : string) : M unit :=
  emit (CharacterMessage messageType emojiType).

Definition showNotification (message : string) : M unit :=
  emit (Notification message).

Definition playNotification : M unit := emit Sound.

Definition showAchievementNotification (achievement : Achievement.t) : M unit :=
  emit (AchievementBubble (Achievement.name achievement)
          (Achievement.description achievement) (Achievement.icon achievement));;
  showNotification ("Achievement Unlocked: " +:+ Achievement.name achievement +:+ "!").

(** ** Achievements *)

Definition unlock (clock : Clock) (a : Achievement.t) : Achievement.t :=
  Achievement.mk (Achievement.id a) (Achievement.name a) (Achievement.description a)
    (Achievement.icon a) (Achievement.condition a) true (Some (localeString clock)).

(** The [forEach] of [checkAchievements]: the table after the pass, and
    [newUnlocks].  The conditions read the application through its getters,
    which the pass does not change. *)
Fixpoint unlockPass (app : Getters) (clock : Clock) (achs : list Achievement.t)
  : list Achievement.t * list Achievement.t :=
  match achs with
  | [] => ([], [])
  | achievement :: rest =>
      let '(rest', newUnlocks) := unlockPass app clock rest in
      if negb (Achievement.unlocked achievement)
         && Achievement.condition achievement app (hours clock)
      then (unlock clock achievement :: rest', unlock clock achievement :: newUnlocks)
      else (achievement :: rest', newUnlocks)
  end.

Definition checkAchievements (clock : Clock) : M unit :=
  s ← this;
  let '(achs, newUnlocks) := unlockPass (getters s) clock (achievements s) in
  modify (set_achievements achs);;
  match newUnlocks with
  | first :: _ => showAchievementNotification first;; saveData
  | [] => mret tt
  end.

(** ** Timer *)

Definition switchMode (mode : ModeType) : M unit :=
  s ← this;
  if isRunning s then mret tt
  else
    modify (set_currentMode mode);;
    modify (set_timeLeft (TimerMode.duration (modes mode)));;
    saveData.

Definition startTimer : M unit :=
  modify (set_isRunning true);;
  s ← this;
  if is_work (currentMode s)
  then showCharacterMessage "sessionStart" "motivational"
  else showCharacterMessage "breakStart" "calm".

Definition pauseTimer : M unit := modify (set_isRunning false).

Definition resetTimer : M unit :=
  pauseTimer;;
  s ← this;
  modify (set_timeLeft (TimerMode.duration (modes (currentMode s))));;
  saveData.

(** [setTimeout(() => this.switchMode(mode), 1000)] *)
Definition scheduleSwitch (mode : ModeType) : M unit :=
  modify (fun s => set_pendingSwitch (pendingSwitch s ++ [mode]) s).

Definition completeSession (clock : Clock) : M unit :=
  pauseTimer;;
  s ← this;
  (if is_work (currentMode s) then
     modify (set_completedSessions (completedSessions s + 1));;
     showCharacterMessage "sessionComplete" "excited";;
     when (Z.rem (completedSessions s + 1) 4 =? 0)
       (emit (Later 5000 (CharacterMessage "milestone" "excited")))
   else
     showCharacterMessage "breakComplete" "motivational");;
  playNotification;;
  showNotification (TimerMode.label (modes (currentMode s)));;
  checkAchievements clock;;
  s ← this;
  (if is_work (currentMode s) then
     let nextMode := if Z.rem (completedSessions s) 4 =? 0 then long_break else short_break in
     scheduleSwitch nextMode
   else
     scheduleSwitch work);;
  saveData.

(** The callback of [setInterval] in [startTimer]. *)
Definition tick (clock : Clock) : M unit :=
  modify (fun s => set_timeLeft (timeLeft s - 1) s);;
  s ← this;
  when (is_work (currentMode s) && (timeLeft s =? TimerMode.duration (modes work) / 2))
    (showCharacterMessage "encouragement" "motivational");;
  when (timeLeft s <=? 0) (completeSession clock).

(** A pending [setTimeout] mode switch runs. *)
Definition fireSwitch : M unit :=
  s ← this;
  match pendingSwitch s with
  | mode :: rest => modify (set_pendingSwitch rest);; switchMode mode
  | [] => mret tt
  end.

(** ** Tasks and history *)

Definition task_has_id (objs : list Task.t) (taskId : Z) (l : loc) : bool :=
  match objs !! l with
  | Some t => Task.id t =? taskId
  | None => false
  end.

Definition addTask (clock : Clock) (taskInput : string) : M unit :=
  let text := trim taskInput in
  if String.eqb text "" then mret tt
  else
    s ← this;
    let task := Task.mk (now clock) text false in
    modify (set_objects (objects s ++ [task]));;
    modify (set_tasks (tasks s ++ [length (objects s)]));;
    saveData.

Definition toggleTask (taskId : Z) : M unit :=
  s ← this;
  match List.find (task_has_id (objects s) taskId) (tasks s) with
  | Some l =>
      match objects s !! l with
      | Some task =>
          let task' := Task.mk (Task.id task) (Task.text task) (negb (Task.completed task)) in
          modify (set_objects (<[l := task']> (objects s)));;
          when (Task.completed task') (showCharacterMessage "taskComplete" "happy");;
          saveData
      | None => mret tt
      end
  | None => mret tt
  end.

Definition deleteTask (taskId : Z) : M unit :=
  s ← this;
  modify (set_tasks (List.filter (fun l => negb (task_has_id (objects s) taskId l)) (tasks s)));;
  saveData.

Definition finishCurrentSet (clock : Clock) (setNameInput : string) : M unit :=
  s ← this;
  let setName :=
    if String.eqb (trim setNameInput) "" then "Set " +:+ pretty (len (history s) + 1)
    else trim setNameInput in
  let setData :=
    {| PomodoroSet.id := now clock;
       PomodoroSet.name := setName;
       PomodoroSet.date := localeString clock;
       PomodoroSet.completedSessions := completedSessions s;
       PomodoroSet.tasks := tasks s |} in
  modify (set_history (setData :: history s));;
  modify (set_completedSessions 0);;
  modify (set_tasks []);;
  saveData;;
  showCharacterMessage "milestone" "excited".

Definition startNewSet (clock : Clock) (setNameInput : string) (confirmed : bool) : M unit :=
  s ← this;
  if (completedSessions s >? 0) || (len (tasks s) >? 0) then
    when confirmed (finishCurrentSet clock setNameInput)
  else
    showCharacterMessage "welcome" "happy".

Definition deleteHistory (setId : Z) : M unit :=
  s ← this;
  modify (set_history (List.filter (fun set => negb (PomodoroSet.id set =? setId)) (history s)));;
  saveData.

Definition toggleTheme : M unit :=
  modify (fun s => set_isDark (negb (isDark s)) s);;
  saveData.

(** ** Reading a snapshot back *)

Definition JSON_parse (content : jsonText) : M json :=
  match content with
  | Garbage => throw SyntaxError
  | Text j => mret j
  end.

(** [v.k], which throws on [null]. *)
Definition field (v : json) (k : string) : M (option json) :=
  match v with
  | JNull => throw TypeError
  | _ => mret (prop v k)
  end.

(** The declared types, as run-time shapes. *)
Definition asNumber (v : option json) : option Z :=
  match v with Some (JNum n) => Some n | _ => None end.

Definition asBoolean (v : option json) : option bool :=
  match v with Some (JBool b) => Some b | _ => None end.

Definition asString (v : option json) : option string :=
  match v with Some (JStr s) => Some s | _ => None end.

(** [string | undefined] *)
Definition asOptionalString (v : option json) : option (option string) :=
  match v with
  | None => Some None
  | Some (JStr s) => Some (Some s)
  | _ => None
  end.

Definition asMode (v : option json) : option ModeType :=
  match v with Some j => asModeType j | None => None end.

Definition asTask (v : json) : option Task.t :=
  match asNumber (prop v "id"), asString (prop v "text"), asBoolean (prop v "completed") with
  | Some i, Some t, Some c => Some (Task.mk i t c)
  | _, _, _ => None
  end.

Definition asTasks (v : option json) : option (list Task.t) :=
  match v with
  | Some (JArr items) => mapM asTask items
  | _ => None
  end.

(** A parsed [PomodoroSet]: its scalar fields and the values of its tasks,
    which are not objects of the page yet. *)
Record ParsedSet : Type := {
  parsedId : Z;
  parsedDate : string;
  parsedName : string;
  parsedCompletedSessions : Z;
  parsedTasks : list Task.t
}.

Definition asPomodoroSet (v : json) : option ParsedSet :=
  match asNumber (prop v "id"), asString (prop v "date"), asString (prop v "name"),
        asNumber (prop v "completedSessions"), asTasks (prop v "tasks") with
  | Some i, Some d, Some n, Some c, Some ts =>
      Some {| parsedId := i; parsedDate := d; parsedName := n;
              parsedCompletedSessions := c; parsedTasks := ts |}
  | _, _, _, _, _ => None
  end.

Definition asHistory (v : option json) : option (list ParsedSet) :=
  match v with
  | Some (JArr items) => mapM asPomodoroSet items
  | _ => None
  end.

(** The objects [JSON.parse] creates are new ones. *)
Definition alloc (ts : list Task.t) : M (list loc) :=
  s ← this;
  modify (set_objects (objects s ++ ts));;
  mret (seq (length (objects s)) (length ts)).

Definition allocSet (p : ParsedSet) : M PomodoroSet.t :=
  refs ← alloc (parsedTasks p);
  mret {| PomodoroSet.id := parsedId p;
          PomodoroSet.date := parsedDate p;
          PomodoroSet.name := parsedName p;
          PomodoroSet.completedSessions := parsedCompletedSessions p;
          PomodoroSet.tasks := refs |}.

(** [v || []] assigned to [tasks] *)
Definition tasksOrEmpty (v : option json) : M (list loc) :=
  if truthy v then ts ← typed (asTasks v); alloc ts else mret [].

(** [v || []] assigned to [history] *)
Definition historyOrEmpty (v : option json) : M (list PomodoroSet.t) :=
  if truthy v then sets ← typed (asHistory v); mapM allocSet sets else mret [].

(** [v || d] assigned to a number field *)
Definition numberOr (v : option json) (d : Z) : M Z :=
  if truthy v then typed (asNumber v) else mret d.

(** [this.achievements.find(a => a.id === savedAch.id)], as an index *)
Fixpoint findAchievement (savedId : option json) (achs : list Achievement.t) : option nat :=
  match achs with
  | [] => None
  | a :: rest =>
      match savedId with
      | Some (JStr i) =>
          if String.eqb (Achievement.id a) i then Some 0%nat
          else option_map S (findAchievement savedId rest)
      | _ => option_map S (findAchievement savedId rest)
      end
  end.

(** The body of the [forEach] that restores the achievements.  [savedAch.id]
    is evaluated by the predicate of [find], once the table has an element. *)
Definition restoreAchievement (savedAch : json) : M unit :=
  s ← this;
  match savedAch, achievements s with
  | JNull, _ :: _ => throw TypeError
  | _, _ =>
      match findAchievement (prop savedAch "id") (achievements s) with
      | Some i =>
          match achievements s !! i with
          | Some achievement =>
              u ← typed (asBoolean (prop savedAch "unlocked"));
              d ← typed (asOptionalString (prop savedAch "unlockedDate"));
              modify (set_achievements
                        (<[i := Achievement.mk (Achievement.id achievement)
                                  (Achievement.name achievement)
                                  (Achievement.description achievement)
                                  (Achievement.icon achievement)
                                  (Achievement.condition achievement) u d]>
                           (achievements s)))
          | None => mret tt
          end
      | None => mret tt
      end
  end.

(** [if (data.achievements) { data.achievements.forEach(...) }] *)
Definition restoreAchievements (saved : option json) : M unit :=
  if truthy saved then
    match saved with
    | Some (JArr items) => forEach restoreAchievement items
    | _ => throw TypeError
    end
  else mret tt.

Definition loadData : M unit :=
  s ← this;
  match localStorage s with
  | None => mret tt
  | Some storedData =>
      parsedData ← JSON_parse storedData;
      v ← field parsedData "currentMode";
      mode ← typed (asMode v);
      modify (set_currentMode mode);;
      n ← typed (asNumber (prop parsedData "timeLeft"));
      modify (set_timeLeft n);;
      n ← typed (asNumber (prop parsedData "completedSessions"));
      modify (set_completedSessions n);;
      refs ← tasksOrEmpty (prop parsedData "tasks");
      modify (set_tasks refs);;
      sets ← historyOrEmpty (prop parsedData "history");
      modify (set_history sets);;
      n ← numberOr (prop parsedData "totalBreaks") 0;
      modify (set_totalBreaks n);;
      restoreAchievements (prop parsedData "achievements");;
      modify (set_isDark (truthy (prop parsedData "isDark")));;
      s ← this;
      switchMode (currentMode s)
  end.

(** [new FocusPopApp()] on the freshly initialised object *)
Definition constructor : M unit :=
  loadData;;
  emit (Later 1500 (CharacterMessage "welcome" "happy")).

(** What the file input and the [FileReader] deliver to [importData]. *)
Inductive Upload : Type :=
| NoFile
| Unreadable
| Content (content : jsonText).

Definition importData (upload : Upload) (confirmed : bool) : M unit :=
  match upload with
  | NoFile => mret tt
  | Unreadable => emit (Alert "Error reading file. Please try again.")
  | Content content =>
      try_catch
        (importedData ← JSON_parse content;
         (* Validate the imported data has required fields *)
         (if negb (truthy (Some importedData)) || negb (typeof_object importedData)
          then throw InvalidDataFormat else mret tt);;
         (* Confirm before importing *)
         if negb confirmed then mret tt
         else
           (* Import the data *)
           let v := prop importedData "currentMode" in
           mode ← (if truthy v then typed (asMode v) else mret work);
           modify (set_currentMode mode);;
           n ← numberOr (prop importedData "timeLeft") (25 * 60);
           modify (set_timeLeft n);;
           n ← numberOr (prop importedData "completedSessions") 0;
           modify (set_completedSessions n);;
           refs ← tasksOrEmpty (prop importedData "tasks");
           modify (set_tasks refs);;
           sets ← historyOrEmpty (prop importedData "history");
           modify (set_history sets);;
           n ← numberOr (prop importedData "totalBreaks") 0;
           modify (set_totalBreaks n);;
           (* Restore theme *)
           modify (set_isDark (truthy (prop importedData "isDark")));;
           (* Restore achievements *)
           restoreAchievements (prop importedData "achievements");;
           (* Update UI *)
           s ← this;
           switchMode (currentMode s);;
           (* Save to localStorage *)
           saveData;;
           (* Show success message *)
           showCharacterMessage "milestone" "excited";;
           emit (CharacterText "Data imported successfully! Welcome back!"))
        (fun error =>
           emit (Alert "Error importing data: Invalid file format. Please select a valid FocusPop backup file.");;
           emit (ConsoleError "Import error:"))
  end.

(** ** The operations of the page *)

(** What can happen to the page: the user's actions, the interval and
    timeout callbacks, and a reload. *)
Inductive Op : Type :=
| Start
| Pause
| Reset
| Tick (clock : Clock)
| SwitchMode (mode : ModeType)
| FireSwitch
| AddTask (clock : Clock) (taskInput : string)
| ToggleTask (taskId : Z)
| DeleteTask (taskId : Z)
| FinishCurrentSet (clock : Clock) (setNameInput : string)
| StartNewSet (clock : Clock) (setNameInput : string) (confirmed : bool)
| DeleteHistory (setId : Z)
| ToggleTheme
| Import (upload : Upload) (confirmed : bool)
| Reload (dark : bool).

(** The start button is hidden while the timer runs, the pause button
    while it does not; the interval only exists while the timer runs, and a
    timeout only runs when one is pending. *)
Definition enabled (op : Op) (s : FocusPopApp) : bool :=
  match op with
  | Start => negb (isRunning s)
  | Pause => isRunning s
  | Tick _ => isRunning s
  | FireSwitch => match pendingSwitch s with [] => false | _ => true end
  | _ => true
  end.

Definition run (op : Op) : M unit :=
  match op with
  | Start => startTimer
  | Pause => pauseTimer
  | Reset => resetTimer
  | Tick clock => tick clock
  | SwitchMode mode => switchMode mode
  | FireSwitch => fireSwitch
  | AddTask clock taskInput => addTask clock taskInput
  | ToggleTask taskId => toggleTask taskId
  | DeleteTask taskId => deleteTask taskId
  | FinishCurrentSet clock setNameInput => finishCurrentSet clock setNameInput
  | StartNewSet clock setNameInput confirmed => startNewSet clock setNameInput confirmed
  | DeleteHistory setId => deleteHistory setId
  | ToggleTheme => toggleTheme
  | Import upload confirmed => importData upload confirmed
  | Reload dark => fun s => constructor (initial dark (localStorage s))
  end.

(** One operation takes the page from [s] to [s'].  An exception that
    escapes a handler leaves the state as it was when thrown (inside the
    constructor it leaves no application at all, so a reload must succeed).
    An operation that leaves the typed embedding ([OutOfType]) is not
    followed: the pages of [reachable] below are the pages on which every
    value read from the storage or from an imported file had the declared
    type of its field. *)
Inductive step (s : FocusPopApp) : Op -> FocusPopApp -> Prop :=
| step_ok op s' out :
    enabled op s = true ->
    run op s = Ok tt s' out ->
    step s op s'
| step_throw op e s' out :
    enabled op s = true ->
    (forall dark, op <> Reload dark) ->
    run op s = Throw e s' out ->
    step s op s'.

Inductive steps (s : FocusPopApp) : list Op -> FocusPopApp -> Prop :=
| steps_nil : steps s [] s
| steps_cons op ops s1 s2 :
    step s op s1 -> steps s1 ops s2 -> steps s (op :: ops) s2.

(** A page that was opened on some storage and then used. *)
Definition reachable (s : FocusPopApp) : Prop :=
  exists dark stored s0 out ops,
    constructor (initial dark stored) = Ok tt s0 out /\ steps s0 ops s.

(** The executable counterpart of [steps]: [None] when an operation is not
    enabled, leaves the typed embedding, or is a reload that throws. *)
Fixpoint exec (ops : list Op) (s : FocusPopApp) : option FocusPopApp :=
  match ops with
  | [] => Some s
  | op :: rest =>
      if enabled op s then
        match run op s with
        | Ok _ s' _ => exec rest s'
        | Throw _ s' _ =>
            match op with
            | Reload _ => None
            | _ => exec rest s'
            end
        | OutOfType => None
        end
      else None
  end.

(** ** Vocabulary of the specification *)

(** The table after one pass of [checkAchievements], and its [newUnlocks]. *)
Definition afterPass (clock : Clock) (s : FocusPopApp) : FocusPopApp :=
  set_achievements (fst (unlockPass (getters s) clock (achievements s))) s.

Definition newUnlocks (clock : Clock) (s : FocusPopApp) : list Achievement.t :=
  snd (unlockPass (getters s) clock (achievements s)).

(** A locked achievement whose predicate holds now. *)
Definition due (clock : Clock) (s : FocusPopApp) (a : Achievement.t) : bool :=
  negb (Achievement.unlocked a) && Achievement.condition a (getters s) (hours clock).

(** What [showAchievementNotification] sends to the presentation layer. *)
Definition achievementReport (a : Achievement.t) : list Event :=
  [ AchievementBubble (Achievement.name a) (Achievement.description a) (Achievement.icon a);
    Notification ("Achievement Unlocked: " +:+ Achievement.name a +:+ "!") ].

(** Every reference of [refs] points into [objs]. *)
Definition refs_in (objs : list Task.t) (refs : list nat) : Prop :=
  Forall (fun l => (l < length objs)%nat) refs.

Definition sets_in (objs : list Task.t) (sets : list PomodoroSet.t) : Prop :=
  Forall (fun set => refs_in objs (PomodoroSet.tasks set)) sets.

(** No reference of the active list or of [history] dangles. *)
Definition well_formed (s : FocusPopApp) : Prop :=
  refs_in (objects s) (tasks s) /\ sets_in (objects s) (history s).

(** Operations that leave [history] alone and do not replace the state
    from a file or from storage: the timer, the theme and the task list. *)
Definition leaves_history (op : Op) : Prop :=
  match op with
  | FinishCurrentSet _ _ | StartNewSet _ _ _ | DeleteHistory _
  | Import _ _ | Reload _ => False
  | _ => True
  end.

(** An operation touched only objects of the active list: [history] is the
    same, no object disappeared, objects outside the active list are
    unchanged, and the active list holds old active references or new
    objects. *)
Definition touches_active_only (s s' : FocusPopApp) : Prop :=
  history s' = history s /\
  (length (objects s) <= length (objects s'))%nat /\
  (forall l, l ∉ tasks s -> (l < length (objects s))%nat ->
             objects s' !! l = objects s !! l) /\
  (forall l, l ∈ tasks s' -> l ∈ tasks s \/ (length (objects s) <= l)%nat).

(** The first [n] objects are those of [base] and the active list refers to
    none of them. *)
Definition archived_apart (n : nat) (base : list Task.t) (s : FocusPopApp) : Prop :=
  (n <= length (objects s))%nat /\
  (forall l, (l < n)%nat -> objects s !! l = base !! l) /\
  (forall l, l ∈ tasks s -> (n <= l)%nat).

(** Sample inputs used by the examples below. *)
Definition noon : Clock :=
  {| now := 1700000000000; localeString := "11/14/2023, 12:00:00 PM"; hours := 12 |}.

Definition freshPage : FocusPopApp := initial false None.

Definition importError : list Event :=
  [ Alert "Error importing data: Invalid file format. Please select a valid FocusPop backup file.";
    ConsoleError "Import error:" ].

Definition importSuccess : list Event :=
  [ CharacterMessage "milestone" "excited";
    CharacterText "Data imported successfully! Welcome back!" ].

(** An achievement with its flag and date cleared: what the rule table
    says about it. *)
Definition lock (a : Achievement.t) : Achievement.t :=
  Achievement.mk (Achievement.id a) (Achievement.name a) (Achievement.description a)
    (Achievement.icon a) (Achievement.condition a) false None.

(** The table holds the rules of [achievementTable], in its order. *)
Definition table_shape (s : FocusPopApp) : Prop :=
  map lock (achievements s) = achievementTable.

(** What every page that can be reached satisfies: no reference dangles
    and the table holds the rules of [achievementTable]. *)
Definition sound (s : FocusPopApp) : Prop := well_formed s /\ table_shape s.

(** Entry by entry the rule is the same and an unlocked flag stays. *)
Definition grows (achs achs' : list Achievement.t) : Prop :=
  Forall2 (fun a a' => lock a' = lock a /\
                       (Achievement.unlocked a = true -> Achievement.unlocked a' = true))
          achs achs'.

(** The storage item holds the flags the table has: nothing was ever saved
    and nothing is unlocked, or the last snapshot was taken of this table. *)
Definition flags_stored (s : FocusPopApp) : Prop :=
  (localStorage s = None /\ achievements s = achievementTable) \/
  (exists saved, localStorage s = Some (Text (appData saved)) /\
                 achievements saved = achievements s).

Definition synced (s : FocusPopApp) : Prop := table_shape s /\ flags_stored s.

Definition no_import (op : Op) : Prop :=
  match op with
  | Import _ _ => False
  | _ => True
  end.

(** What one operation other than an import does to table and storage. *)
Definition keeps_flags (s s' : FocusPopApp) : Prop :=
  grows (achievements s) (achievements s') /\
  ((localStorage s' = localStorage s /\ achievements s' = achievements s) \/
   localStorage s' = Some (Text (appData s'))).

(** An outcome that only added objects, silently, and returned a value
    that is [ok] for the objects there are now. *)
Definition allocates {A} (ok : list Task.t -> A -> Prop) (s : FocusPopApp)
    (o : Outcome A) : Prop :=
  match o with
  | Ok a s' out =>
      exists extra, s' = set_objects (objects s ++ extra) s /\
                    ok (objects s ++ extra) a /\ out = []
  | Throw _ _ _ => False
  | OutOfType => True
  end.

(** An outcome that only rewrote flags and dates of the table, silently. *)
Definition only_restores (s : FocusPopApp) (o : Outcome unit) : Prop :=
  match o with
  | Ok _ s' out | Throw _ s' out =>
      (exists achs, s' = set_achievements achs s /\
                    map lock achs = map lock (achievements s)) /\ out = []
  | OutOfType => True
  end.

(** What [asPomodoroSet] reads back from the JSON of [set]. *)
Definition parsedOf (objs : list Task.t) (set : PomodoroSet.t) : ParsedSet :=
  {| parsedId := PomodoroSet.id set;
     parsedDate := PomodoroSet.date set;
     parsedName := PomodoroSet.name set;
     parsedCompletedSessions := PomodoroSet.completedSessions set;
     parsedTasks := deref objs (PomodoroSet.tasks set) |}.

(** [o] is a value of the expected type. *)
Definition defined {A} (o : option A) : bool :=
  match o with Some _ => true | None => false end.

(** A snapshot whose fields, where present, have the types of [AppData];
    only [tasks], [history], [totalBreaks], [isDark] and [achievements] may
    be missing. *)
Definition typed_snapshot (j : json) : bool :=
  match j with JObj _ => true | _ => false end
  && defined (asMode (prop j "currentMode"))
  && defined (asNumber (prop j "timeLeft"))
  && defined (asNumber (prop j "completedSessions"))
  && (negb (truthy (prop j "tasks")) || defined (asTasks (prop j "tasks")))
  && (negb (truthy (prop j "history")) || defined (asHistory (prop j "history")))
  && (negb (truthy (prop j "totalBreaks")) || defined (asNumber (prop j "totalBreaks"))).

(** A snapshot in the format the program wrote before it had achievements. *)
Definition oldSnapshot : json :=
  JObj [ ("currentMode", JStr "work");
         ("timeLeft", JNum 1500);
         ("completedSessions", JNum 0);
         ("tasks", JArr []);
         ("isDark", JBool false) ].

(** Start the timer and let one work session run out. *)
Definition oneSession : list Op := Start :: repeat (Tick noon) 1500.

(** A work session, the switch to the break, and the set archived. *)
Definition usedPage : list Op :=
  oneSession ++ [FireSwitch; FinishCurrentSet noon ""].

(** ** More of the program: countdown, display, export *)

(** [k] consecutive runs of the interval callback of [startTimer]. *)
Fixpoint ticks (clock : Clock) (k : nat) : M unit :=
  match k with
  | O => mret tt
  | S k' => tick clock;; ticks clock k'
  end.

(** [s.padStart(n, c)] *)
Definition padStart (n : nat) (c : ascii) (s : string) : string :=
  String.concat "" (repeat (String c EmptyString) (n - String.length s)) +:+ s.

(** The text [updateDisplay] writes to the timer and to the title:
    [Math.floor(timeLeft / 60)] and [timeLeft % 60], each padded to two
    characters. *)
Definition display (timeLeft : Z) : string :=
  padStart 2 "0" (pretty (timeLeft / 60)) +:+ ":" +:+
  padStart 2 "0" (pretty (Z.rem timeLeft 60)).

(** [updateSessionIcons]: for each of the eight icons, whether it is shown
    at full opacity ([index < completedSessions]). *)
Definition sessionIcons (s : FocusPopApp) : list bool :=
  map (fun index => Z.of_nat index <? completedSessions s) (seq 0 8).

(** [renderAchievements]: the two numbers of the header. *)
Definition unlockedCount (s : FocusPopApp) : nat :=
  length (List.filter Achievement.unlocked (achievements s)).

Definition totalCount (s : FocusPopApp) : nat := length (achievements s).

(** [exportData]: the text offered for download; the state is not changed. *)
Definition exportData : M jsonText :=
  s ← this;
  let dataStr := Text (appData s) in
  showCharacterMessage "taskComplete" "happy";;
  emit (CharacterText "Data exported successfully! Your backup is ready.");;
  mret dataStr.

(** ** Vocabulary of the further properties *)

(** The tasks of the active list, as values. *)
Definition activeTasks (s : FocusPopApp) : list Task.t :=
  deref (objects s) (tasks s).

(** The character of a decimal digit. *)
Definition digit (n : Z) : ascii := ascii_of_nat (48 + Z.to_nat n).

(** What a countdown from [before] to [after] sends: the encouragement,
    when it is a work countdown that passed through half the duration. *)
Definition encouragement (mode : ModeType) (before after : Z) : list Event :=
  if is_work mode && (after <=? TimerMode.duration (modes work) / 2)
     && (TimerMode.duration (modes work) / 2 <? before)
  then [CharacterMessage "encouragement" "motivational"] else [].

(** The operations in which the achievements can be evaluated or replaced. *)
Definition evaluates (op : Op) : bool :=
  match op with Tick _ | Import _ _ | Reload _ => true | _ => false end.

(** The place of "zen-master" in the table. *)
Definition zenMaster : nat := 11.


(** The storage item is up to date on the table and on [totalBreaks]. *)
Definition snapshot_current (s : FocusPopApp) : Prop :=
  (localStorage s = None /\ achievements s = achievementTable /\ totalBreaks s = 0) \/
  (exists saved, localStorage s = Some (Text (appData saved)) /\
                 achievements saved = achievements s /\
                 totalBreaks saved = totalBreaks s).

(** [timeLeft] after the page imported its own export. *)
Definition reimportedTime (s : FocusPopApp) : Z :=
  if isRunning s then (if timeLeft s =? 0 then 25 * 60 else timeLeft s)
  else TimerMode.duration (modes (currentMode s)).

(** The snapshot of [s] with the countdown left out. *)
Definition durable (s : FocusPopApp) : json := appData (set_timeLeft 0 s).

(** The storage item holds every durable field of the page but the
    countdown: nothing was ever saved and the page has the initial values,
    or the last snapshot agrees with the page. *)
Definition up_to_date (s : FocusPopApp) : Prop :=
  (localStorage s = None /\ durable s = durable (initial (isDark s) None)) \/
  (exists saved, table_shape saved /\
                 localStorage s = Some (Text (appData saved)) /\
                 durable saved = durable s).

(** What one operation does to the storage: it leaves the item and the
    durable fields alone, or it saves. *)
Definition saves_or_counts (s s' : FocusPopApp) : Prop :=
  (localStorage s' = localStorage s /\ durable s' = durable s) \/
  localStorage s' = Some (Text (appData s')).





(** A minute after [noon]. *)
Definition later : Clock :=
  {| now := 1700000060000; localeString := "11/14/2023, 12:01:00 PM"; hours := 12 |}.

(** Three tasks, of which the last two were added in the same millisecond
    and share their id. *)
Definition threeTasks : list Op :=
  [ AddTask noon "write report"; AddTask later "answer mail"; AddTask later "review" ].

(** [text] after a no-break space (U+00A0) and before an ideographic space
    (U+3000). *)
Definition paddedInput (text : string) : string :=
  String "194" (String "160" text) +:+ String "227" (String "128" (String "128" "")).

(** Sample runs: two sets archived and a third task added; a work session
    followed by its break. *)
Definition twoSets : list Op :=
  [ AddTask noon "write report"; FinishCurrentSet noon "";
    AddTask noon "answer mail"; FinishCurrentSet noon "";
    AddTask noon "review" ].

Definition sessionAndBreak : list Op :=
  oneSession ++ [FireSwitch; Start] ++ repeat (Tick noon) 300.

(** * Properties *)

(** Unfolds the monad and the straight-line helpers, then computes. *)
Ltac msimpl :=
  cbv beta iota zeta delta
    [mbind mret M_bind M_ret bind ret this modify emit throw when prepend
     showCharacterMessage showNotification playNotification
     showAchievementNotification saveData pauseTimer scheduleSwitch];
  cbn.

Ltac msimpl_in H :=
  cbv beta iota zeta delta
    [mbind mret M_bind M_ret bind ret this modify emit throw when prepend
     showCharacterMessage showNotification playNotification
     showAchievementNotification saveData pauseTimer scheduleSwitch] in H;
  cbn in H.

(** ** The monad, equationally *)

Lemma prepend_nil {A} (o : Outcome A) : prepend [] o = o.
Proof. destruct o; reflexivity. Qed.

Lemma bind_eq {A B} (m : M A) (k : A -> M B) s :
  (m ≫= k) s =
    match m s with
    | Ok a s1 out1 => prepend out1 (k a s1)
    | Throw e s1 out1 => Throw e s1 out1
    | OutOfType => OutOfType
    end.
Proof. reflexivity. Qed.

Lemma this_bind {B} (k : FocusPopApp -> M B) s : (this ≫= k) s = k s s.
Proof. change ((this ≫= k) s) with (prepend [] (k s s)). apply prepend_nil. Qed.

Lemma ret_bind {A B} (a : A) (k : A -> M B) s : (mret a ≫= k) s = k a s.
Proof. change ((mret a ≫= k) s) with (prepend [] (k a s)). apply prepend_nil. Qed.

Lemma modify_bind {B} f (k : unit -> M B) s : (modify f ≫= k) s = k tt (f s).
Proof. change ((modify f ≫= k) s) with (prepend [] (k tt (f s))). apply prepend_nil. Qed.

Lemma typed_bind {A B} (v : option A) (k : A -> M B) s :
  (typed v ≫= k) s = match v with Some a => k a s | None => OutOfType end.
Proof.
  destruct v as [a|]; [|reflexivity].
  change ((typed (Some a) ≫= k) s) with (prepend [] (k a s)). apply prepend_nil.
Qed.

Lemma try_catch_eq (m : M unit) handler s :
  try_catch m handler s =
    match m s with
    | Ok a s1 out1 => Ok a s1 out1
    | Throw e s1 out1 => prepend out1 (handler e s1)
    | OutOfType => OutOfType
    end.
Proof. reflexivity. Qed.

(** ** Achievement evaluation *)

Lemma checkAchievements_eq clock s :
  checkAchievements clock s =
    match newUnlocks clock s with
    | [] => Ok tt (afterPass clock s) []
    | first :: _ =>
        Ok tt (set_localStorage (Some (Text (appData (afterPass clock s)))) (afterPass clock s))
           (achievementReport first)
    end.
Proof.
  unfold checkAchievements, newUnlocks, afterPass, achievementReport.
  msimpl.
  destruct (unlockPass (getters s) clock (achievements s)) as [achs [|first rest]];
    reflexivity.
Qed.

Lemma unlockPass_fst app clock achs :
  fst (unlockPass app clock achs) =
    map (fun a =>
           if negb (Achievement.unlocked a) && Achievement.condition a app (hours clock)
           then unlock clock a else a) achs.
Proof.
  induction achs as [|a rest IH]; [reflexivity|].
  cbn. destruct (unlockPass app clock rest) as [rest' news]. cbn in IH. subst rest'.
  destruct (negb _ && _); reflexivity.
Qed.

Lemma unlockPass_snd app clock achs :
  snd (unlockPass app clock achs) =
    map (unlock clock)
      (List.filter (fun a => negb (Achievement.unlocked a)
                             && Achievement.condition a app (hours clock)) achs).
Proof.
  induction achs as [|a rest IH]; [reflexivity|].
  cbn. destruct (unlockPass app clock rest) as [rest' news]. cbn in IH. subst news.
  destruct (negb _ && _); reflexivity.
Qed.

(** C9.  One pass of [checkAchievements] returns, keeps the table in its
    order, unlocks exactly the locked achievements whose condition holds
    (each entry is afterwards unlocked iff it was unlocked or due), and
    reports to the presentation layer only the first of them in table order,
    or nothing when none was due. *)
Theorem checkAchievements_unlocks_all_reports_first (clock : Clock) (s : FocusPopApp) :
  exists s' out,
    checkAchievements clock s = Ok tt s' out /\
    achievements s' =
      map (fun a => if due clock s a then unlock clock a else a) (achievements s) /\
    (forall i a, achievements s !! i = Some a ->
       exists a', achievements s' !! i = Some a' /\
         Achievement.id a' = Achievement.id a /\
         Achievement.unlocked a' = Achievement.unlocked a || due clock s a) /\
    out = match List.filter (due clock s) (achievements s) with
          | [] => []
          | first :: _ => achievementReport first
          end.
Proof.
  assert (Hachs : forall s', achievements s' = achievements (afterPass clock s) ->
            achievements s' =
              map (fun a => if due clock s a then unlock clock a else a) (achievements s)).
  { intros s' ->. unfold afterPass. cbn. apply unlockPass_fst. }
  assert (Hout : forall o,
            o = match newUnlocks clock s with [] => [] | f :: _ => achievementReport f end ->
            o = match List.filter (due clock s) (achievements s) with
                | [] => []
                | first :: _ => achievementReport first
                end).
  { intros o ->. unfold newUnlocks. rewrite unlockPass_snd.
    fold (due clock s). destruct (List.filter _ _); reflexivity. }
  assert (Hidx : forall s', achievements s' = achievements (afterPass clock s) ->
            forall i a, achievements s !! i = Some a ->
              exists a', achievements s' !! i = Some a' /\
                Achievement.id a' = Achievement.id a /\
                Achievement.unlocked a' = Achievement.unlocked a || due clock s a).
  { intros s' Hs' i a Hi. rewrite (Hachs s' Hs'), list_lookup_fmap, Hi. cbn.
    eexists; split; [reflexivity|].
    unfold due. destruct (Achievement.unlocked a) eqn:Hu; cbn; [auto|].
    destruct (Achievement.condition a (getters s) (hours clock)); cbn; auto. }
  rewrite checkAchievements_eq.
  destruct (newUnlocks clock s) as [|first rest] eqn:Hnew.
  - exists (afterPass clock s), []. repeat split; auto.
    all: apply Hout; rewrite Hnew; reflexivity.
  - eexists _, _. split; [reflexivity|]. repeat split; auto.
    all: apply Hout; rewrite Hnew; reflexivity.
Qed.

Lemma grows_refl achs : grows achs achs.
Proof. induction achs; constructor; auto. Qed.

Lemma grows_trans achs1 achs2 achs3 :
  grows achs1 achs2 -> grows achs2 achs3 -> grows achs1 achs3.
Proof.
  intros H12. revert achs3.
  induction H12 as [|a1 a2 l1 l2 [Hl Hu] _ IH]; intros achs3 H23;
    inversion H23 as [|? a3 ? l3 [Hl' Hu'] Hrest]; subst; constructor.
  - split; [congruence|auto].
  - apply IH, Hrest.
Qed.

Lemma grows_lookup achs achs' i a :
  grows achs achs' -> achs !! i = Some a ->
  exists a', achs' !! i = Some a' /\
    Achievement.id a' = Achievement.id a /\
    (Achievement.unlocked a = true -> Achievement.unlocked a' = true).
Proof.
  intros Hg Hi.
  destruct (Forall2_lookup_l _ _ _ _ _ Hg Hi) as (a' & Hi' & Hl & Hu).
  exists a'. repeat split; [exact Hi'| |exact Hu].
  apply (f_equal Achievement.id) in Hl. exact Hl.
Qed.

Lemma grows_shape achs achs' : grows achs achs' -> map lock achs' = map lock achs.
Proof.
  induction 1 as [|a a' l l' [Hl _] _ IH]; [reflexivity|]. cbn. rewrite Hl, IH. reflexivity.
Qed.

Lemma unlockPass_grows app clock achs : grows achs (fst (unlockPass app clock achs)).
Proof.
  rewrite unlockPass_fst.
  induction achs as [|a rest IH]; constructor; [|exact IH].
  destruct (negb (Achievement.unlocked a) && _); auto.
Qed.

(** ** Timer *)

Lemma switchMode_eq mode s :
  switchMode mode s =
    if isRunning s then Ok tt s []
    else
      Ok tt (set_localStorage
               (Some (Text (appData (set_timeLeft (TimerMode.duration (modes mode))
                                       (set_currentMode mode s)))))
               (set_timeLeft (TimerMode.duration (modes mode)) (set_currentMode mode s))) [].
Proof. unfold switchMode. rewrite this_bind. destruct (isRunning s); reflexivity. Qed.

Lemma switchMode_idle mode s :
  isRunning s = false ->
  switchMode mode s =
    Ok tt (set_localStorage
             (Some (Text (appData (set_timeLeft (TimerMode.duration (modes mode))
                                     (set_currentMode mode s)))))
             (set_timeLeft (TimerMode.duration (modes mode)) (set_currentMode mode s))) [].
Proof. intros H. unfold switchMode. rewrite this_bind, H. reflexivity. Qed.

(** C8.  While the timer runs, [switchMode] returns at once: the state is
    the same and nothing is sent to the presentation layer. *)
Theorem switchMode_running_noop (mode : ModeType) (s : FocusPopApp) :
  isRunning s = true -> switchMode mode s = Ok tt s [].
Proof.
  intros H. unfold switchMode. msimpl. rewrite H. reflexivity.
Qed.

Lemma switchMode_running_noop_witness :
  isRunning (set_isRunning true (initial false None)) = true /\
  forall mode,
    switchMode mode (set_isRunning true (initial false None))
    = Ok tt (set_isRunning true (initial false None)) [].
Proof.
  split; [reflexivity|].
  intros mode. apply (switchMode_running_noop mode). reflexivity.
Defined.

(** What [completeSession] leaves behind, field by field. *)
Lemma completeSession_result clock s :
  exists s' out,
    completeSession clock s = Ok tt s' out /\
    currentMode s' = currentMode s /\
    timeLeft s' = timeLeft s /\
    isRunning s' = false /\
    completedSessions s' =
      (if is_work (currentMode s) then completedSessions s + 1 else completedSessions s) /\
    tasks s' = tasks s /\
    history s' = history s /\
    totalBreaks s' = totalBreaks s /\
    objects s' = objects s /\
    isDark s' = isDark s /\
    pendingSwitch s' =
      pendingSwitch s ++
      [if is_work (currentMode s)
       then if Z.rem (completedSessions s + 1) 4 =? 0 then long_break else short_break
       else work] /\
    localStorage s' = Some (Text (appData s')) /\
    grows (achievements s) (achievements s').
Proof.
  unfold completeSession. msimpl.
  destruct (currentMode s) eqn:Hm; msimpl;
    try destruct (Z.rem (completedSessions s + 1) 4 =? 0) eqn:Hrem; msimpl;
    rewrite checkAchievements_eq;
    match goal with |- context [newUnlocks ?c ?x] => destruct (newUnlocks c x) end;
    unfold afterPass; msimpl; rewrite ?Hm; msimpl; rewrite ?Hrem;
    eexists _, _; (split; [reflexivity|]); cbn; rewrite ?Hm;
    repeat split; try reflexivity; apply unlockPass_grows.
Qed.

(** C3.  [completeSession] returns; in work mode it adds exactly one to
    [completedSessions] and schedules long-break when the new count is
    divisible by 4 and short-break otherwise; in either break mode it
    schedules work. *)
Theorem completeSession_counts_and_schedules (clock : Clock) (s : FocusPopApp) :
  exists s' out,
    completeSession clock s = Ok tt s' out /\
    match currentMode s with
    | work =>
        completedSessions s' = completedSessions s + 1 /\
        exists next,
          pendingSwitch s' = pendingSwitch s ++ [next] /\
          ((4 | completedSessions s') -> next = long_break) /\
          (~ (4 | completedSessions s') -> next = short_break)
    | short_break | long_break =>
        pendingSwitch s' = pendingSwitch s ++ [work]
    end.
Proof.
  destruct (completeSession_result clock s)
    as (s' & out & Hrun & Hmode & _ & _ & Hcs & _ & _ & _ & _ & _ & Hpend & _).
  exists s', out. split; [exact Hrun|].
  destruct (currentMode s); cbn in Hcs, Hpend; auto.
  split; [exact Hcs|].
  eexists. split; [exact Hpend|].
  rewrite Hcs.
  destruct (Z.rem (completedSessions s + 1) 4 =? 0) eqn:Hrem.
  - split; [reflexivity|]. intros Hn. exfalso. apply Hn.
    apply Z.rem_divide; [lia|]. apply Z.eqb_eq. exact Hrem.
  - split; [|reflexivity]. intros Hd. exfalso.
    apply Z.rem_divide in Hd; [|lia]. apply Z.eqb_neq in Hrem. contradiction.
Qed.

(** C2, as the code has it.  [completeSession] never writes [totalBreaks]:
    in every mode, the break modes included, the counter after the call is
    the counter before it, so it is not the counter plus one. *)
Theorem completeSession_leaves_totalBreaks (clock : Clock) (s : FocusPopApp) :
  exists s' out,
    completeSession clock s = Ok tt s' out /\
    totalBreaks s' = totalBreaks s /\
    totalBreaks s' <> totalBreaks s + 1.
Proof.
  destruct (completeSession_result clock s)
    as (s' & out & Hrun & _ & _ & _ & _ & _ & _ & Htb & _).
  exists s', out. repeat split; [exact Hrun|exact Htb|lia].
Qed.

Lemma tick_result clock s :
  exists s' out,
    tick clock s = Ok tt s' out /\
    tasks s' = tasks s /\ history s' = history s /\ objects s' = objects s /\
    keeps_flags s s'.
Proof.
  unfold tick. msimpl.
  destruct (is_work (currentMode s) && _); msimpl.
  all: destruct (timeLeft s - 1 <=? 0); msimpl.
  all: try (eexists _, _; split; [reflexivity|]; repeat split;
            first [reflexivity | apply grows_refl | left; split; reflexivity]).
  all: match goal with |- context [completeSession ?c ?x] =>
         destruct (completeSession_result c x)
           as (s' & out & -> & _ & _ & _ & _ & Ht & Hh & _ & Ho & _ & _ & Hst & Hg)
       end.
  all: eexists _, _; split; [reflexivity|]; cbn in *; repeat split; auto.
Qed.

(** ** Runs of the page *)

Lemma exec_steps ops : forall s s', exec ops s = Some s' -> steps s ops s'.
Proof.
  induction ops as [|op ops IH]; intros s s' H; cbn in H.
  - injection H as <-. constructor.
  - destruct (enabled op s) eqn:Hen; [|discriminate].
    destruct (run op s) as [[] s1 out|e s1 out|] eqn:Hrun; [| |discriminate].
    + econstructor; [eapply step_ok; eassumption|apply IH, H].
    + assert (Hop : forall dark, op <> Reload dark).
      { intros dark ->. discriminate. }
      econstructor; [eapply step_throw; eassumption|].
      apply IH. destruct op; try exact H. exfalso. eapply Hop. reflexivity.
Qed.

Lemma freshPage_boots :
  constructor freshPage = Ok tt freshPage [Later 1500 (CharacterMessage "welcome" "happy")].
Proof. reflexivity. Qed.

Lemma exec_reachable ops s : exec ops freshPage = Some s -> reachable s.
Proof.
  intros H. exists false, None, freshPage.
  eexists _, ops. split; [exact freshPage_boots|]. apply exec_steps, H.
Qed.

(** C10, as the code has it.  Two runs of the page leave the range.  After
    a work session has run out, [timeLeft] is 0 and the switch to the break
    is one second away; pressing start in that second makes the guard of
    [switchMode] skip the switch, and the next tick takes [timeLeft] to -1.
    Importing a backup while the timer runs stores the imported
    [timeLeft] (1500) with the imported mode (short-break, 300 seconds),
    because [switchMode], which would reset it, returns at once. *)
Theorem timeLeft_leaves_range :
  (exists s,
     exec ([Start] ++ repeat (Tick noon) 1500 ++ [Start; FireSwitch; Tick noon]) freshPage
       = Some s /\
     reachable s /\ timeLeft s = -1 /\ timeLeft s < 0) /\
  (exists s,
     exec [Start;
           Import (Content (Text (JObj [ ("currentMode", JStr "short-break");
                                         ("timeLeft", JNum 1500) ]))) true] freshPage
       = Some s /\
     reachable s /\ currentMode s = short_break /\ timeLeft s = 1500 /\
     TimerMode.duration (modes (currentMode s)) < timeLeft s).
Proof.
  split.
  - destruct (exec ([Start] ++ repeat (Tick noon) 1500 ++ [Start; FireSwitch; Tick noon])
                freshPage) as [s|] eqn:Hexec; [|vm_compute in Hexec; discriminate].
    exists s. split; [reflexivity|]. split; [apply (exec_reachable _ _ Hexec)|].
    vm_compute in Hexec. injection Hexec as <-. cbn. split; [reflexivity|lia].
  - match goal with |- exists s, exec ?ops _ = _ /\ _ =>
      destruct (exec ops freshPage) as [s|] eqn:Hexec; [|vm_compute in Hexec; discriminate]
    end.
    exists s. split; [reflexivity|]. split; [apply (exec_reachable _ _ Hexec)|].
    vm_compute in Hexec. injection Hexec as <-. cbn. repeat split; lia.
Qed.

(** ** Operations other than import and reload *)

Ltac flags_kept :=
  split; [apply grows_refl | first [left; split; reflexivity | right; reflexivity]].

Lemma run_keeps_flags op s :
  no_import op -> (forall dark, op <> Reload dark) ->
  exists s' out, run op s = Ok tt s' out /\ keeps_flags s s'.
Proof.
  destruct op; cbn [no_import run]; intros Hop Hreload; try contradiction.
  - (* Start *)
    unfold startTimer. msimpl.
    destruct (is_work (currentMode s)); eexists _, _; (split; [reflexivity|flags_kept]).
  - (* Pause *) eexists _, _; split; [reflexivity|flags_kept].
  - (* Reset *) eexists _, _; split; [reflexivity|flags_kept].
  - (* Tick *)
    destruct (tick_result clock s) as (s' & out & Hrun & _ & _ & _ & Hk). eauto.
  - (* SwitchMode *)
    unfold switchMode. msimpl.
    destruct (isRunning s); eexists _, _; (split; [reflexivity|flags_kept]).
  - (* FireSwitch *)
    unfold fireSwitch, switchMode. msimpl.
    destruct (pendingSwitch s); msimpl; [|destruct (isRunning s)];
      eexists _, _; (split; [reflexivity|flags_kept]).
  - (* AddTask *)
    unfold addTask.
    destruct (String.eqb (trim taskInput) ""); msimpl;
      eexists _, _; (split; [reflexivity|flags_kept]).
  - (* ToggleTask *)
    unfold toggleTask. msimpl.
    destruct (List.find _ (tasks s)) as [l|]; msimpl;
      [destruct (objects s !! l) as [task|]; msimpl;
       [destruct (negb (Task.completed task)); msimpl|]|];
      eexists _, _; (split; [reflexivity|flags_kept]).
  - (* DeleteTask *) eexists _, _; split; [reflexivity|flags_kept].
  - (* FinishCurrentSet *) eexists _, _; split; [reflexivity|flags_kept].
  - (* StartNewSet *)
    unfold startNewSet, finishCurrentSet. msimpl.
    destruct ((completedSessions s >? 0) || (len (tasks s) >? 0)); msimpl;
      [destruct confirmed; msimpl|];
      eexists _, _; (split; [reflexivity|flags_kept]).
  - (* DeleteHistory *) eexists _, _; split; [reflexivity|flags_kept].
  - (* ToggleTheme *) eexists _, _; split; [reflexivity|flags_kept].
  - (* Reload *) exfalso. eapply Hreload. reflexivity.
Qed.

Lemma refs_in_app objs extra refs : refs_in objs refs -> refs_in (objs ++ extra) refs.
Proof.
  unfold refs_in. intros H. eapply Forall_impl; [exact H|].
  cbn. intros l Hl. rewrite length_app. lia.
Qed.

Lemma sets_in_app objs extra sets : sets_in objs sets -> sets_in (objs ++ extra) sets.
Proof.
  unfold sets_in. intros H. eapply Forall_impl; [exact H|].
  cbn. intros set Hset. apply refs_in_app, Hset.
Qed.

Lemma refs_in_seq objs ts : refs_in (objs ++ ts) (seq (length objs) (length ts)).
Proof.
  unfold refs_in. apply Forall_forall. intros l Hl.
  apply list_elem_of_In, in_seq in Hl. rewrite length_app. lia.
Qed.

Ltac wf_same := eexists _, _; split; [reflexivity|]; intros Hwf; exact Hwf.

Lemma run_well_formed op s :
  no_import op -> (forall dark, op <> Reload dark) ->
  exists s' out, run op s = Ok tt s' out /\ (well_formed s -> well_formed s').
Proof.
  destruct op; cbn [no_import run]; intros Hop Hreload; try contradiction.
  - (* Start *)
    unfold startTimer. msimpl. destruct (is_work (currentMode s)); wf_same.
  - (* Pause *) wf_same.
  - (* Reset *) wf_same.
  - (* Tick *)
    destruct (tick_result clock s) as (s' & out & Hrun & Ht & Hh & Ho & _).
    exists s', out. split; [exact Hrun|]. unfold well_formed. rewrite Ht, Hh, Ho. auto.
  - (* SwitchMode *) rewrite switchMode_eq. destruct (isRunning s); wf_same.
  - (* FireSwitch *)
    unfold fireSwitch. rewrite this_bind. destruct (pendingSwitch s); [wf_same|].
    rewrite modify_bind, switchMode_eq. cbn. destruct (isRunning s); wf_same.
  - (* AddTask *)
    unfold addTask. destruct (String.eqb (trim taskInput) ""); msimpl; [wf_same|].
    eexists _, _; split; [reflexivity|]. intros [Ht Hh]. split; cbn.
    + apply Forall_app. split; [apply refs_in_app, Ht|].
      constructor; [|constructor]. rewrite length_app. cbn. lia.
    + apply sets_in_app, Hh.
  - (* ToggleTask *)
    unfold toggleTask. msimpl.
    destruct (List.find _ (tasks s)) as [l|]; msimpl; [|wf_same].
    destruct (objects s !! l) as [task|]; msimpl; [|wf_same].
    destruct (negb (Task.completed task)); msimpl;
      (eexists _, _; split; [reflexivity|]); intros [Ht Hh];
      (split; cbn; unfold refs_in, sets_in, refs_in in *; rewrite length_insert; assumption).
  - (* DeleteTask *)
    unfold deleteTask. msimpl. eexists _, _; split; [reflexivity|].
    intros [Ht Hh]. split; cbn; [|exact Hh].
    unfold refs_in in *. rewrite Forall_forall in *. intros l Hl. apply Ht.
    apply list_elem_of_In in Hl. apply List.filter_In in Hl as [Hl _].
    apply list_elem_of_In, Hl.
  - (* FinishCurrentSet *)
    eexists _, _; split; [reflexivity|]. intros [Ht Hh]. split; cbn.
    + constructor.
    + constructor; [exact Ht|exact Hh].
  - (* StartNewSet *)
    unfold startNewSet, finishCurrentSet. msimpl.
    destruct ((completedSessions s >? 0) || (len (tasks s) >? 0)); msimpl; [|wf_same].
    destruct confirmed; msimpl; [|wf_same].
    eexists _, _; split; [reflexivity|]. intros [Ht Hh]. split; cbn.
    + constructor.
    + constructor; [exact Ht|exact Hh].
  - (* DeleteHistory *)
    unfold deleteHistory. msimpl. eexists _, _; split; [reflexivity|].
    intros [Ht Hh]. split; cbn; [exact Ht|].
    unfold sets_in in *. rewrite Forall_forall in *. intros set Hset. apply Hh.
    apply list_elem_of_In in Hset. apply List.filter_In in Hset as [Hset _].
    apply list_elem_of_In, Hset.
  - (* ToggleTheme *) wf_same.
  - (* Reload *) exfalso. eapply Hreload. reflexivity.
Qed.

Lemma touches_active_only_refl s s' :
  history s' = history s -> objects s' = objects s -> tasks s' = tasks s ->
  touches_active_only s s'.
Proof.
  intros Hh Ho Ht. unfold touches_active_only. rewrite Hh, Ho, Ht.
  repeat split; auto.
Qed.

Lemma run_touches_active_only op s :
  leaves_history op ->
  exists s' out, run op s = Ok tt s' out /\ touches_active_only s s'.
Proof.
  destruct op; cbn [leaves_history run]; intros Hop; try contradiction.
  - (* Start *)
    unfold startTimer. msimpl. destruct (is_work (currentMode s));
      eexists _, _; (split; [reflexivity|]); apply touches_active_only_refl; reflexivity.
  - (* Pause *)
    eexists _, _; split; [reflexivity|]. apply touches_active_only_refl; reflexivity.
  - (* Reset *)
    eexists _, _; split; [reflexivity|]. apply touches_active_only_refl; reflexivity.
  - (* Tick *)
    destruct (tick_result clock s) as (s' & out & Hrun & Ht & Hh & Ho & _).
    exists s', out. split; [exact Hrun|]. apply touches_active_only_refl; assumption.
  - (* SwitchMode *)
    unfold switchMode. msimpl. destruct (isRunning s);
      eexists _, _; (split; [reflexivity|]); apply touches_active_only_refl; reflexivity.
  - (* FireSwitch *)
    unfold fireSwitch, switchMode. msimpl. destruct (pendingSwitch s); msimpl;
      [|destruct (isRunning s)];
      eexists _, _; (split; [reflexivity|]); apply touches_active_only_refl; reflexivity.
  - (* AddTask *)
    unfold addTask. destruct (String.eqb (trim taskInput) ""); msimpl.
    + eexists _, _; split; [reflexivity|]. apply touches_active_only_refl; reflexivity.
    + eexists _, _; split; [reflexivity|]. unfold touches_active_only. cbn.
      repeat split.
      * rewrite length_app. lia.
      * intros l _ Hl. apply lookup_app_l. exact Hl.
      * intros l Hl. apply elem_of_app in Hl as [Hl|Hl]; [left; exact Hl|right].
        apply list_elem_of_singleton in Hl. subst l. lia.
  - (* ToggleTask *)
    unfold toggleTask. msimpl.
    destruct (List.find _ (tasks s)) as [l|] eqn:Hfind; msimpl.
    + destruct (objects s !! l) as [task|] eqn:Hl; msimpl.
      * assert (Hin : l ∈ tasks s).
        { apply list_elem_of_In. apply (List.find_some _ _ Hfind). }
        destruct (negb (Task.completed task)); msimpl;
          eexists _, _; (split; [reflexivity|]); unfold touches_active_only; cbn;
          (repeat split;
           [ rewrite length_insert; lia
           | intros l' Hl' _; apply list_lookup_insert_ne; intros ->; contradiction
           | intros l' Hl'; left; exact Hl' ]).
      * eexists _, _; split; [reflexivity|].
        apply touches_active_only_refl; reflexivity.
    + eexists _, _; split; [reflexivity|]. apply touches_active_only_refl; reflexivity.
  - (* DeleteTask *)
    unfold deleteTask. msimpl. eexists _, _; split; [reflexivity|].
    unfold touches_active_only. cbn. repeat split; auto.
    intros l Hl. left. apply list_elem_of_In in Hl. apply List.filter_In in Hl as [Hl _].
    apply list_elem_of_In. exact Hl.
  - (* ToggleTheme *)
    eexists _, _; split; [reflexivity|]. apply touches_active_only_refl; reflexivity.
Qed.

(** ** What reading a snapshot can do *)

Lemma alloc_eq ts s :
  alloc ts s = Ok (seq (length (objects s)) (length ts)) (set_objects (objects s ++ ts) s) [].
Proof. reflexivity. Qed.

Lemma allocSet_eq p s :
  allocSet p s =
    Ok {| PomodoroSet.id := parsedId p;
          PomodoroSet.date := parsedDate p;
          PomodoroSet.name := parsedName p;
          PomodoroSet.completedSessions := parsedCompletedSessions p;
          PomodoroSet.tasks := seq (length (objects s)) (length (parsedTasks p)) |}
       (set_objects (objects s ++ parsedTasks p) s) [].
Proof. reflexivity. Qed.

Lemma set_objects_same s : set_objects (objects s) s = s.
Proof. destruct s; reflexivity. Qed.

Lemma set_achievements_same s : set_achievements (achievements s) s = s.
Proof. destruct s; reflexivity. Qed.

Lemma allocates_ret {A} (ok : list Task.t -> A -> Prop) a s :
  ok (objects s) a -> allocates ok s (Ok a s []).
Proof.
  intros H. exists []. rewrite app_nil_r, set_objects_same. auto.
Qed.

Lemma tasksOrEmpty_allocates v s : allocates refs_in s (tasksOrEmpty v s).
Proof.
  unfold tasksOrEmpty. destruct (truthy v).
  - rewrite typed_bind. destruct (asTasks v) as [ts|]; [|exact I].
    rewrite alloc_eq. exists ts. repeat split. apply refs_in_seq.
  - apply allocates_ret. constructor.
Qed.

Lemma mapM_allocSet_allocates sets : forall s, allocates sets_in s (mapM allocSet sets s).
Proof.
  induction sets as [|p sets IH]; intros s.
  - apply allocates_ret. constructor.
  - cbn [mapM]. rewrite bind_eq, allocSet_eq, bind_eq.
    specialize (IH (set_objects (objects s ++ parsedTasks p) s)).
    destruct (mapM allocSet sets _) as [res s' out| |]; cbn in *; auto.
    destruct IH as (extra & -> & Hres & ->).
    exists (parsedTasks p ++ extra). rewrite app_assoc. repeat split.
    constructor; [|exact Hres]. apply refs_in_app. cbn. apply refs_in_seq.
Qed.

Lemma historyOrEmpty_allocates v s : allocates sets_in s (historyOrEmpty v s).
Proof.
  unfold historyOrEmpty. destruct (truthy v).
  - rewrite typed_bind. destruct (asHistory v) as [sets|]; [|exact I].
    apply mapM_allocSet_allocates.
  - apply allocates_ret. constructor.
Qed.

Lemma numberOr_eq v d s :
  numberOr v d s =
    if truthy v then match asNumber v with Some n => Ok n s [] | None => OutOfType end
    else Ok d s [].
Proof. unfold numberOr. destruct (truthy v); [destruct (asNumber v)|]; reflexivity. Qed.

Lemma only_restores_refl s : only_restores s (Ok tt s []).
Proof. split; [exists (achievements s); split; [destruct s|]; reflexivity|reflexivity]. Qed.

Lemma only_restores_throw e s : only_restores s (Throw e s []).
Proof. split; [exists (achievements s); split; [destruct s|]; reflexivity|reflexivity]. Qed.

Lemma restoreAchievement_restores savedAch s : only_restores s (restoreAchievement savedAch s).
Proof.
  unfold restoreAchievement. rewrite this_bind.
  assert (Hmain : only_restores s
    (match findAchievement (prop savedAch "id") (achievements s) with
     | Some i =>
         match achievements s !! i with
         | Some achievement =>
             u ← typed (asBoolean (prop savedAch "unlocked"));
             d ← typed (asOptionalString (prop savedAch "unlockedDate"));
             modify (set_achievements
                       (<[i := Achievement.mk (Achievement.id achievement)
                                 (Achievement.name achievement)
                                 (Achievement.description achievement)
                                 (Achievement.icon achievement)
                                 (Achievement.condition achievement) u d]>
                          (achievements s)))
         | None => mret tt
         end
     | None => mret tt
     end s)).
  { destruct (findAchievement _ _) as [i|]; [|apply only_restores_refl].
    destruct (achievements s !! i) as [a|] eqn:Hi; [|apply only_restores_refl].
    rewrite typed_bind. destruct (asBoolean _) as [u|]; [|exact I].
    rewrite typed_bind. destruct (asOptionalString _) as [d|]; [|exact I].
    split; [|reflexivity]. eexists. split; [reflexivity|].
    rewrite list_fmap_insert. apply list_insert_id.
    rewrite list_lookup_fmap, Hi. reflexivity. }
  destruct savedAch; try exact Hmain.
  revert Hmain. generalize (only_restores_throw TypeError s).
  destruct (achievements s); auto.
Qed.

Lemma only_restores_bind s (m : M unit) (k : M unit) :
  only_restores s (m s) ->
  (forall s1, only_restores s1 (k s1)) ->
  only_restores s ((m ;; k) s).
Proof.
  intros Hm Hk. rewrite bind_eq.
  destruct (m s) as [[] s1 out1|e s1 out1|]; cbn in *; auto.
  destruct Hm as [(achs & -> & Hshape) ->].
  specialize (Hk (set_achievements achs s)).
  destruct (k _) as [[] s2 out2|e s2 out2|]; cbn in *; auto.
  all: destruct Hk as [(achs2 & -> & Hshape2) ->].
  all: split; [|reflexivity]; exists achs2; split; [reflexivity|congruence].
Qed.

Lemma forEach_restores items : forall s, only_restores s (forEach restoreAchievement items s).
Proof.
  induction items as [|x items IH]; intros s.
  - apply only_restores_refl.
  - cbn [forEach]. apply only_restores_bind; [apply restoreAchievement_restores|exact IH].
Qed.

Lemma restoreAchievements_restores v s : only_restores s (restoreAchievements v s).
Proof.
  unfold restoreAchievements. destruct (truthy v); [|apply only_restores_refl].
  destruct v as [[]|]; try apply only_restores_throw. apply forEach_restores.
Qed.

Lemma loadData_stored dark j s0 out :
  loadData (initial dark (Some (Text j))) = Ok tt s0 out ->
  well_formed s0 /\
  exists st s1 out1,
    achievements st = achievementTable /\
    restoreAchievements (prop j "achievements") st = Ok tt s1 out1 /\
    achievements s0 = achievements s1 /\
    localStorage s0 = Some (Text (appData s0)).
Proof.
  unfold loadData. rewrite this_bind. cbn [localStorage initial JSON_parse].
  rewrite ret_bind.
  assert (Hfield : forall (k : option json -> M unit) s,
            j <> JNull -> (field j "currentMode" ≫= k) s = k (prop j "currentMode") s).
  { intros k s Hj. destruct j; try (apply ret_bind). contradiction. }
  assert (Hj : j = JNull \/ j <> JNull).
  { destruct j; [left; reflexivity|right; discriminate..]. }
  destruct Hj as [->|Hj]; [intros H; discriminate H|].
  rewrite Hfield by exact Hj. clear Hfield Hj.
  rewrite typed_bind; destruct (asMode _) as [mode|]; [|discriminate].
  rewrite modify_bind, typed_bind; destruct (asNumber _) as [tl|]; [|discriminate].
  rewrite modify_bind, typed_bind; destruct (asNumber _) as [cs|]; [|discriminate].
  rewrite modify_bind, bind_eq.
  match goal with |- context [tasksOrEmpty ?v ?st] =>
    pose proof (tasksOrEmpty_allocates v st) as Ht;
    destruct (tasksOrEmpty v st) as [refs st1 o1| |]; cbn in Ht;
    [destruct Ht as (extra1 & -> & Hrefs & ->)|contradiction|discriminate]
  end.
  rewrite prepend_nil, modify_bind, bind_eq.
  match goal with |- context [historyOrEmpty ?v ?st] =>
    pose proof (historyOrEmpty_allocates v st) as Hh;
    destruct (historyOrEmpty v st) as [sets st1 o1| |]; cbn in Hh;
    [destruct Hh as (extra2 & -> & Hsets & ->)|contradiction|discriminate]
  end.
  rewrite prepend_nil, modify_bind, bind_eq, numberOr_eq.
  match goal with |- context [if ?c then _ else _] =>
    destruct c; [destruct (asNumber _) as [tb|]; [|discriminate]|] end.
  all: rewrite prepend_nil, modify_bind, bind_eq.
  all: match goal with |- context [restoreAchievements ?v ?st] =>
         pose proof (restoreAchievements_restores v st) as Hr;
         assert (Hidle : isRunning st = false) by reflexivity;
         assert (Htable : achievements st = achievementTable) by reflexivity;
         assert (Hst : well_formed st)
           by (split; cbn; [apply refs_in_app, Hrefs|exact Hsets]);
         revert Hr Hidle Htable Hst; generalize st; intros st0 Hr Hidle Htable Hst;
         destruct (restoreAchievements v st0) as [[] st1 o1|e st1 o1|] eqn:Hrun;
         [|discriminate..];
         destruct Hr as [(achs & Hst1 & _) ->]
       end.
  all: assert (Hidle1 : isRunning st1 = false) by (rewrite Hst1; exact Hidle).
  all: assert (Hwf1 : well_formed st1) by (rewrite Hst1; exact Hst).
  all: clear Hst1.
  all: rewrite prepend_nil, modify_bind, this_bind.
  all: rewrite switchMode_idle by exact Hidle1.
  all: intros H; injection H as <- _.
  all: split; [exact Hwf1|].
  all: exists st0, st1, []; split; [exact Htable|split; [exact Hrun|split; reflexivity]].
Qed.

(** ** Invariants of the reachable pages *)

Lemma boot_well_formed dark stored s0 out :
  constructor (initial dark stored) = Ok tt s0 out -> well_formed s0.
Proof.
  unfold constructor. rewrite bind_eq.
  destruct (loadData _) as [[] s1 out1|e s1 out1|] eqn:Hload; [|discriminate..].
  intros H. injection H as <- _.
  destruct stored as [[|j]|].
  - discriminate Hload.
  - apply (loadData_stored _ _ _ _ Hload).
  - injection Hload as <- _. split; constructor.
Qed.

Lemma boot_synced dark stored s0 out :
  constructor (initial dark stored) = Ok tt s0 out -> synced s0.
Proof.
  unfold constructor. rewrite bind_eq.
  destruct (loadData _) as [[] s1 out1|e s1 out1|] eqn:Hload; [|discriminate..].
  intros H. injection H as <- _.
  destruct stored as [[|j]|].
  - discriminate Hload.
  - destruct (loadData_stored _ _ _ _ Hload)
      as (_ & st & s2 & out2 & Hst & Hrestore & Hachs & Hstored).
    split.
    + unfold table_shape. rewrite Hachs.
      pose proof (restoreAchievements_restores (prop j "achievements") st) as Hr.
      rewrite Hrestore in Hr. destruct Hr as [(achs & -> & Hlock) _].
      cbn. rewrite Hlock, Hst. reflexivity.
    + right. exists s1. split; [exact Hstored|reflexivity].
  - injection Hload as <- _. split; [reflexivity|left; split; reflexivity].
Qed.

Lemma boot_sound dark stored s0 out :
  constructor (initial dark stored) = Ok tt s0 out -> sound s0.
Proof.
  intros Hboot. split; [eapply boot_well_formed, Hboot|eapply boot_synced, Hboot].
Qed.

Lemma sound_set_achievements achs s :
  map lock achs = map lock (achievements s) -> sound s -> sound (set_achievements achs s).
Proof.
  intros Hlock [Hwf Hshape]. split; [exact Hwf|].
  unfold table_shape in *. cbn. rewrite Hlock. exact Hshape.
Qed.

Lemma importData_sound upload confirmed s :
  sound s ->
  match importData upload confirmed s with
  | Ok _ s' _ | Throw _ s' _ => sound s'
  | OutOfType => True
  end.
Proof.
  intros Hs. destruct upload as [| |[|j]]; try exact Hs.
  unfold importData. rewrite try_catch_eq. cbn [JSON_parse]. rewrite ret_bind, bind_eq.
  destruct (negb (truthy (Some j)) || negb (typeof_object j)); [exact Hs|].
  cbn [mret M_ret ret]. rewrite prepend_nil.
  destruct confirmed; cbn [negb]; [|exact Hs].
  rewrite bind_eq.
  assert (Hmode : exists o,
    (if truthy (prop j "currentMode") then typed (asMode (prop j "currentMode"))
     else mret work) s = o /\ (o = OutOfType \/ exists m, o = Ok m s [])).
  { eexists. split; [reflexivity|].
    destruct (truthy (prop j "currentMode"));
      [destruct (asMode (prop j "currentMode"))|]; eauto. }
  destruct Hmode as (o & -> & [->|[m ->]]); [exact I|].
  rewrite prepend_nil, modify_bind, bind_eq, numberOr_eq.
  destruct (truthy (prop j "timeLeft"));
    [destruct (asNumber (prop j "timeLeft")); [|exact I]|].
  all: rewrite prepend_nil, modify_bind, bind_eq, numberOr_eq.
  all: destruct (truthy (prop j "completedSessions"));
    [destruct (asNumber (prop j "completedSessions")); [|exact I]|].
  all: rewrite prepend_nil, modify_bind, bind_eq.
  all: match goal with |- context [tasksOrEmpty ?v ?st] =>
         pose proof (tasksOrEmpty_allocates v st) as Ht;
         destruct (tasksOrEmpty v st) as [refs st1 o1| |]; cbn in Ht;
         [destruct Ht as (extra1 & -> & Hrefs & ->)|contradiction|exact I]
       end.
  all: rewrite prepend_nil, modify_bind, bind_eq.
  all: match goal with |- context [historyOrEmpty ?v ?st] =>
         pose proof (historyOrEmpty_allocates v st) as Hh;
         destruct (historyOrEmpty v st) as [sets st1 o1| |]; cbn in Hh;
         [destruct Hh as (extra2 & -> & Hsets & ->)|contradiction|exact I]
       end.
  all: rewrite prepend_nil, modify_bind, bind_eq, numberOr_eq.
  all: destruct (truthy (prop j "totalBreaks"));
    [destruct (asNumber (prop j "totalBreaks")); [|exact I]|].
  all: rewrite prepend_nil, modify_bind, modify_bind, bind_eq.
  all: match goal with |- context [restoreAchievements ?v ?st] =>
         pose proof (restoreAchievements_restores v st) as Hr;
         assert (Hst : sound st)
           by (split; [split; cbn; [apply refs_in_app, Hrefs|exact Hsets]|exact (proj2 Hs)]);
         revert Hr Hst; generalize st; intros st0 Hr Hst;
         destruct (restoreAchievements v st0) as [[] st1 o1|e st1 o1|];
         [| |exact I];
         destruct Hr as [(achs & -> & Hlock) ->];
         apply (sound_set_achievements achs st0 Hlock) in Hst
       end.
  all: try (cbn; exact Hst).
  all: rewrite prepend_nil, this_bind, bind_eq, switchMode_eq.
  all: destruct (isRunning _); cbn; exact Hst.
Qed.

Lemma step_sound s op s' : sound s -> step s op s' -> sound s'.
Proof.
  intros Hs Hstep.
  assert (Hcases : (exists u c, op = Import u c) \/ (exists dark, op = Reload dark) \/
                   (no_import op /\ forall dark, op <> Reload dark)).
  { destruct op; try (right; right; split; [exact I|discriminate]).
    - left. eauto.
    - right. left. eauto. }
  destruct Hcases as [(u & c & ->)|[(dark & ->)|[Hop Hnot]]].
  - pose proof (importData_sound u c s Hs) as Himp.
    inversion Hstep as [? ? ? _ Hrun|? ? ? ? _ _ Hrun]; subst;
      cbn [run] in Hrun; rewrite Hrun in Himp; exact Himp.
  - inversion Hstep as [? ? ? _ Hrun|? ? ? ? _ Hno _]; subst;
      [|exfalso; eapply Hno; reflexivity].
    eapply boot_sound, Hrun.
  - destruct (run_well_formed op s Hop Hnot) as (s1 & out1 & Hrun & Hwf).
    destruct (run_keeps_flags op s Hop Hnot) as (s2 & out2 & Hrun2 & Hgrows & _).
    rewrite Hrun in Hrun2. injection Hrun2 as <- _.
    inversion Hstep as [? ? ? _ Hrun'|? ? ? ? _ _ Hrun']; subst;
      rewrite Hrun in Hrun'; [|discriminate].
    injection Hrun' as <- _. destruct Hs as [Hwf0 Hshape]. split; [apply Hwf, Hwf0|].
    unfold table_shape. rewrite (grows_shape _ _ Hgrows). exact Hshape.
Qed.

(** Every page that can be reached is sound. *)
Lemma reachable_sound s : reachable s -> sound s.
Proof.
  intros (dark & stored & s0 & out & ops & Hboot & Hsteps).
  apply boot_sound in Hboot.
  induction Hsteps as [|s op ops s1 s2 Hstep _ IH]; [exact Hboot|].
  apply IH. eapply step_sound; eassumption.
Qed.

(** ** Tasks and history *)

Lemma step_leaves_history s op s' :
  leaves_history op -> step s op s' -> touches_active_only s s'.
Proof.
  intros Hop Hstep.
  destruct (run_touches_active_only op s Hop) as (s1 & out1 & Hrun & Htouch).
  inversion Hstep as [? ? ? _ Hrun'|? ? ? ? _ _ Hrun']; subst;
    rewrite Hrun in Hrun'; [|discriminate].
  injection Hrun' as <- _. exact Htouch.
Qed.

Lemma steps_keep_archive n base ops :
  Forall leaves_history ops ->
  forall s s', steps s ops s' ->
    archived_apart n base s ->
    archived_apart n base s' /\ history s' = history s.
Proof.
  induction 1 as [|op ops Hop _ IH]; intros s s' Hsteps Hs.
  - inversion Hsteps; subst. auto.
  - inversion Hsteps as [|? ? s1 ? Hstep Hrest]; subst.
    destruct (step_leaves_history _ _ _ Hop Hstep) as (Hh & Hlen & Hold & Hnew).
    destruct Hs as (Hn & Hbase & Hact).
    destruct (IH s1 s' Hrest) as [Hs' Hh'].
    + repeat split.
      * lia.
      * intros l Hl. rewrite <- (Hbase l Hl). apply Hold; [|lia].
        intros Hin. apply Hact in Hin. lia.
      * intros l Hl. destruct (Hnew l Hl) as [Hin|Hge]; [apply Hact, Hin|lia].
    + split; [exact Hs'|]. rewrite Hh'. exact Hh.
Qed.

Lemma deref_ext objs objs' refs :
  (forall l, l ∈ refs -> objs' !! l = objs !! l) ->
  deref objs' refs = deref objs refs.
Proof.
  induction refs as [|l refs IH]; intros H; [reflexivity|].
  unfold deref in *. cbn [omap list_omap]. rewrite (H l) by apply list_elem_of_here.
  rewrite IH; [reflexivity|]. intros l' Hl'. apply H. apply list_elem_of_further, Hl'.
Qed.

Lemma deref_length objs refs :
  Forall (fun l => (l < length objs)%nat) refs ->
  length (deref objs refs) = length refs.
Proof.
  induction 1 as [|l refs Hl _ IH]; [reflexivity|].
  unfold deref in *. cbn [omap list_omap].
  destruct (lookup_lt_is_Some_2 objs l Hl) as [t ->]. cbn [length]. rewrite IH. reflexivity.
Qed.

(** C4.  On every page that can be reached, [finishCurrentSet] returns and
    puts a new record at the head of [history]; the record holds all the
    tasks of the active list, with their values; when the name input is
    blank its name is ["Set N"] with [N] the former length of [history]
    plus one; afterwards [completedSessions] is 0 and the active list is
    empty.  The record is stored apart from the active list: whatever the
    timer, the theme and the task operations ([addTask], [toggleTask],
    [deleteTask]) do afterwards, [history] and the task values of the
    record stay as they were archived. *)
Theorem finishCurrentSet_archives
    (clock : Clock) (setNameInput : string) (s : FocusPopApp) :
  reachable s ->
  exists s1 out setData,
    finishCurrentSet clock setNameInput s = Ok tt s1 out /\
    history s1 = setData :: history s /\
    deref (objects s1) (PomodoroSet.tasks setData) = deref (objects s) (tasks s) /\
    length (deref (objects s) (tasks s)) = length (tasks s) /\
    (trim setNameInput = "" ->
       PomodoroSet.name setData = "Set " +:+ pretty (len (history s) + 1)) /\
    completedSessions s1 = 0 /\
    tasks s1 = [] /\
    forall ops s2,
      Forall leaves_history ops -> steps s1 ops s2 ->
      history s2 = history s1 /\
      deref (objects s2) (PomodoroSet.tasks setData) = deref (objects s) (tasks s).
Proof.
  intros Hreach. destruct (reachable_sound s Hreach) as [[Hvalid _] _].
  unfold finishCurrentSet. msimpl.
  eexists _, _, _. split; [reflexivity|]. cbn.
  split; [reflexivity|]. split; [reflexivity|].
  split; [apply deref_length, Hvalid|].
  split; [intros ->; reflexivity|].
  split; [reflexivity|]. split; [reflexivity|].
  intros ops s2 Hops Hsteps.
  match type of Hsteps with steps ?s1 _ _ =>
    destruct (steps_keep_archive (length (objects s)) (objects s) ops Hops s1 s2 Hsteps)
      as [(_ & Hbase & _) Hh]
  end.
  { repeat split; cbn; [lia|]. intros l Hl. apply elem_of_nil in Hl. contradiction. }
  split; [exact Hh|].
  apply deref_ext. intros l Hl. apply Hbase.
  unfold refs_in in Hvalid. rewrite Forall_forall in Hvalid. apply Hvalid, Hl.
Qed.

Lemma finishCurrentSet_archives_witness :
  exists s s1 out setData,
    exec [AddTask noon "write report"; AddTask noon "answer mail"; ToggleTask 1700000000000]
         freshPage = Some s /\
    reachable s /\
    finishCurrentSet noon "  " s = Ok tt s1 out /\
    history s1 = setData :: history s /\
    PomodoroSet.name setData = "Set 1" /\
    deref (objects s1) (PomodoroSet.tasks setData) = deref (objects s) (tasks s) /\
    completedSessions s1 = 0 /\
    tasks s1 = [].
Proof.
  destruct (exec [AddTask noon "write report"; AddTask noon "answer mail";
                  ToggleTask 1700000000000] freshPage) as [s|] eqn:Hexec;
    [|vm_compute in Hexec; discriminate].
  assert (Hreach : reachable s) by apply (exec_reachable _ _ Hexec).
  destruct (finishCurrentSet_archives noon "  " s Hreach)
    as (s1 & out & setData & Hrun & Hhist & Hderef & _ & Hname & Hcs & Htasks & _).
  exists s, s1, out, setData. repeat split; try assumption.
  rewrite Hname by reflexivity.
  vm_compute in Hexec. injection Hexec as <-. reflexivity.
Defined.

(** ** Persistence *)

Lemma asModeType_mode_string mode : asModeType (JStr (mode_string mode)) = Some mode.
Proof. destruct mode; reflexivity. Qed.

Lemma asTask_toJSON t : asTask (Task_toJSON t) = Some t.
Proof. destruct t; reflexivity. Qed.

Lemma asTasks_toJSON ts : asTasks (Some (JArr (map Task_toJSON ts))) = Some ts.
Proof.
  cbn [asTasks]. induction ts as [|t ts IH]; [reflexivity|].
  cbn [map mapM]. rewrite asTask_toJSON. cbn. rewrite IH. reflexivity.
Qed.

Lemma asPomodoroSet_toJSON objs set :
  asPomodoroSet (PomodoroSet_toJSON objs set) = Some (parsedOf objs set).
Proof.
  unfold asPomodoroSet.
  change (prop (PomodoroSet_toJSON objs set) "tasks")
    with (Some (JArr (map Task_toJSON (deref objs (PomodoroSet.tasks set))))).
  rewrite asTasks_toJSON. reflexivity.
Qed.

Lemma asHistory_toJSON objs sets :
  asHistory (Some (JArr (map (PomodoroSet_toJSON objs) sets)))
  = Some (map (parsedOf objs) sets).
Proof.
  cbn [asHistory]. induction sets as [|set sets IH]; [reflexivity|].
  cbn [map mapM]. rewrite asPomodoroSet_toJSON. cbn. rewrite IH. reflexivity.
Qed.

Lemma deref_seq ts : forall before after,
  deref (before ++ ts ++ after) (seq (length before) (length ts)) = ts.
Proof.
  induction ts as [|t ts IH]; intros before after; [reflexivity|].
  cbn [length seq app]. unfold deref in *. cbn [omap list_omap].
  rewrite list_lookup_middle by reflexivity.
  f_equal. specialize (IH (before ++ [t]) after).
  rewrite length_app, Nat.add_1_r, <- app_assoc in IH. exact IH.
Qed.

Lemma mapM_allocSet_parsed objs sets : forall s,
  exists sets' extra,
    mapM allocSet (map (parsedOf objs) sets) s
    = Ok sets' (set_objects (objects s ++ extra) s) [] /\
    forall more,
      map (PomodoroSet_toJSON (objects s ++ extra ++ more)) sets'
      = map (PomodoroSet_toJSON objs) sets.
Proof.
  induction sets as [|set sets IH]; intros s.
  - exists [], []. split; [|reflexivity].
    rewrite app_nil_r, set_objects_same. reflexivity.
  - cbn [map mapM]. rewrite bind_eq, allocSet_eq, bind_eq.
    destruct (IH (set_objects (objects s ++ parsedTasks (parsedOf objs set)) s))
      as (sets' & extra & -> & Hjson).
    eexists _, (parsedTasks (parsedOf objs set) ++ extra).
    split; [cbn; rewrite <- app_assoc; reflexivity|].
    intros more. cbn [map]. f_equal.
    + unfold PomodoroSet_toJSON.
      cbn [PomodoroSet.id PomodoroSet.name PomodoroSet.date
           PomodoroSet.completedSessions PomodoroSet.tasks].
      rewrite <- app_assoc, deref_seq. reflexivity.
    + specialize (Hjson more). cbn in Hjson. rewrite <- !app_assoc in *. exact Hjson.
Qed.

Lemma truthy_number_or_zero n d s : d = 0 -> numberOr (Some (JNum n)) d s = Ok n s [].
Proof.
  intros ->. rewrite numberOr_eq. cbn.
  destruct (Z.eqb_spec n 0) as [->|_]; reflexivity.
Qed.

Lemma findAchievement_first i t done rest :
  i ∉ map Achievement.id done -> Achievement.id t = i ->
  findAchievement (Some (JStr i)) (done ++ t :: rest) = Some (length done).
Proof.
  intros Hnot Ht. induction done as [|p done IH]; cbn.
  - rewrite Ht, String.eqb_refl. reflexivity.
  - cbn in Hnot. apply not_elem_of_cons in Hnot as [Hne Hnot].
    destruct (String.eqb_spec (Achievement.id p) i) as [Heq|_]; [congruence|].
    rewrite (IH Hnot). reflexivity.
Qed.

Lemma restoreAchievement_saved a t done rest s :
  achievements s = done ++ t :: rest ->
  lock a = lock t ->
  Achievement.id t ∉ map Achievement.id done ->
  restoreAchievement (Achievement_toJSON a) s
  = Ok tt (set_achievements (done ++ a :: rest) s) [].
Proof.
  intros Hs Hlock Hnot.
  assert (Hid : Achievement.id t = Achievement.id a).
  { apply (f_equal Achievement.id) in Hlock. symmetry. exact Hlock. }
  unfold restoreAchievement. rewrite this_bind, Hs.
  assert (Hbody :
    match findAchievement (prop (Achievement_toJSON a) "id") (done ++ t :: rest) with
    | Some i =>
        match (done ++ t :: rest) !! i with
        | Some achievement =>
            u ← typed (asBoolean (prop (Achievement_toJSON a) "unlocked"));
            d ← typed (asOptionalString (prop (Achievement_toJSON a) "unlockedDate"));
            modify (set_achievements
                      (<[i := Achievement.mk (Achievement.id achievement)
                                (Achievement.name achievement)
                                (Achievement.description achievement)
                                (Achievement.icon achievement)
                                (Achievement.condition achievement) u d]>
                         (done ++ t :: rest)))
        | None => mret tt
        end
    | None => mret tt
    end s = Ok tt (set_achievements (done ++ a :: rest) s) []).
  { change (prop (Achievement_toJSON a) "id") with (Some (JStr (Achievement.id a))).
    rewrite (findAchievement_first _ t) by (rewrite <- ?Hid; auto).
    rewrite list_lookup_middle by reflexivity.
    change (prop (Achievement_toJSON a) "unlocked")
      with (Some (JBool (Achievement.unlocked a))).
    cbn [asBoolean]. rewrite typed_bind.
    assert (Hdate : asOptionalString (prop (Achievement_toJSON a) "unlockedDate")
                    = Some (Achievement.unlockedDate a)).
    { unfold Achievement_toJSON. destruct (Achievement.unlockedDate a); reflexivity. }
    rewrite Hdate, typed_bind.
    unfold modify. f_equal. f_equal.
    rewrite insert_app_r_alt by lia. rewrite Nat.sub_diag. cbn. f_equal. f_equal.
    destruct a, t. cbn in *. injection Hlock as -> -> -> -> ->. reflexivity. }
  exact Hbody.
Qed.

Lemma forEach_restore_saved achs : forall done rest s,
  achievements s = done ++ rest ->
  map lock achs = map lock rest ->
  NoDup (map Achievement.id (done ++ rest)) ->
  forEach restoreAchievement (map Achievement_toJSON achs) s
  = Ok tt (set_achievements (done ++ achs) s) [].
Proof.
  induction achs as [|a achs IH]; intros done rest s Hs Hlock Hnodup.
  - destruct rest; [|discriminate]. rewrite <- Hs, set_achievements_same. reflexivity.
  - destruct rest as [|t rest]; [discriminate|].
    assert (Ha : lock a = lock t) by (cbn [map] in Hlock; congruence).
    assert (Hrest : map lock achs = map lock rest) by (cbn [map] in Hlock; congruence).
    assert (Hid : Achievement.id a = Achievement.id t).
    { apply (f_equal Achievement.id) in Ha. exact Ha. }
    cbn [map forEach]. rewrite bind_eq.
    rewrite (restoreAchievement_saved a t done rest s Hs Ha).
    + rewrite prepend_nil.
      rewrite (IH (done ++ [a]) rest).
      * rewrite <- app_assoc. reflexivity.
      * rewrite <- app_assoc. reflexivity.
      * exact Hrest.
      * rewrite <- app_assoc. cbn. rewrite fmap_app in *. cbn in *.
        rewrite Hid. exact Hnodup.
    + rewrite fmap_app in Hnodup. apply NoDup_app in Hnodup as (_ & Hdisj & _).
      intros Hin. apply (Hdisj _ Hin). cbn. apply list_elem_of_here.
Qed.

Lemma achievementTable_ids_NoDup : NoDup (map Achievement.id achievementTable).
Proof.
  apply (bool_decide_unpack (NoDup (map Achievement.id achievementTable))).
  vm_compute. exact I.
Qed.

(** For every state whose table holds the rules of [achievementTable],
    [loadData] on a fresh object accepts the value [saveData] writes and
    gives back every durable field but [timeLeft], which becomes the
    duration of the mode. *)
Lemma loadData_appData dark s :
  table_shape s ->
  exists s' out,
    loadData (initial dark (Some (Text (appData s)))) = Ok tt s' out /\
    appData s' = appData (set_timeLeft (TimerMode.duration (modes (currentMode s))) s).
Proof.
  intros Hshape.
  remember (loadData (initial dark (Some (Text (appData s))))) as o eqn:Ho.
  unfold loadData in Ho. rewrite this_bind in Ho.
  cbn [localStorage initial JSON_parse] in Ho. rewrite ret_bind in Ho.
  change (field (appData s) "currentMode")
    with (mret (M:=M) (Some (JStr (mode_string (currentMode s))))) in Ho.
  rewrite ret_bind in Ho. cbn [asMode] in Ho.
  rewrite asModeType_mode_string, typed_bind, modify_bind in Ho.
  change (prop (appData s) "timeLeft") with (Some (JNum (timeLeft s))) in Ho.
  change (prop (appData s) "completedSessions")
    with (Some (JNum (completedSessions s))) in Ho.
  cbn [asNumber] in Ho. rewrite typed_bind, modify_bind, typed_bind, modify_bind in Ho.
  change (prop (appData s) "tasks")
    with (Some (JArr (map Task_toJSON (deref (objects s) (tasks s))))) in Ho.
  unfold tasksOrEmpty in Ho. cbn [truthy] in Ho.
  rewrite bind_eq, typed_bind, asTasks_toJSON, alloc_eq, prepend_nil, modify_bind in Ho.
  change (prop (appData s) "history")
    with (Some (JArr (map (PomodoroSet_toJSON (objects s)) (history s)))) in Ho.
  unfold historyOrEmpty in Ho. cbn [truthy] in Ho.
  rewrite bind_eq, typed_bind, asHistory_toJSON in Ho.
  match type of Ho with context [mapM allocSet ?ps ?st] =>
    destruct (mapM_allocSet_parsed (objects s) (history s) st)
      as (sets' & extra & Hsets & Hjson)
  end.
  rewrite Hsets, prepend_nil, modify_bind in Ho.
  change (prop (appData s) "totalBreaks") with (Some (JNum (totalBreaks s))) in Ho.
  rewrite bind_eq, truthy_number_or_zero, prepend_nil, modify_bind in Ho by reflexivity.
  change (prop (appData s) "achievements")
    with (Some (JArr (map Achievement_toJSON (achievements s)))) in Ho.
  unfold restoreAchievements in Ho. cbn [truthy] in Ho.
  rewrite bind_eq in Ho.
  rewrite (forEach_restore_saved (achievements s) [] achievementTable) in Ho;
    [|reflexivity|rewrite Hshape; reflexivity|exact achievementTable_ids_NoDup].
  rewrite prepend_nil, modify_bind, this_bind, switchMode_eq in Ho.
  change (prop (appData s) "isDark") with (Some (JBool (isDark s))) in Ho.
  cbn in Ho. subst o. eexists _, _. split; [reflexivity|].
  unfold appData. cbn.
  specialize (Hjson []). cbn in Hjson. rewrite app_nil_r in Hjson. rewrite Hjson.
  pose proof (deref_seq (deref (objects s) (tasks s)) [] extra) as Hts.
  cbn [app length] in Hts. rewrite Hts. reflexivity.
Qed.

(** On every page that can be reached, what [saveData] writes is read back
    by [loadData] with every durable field but [timeLeft]. *)
Lemma reachable_loadData_appData dark s :
  reachable s ->
  exists s1 s2 out,
    saveData s = Ok tt s1 [] /\
    loadData (initial dark (localStorage s1)) = Ok tt s2 out /\
    appData s2 = appData (set_timeLeft (TimerMode.duration (modes (currentMode s))) s).
Proof.
  intros Hreach. destruct (reachable_sound s Hreach) as [_ Hshape].
  destruct (loadData_appData dark s Hshape) as (s2 & out & Hload & Hdata).
  eexists _, s2, out. split; [reflexivity|]. split; [exact Hload|exact Hdata].
Qed.

(** C1, as the code has it.  A page on which a work session was completed,
    a task done and archived, another task added and the break started and
    paused at 299 seconds.  [saveData] followed by [loadData] on a fresh
    object gives back every durable field except [timeLeft]: [loadData]
    assigns the saved 299 and then calls [switchMode], which sets [timeLeft]
    to the full 300 seconds of the mode. *)
Theorem saveData_loadData_resets_timeLeft :
  exists s s1 s2 out,
    exec ([AddTask noon "write report"; Start] ++ repeat (Tick noon) 1500 ++
          [FireSwitch; ToggleTask 1700000000000; FinishCurrentSet noon "";
           AddTask noon "answer mail"; Start; Tick noon; Pause]) freshPage = Some s /\
    reachable s /\
    saveData s = Ok tt s1 [] /\
    loadData (initial false (localStorage s1)) = Ok tt s2 out /\
    currentMode s = short_break /\
    timeLeft s = 299 /\
    timeLeft s2 = 300 /\
    timeLeft s2 <> timeLeft s /\
    appData s2 = appData (set_timeLeft 300 s).
Proof.
  match goal with |- exists s s1 s2 out, exec ?ops _ = _ /\ _ =>
    destruct (exec ops freshPage) as [s|] eqn:Hexec; [|vm_compute in Hexec; discriminate]
  end.
  exists s.
  assert (Hreach : reachable s) by apply (exec_reachable _ _ Hexec).
  vm_compute in Hexec. injection Hexec as <-.
  eexists _, _, _. split; [reflexivity|]. split; [exact Hreach|].
  split; [reflexivity|]. split; [vm_compute; reflexivity|].
  split; [reflexivity|]. split; [reflexivity|]. split; [reflexivity|].
  split; [discriminate|]. vm_compute. reflexivity.
Qed.

(** ** Import *)

(** What [importData] rejects: a text that does not parse, and a value
    that is not an object.  One alert, and the state is the same. *)
Lemma importData_rejects (content : jsonText) (confirmed : bool) (s : FocusPopApp) :
  match content with
  | Garbage => True
  | Text j => truthy (Some j) && typeof_object j = false
  end ->
  importData (Content content) confirmed s = Ok tt s importError.
Proof.
  destruct content as [|j]; intros H; unfold importData, try_catch, JSON_parse; msimpl.
  - reflexivity.
  - destruct j; cbn in H; try discriminate; try reflexivity.
    + destruct b; reflexivity.
    + destruct (n =? 0); reflexivity.
    + destruct (String.eqb s0 ""); reflexivity.
Qed.

(** C6, as the code has it.  The page holds one task.  A file that parses
    to an object whose [achievements] is a number is imported and the user
    confirms: [importData] overwrites mode, counters, task list and history,
    then fails on [achievements.forEach] and shows the error alert, so the
    import is reported as failed and the task list is gone.  A file that
    holds an empty array passes the validation as well (an array is an
    object): every field is replaced by its default and the import is
    reported as a success. *)
Theorem importData_partial_on_invalid :
  exists s s' s'',
    exec [AddTask noon "write report"] freshPage = Some s /\
    reachable s /\
    importData
      (Content (Text (JObj [ ("currentMode", JStr "short-break");
                             ("achievements", JNum 5) ]))) true s
      = Ok tt s' importError /\
    currentMode s = work /\ currentMode s' = short_break /\
    timeLeft s = 1500 /\ timeLeft s' = 1500 /\
    tasks s = [0%nat] /\ tasks s' = [] /\
    s' <> s /\
    importData (Content (Text (JArr []))) true s = Ok tt s'' importSuccess /\
    tasks s'' = [] /\
    s'' <> s.
Proof.
  match goal with |- exists s s' s'', exec ?ops _ = _ /\ _ =>
    destruct (exec ops freshPage) as [s|] eqn:Hexec; [|vm_compute in Hexec; discriminate]
  end.
  exists s.
  assert (Hreach : reachable s) by apply (exec_reachable _ _ Hexec).
  vm_compute in Hexec. injection Hexec as <-.
  eexists _, _. split; [reflexivity|]. split; [exact Hreach|].
  split; [vm_compute; reflexivity|].
  repeat (split; [reflexivity|]). split; [discriminate|].
  split; [vm_compute; reflexivity|]. split; [reflexivity|]. discriminate.
Qed.

(** ** Achievements stay unlocked *)

Lemma reload_restores_flags dark saved s' out :
  map lock (achievements saved) = achievementTable ->
  constructor (initial dark (Some (Text (appData saved)))) = Ok tt s' out ->
  achievements s' = achievements saved /\ localStorage s' = Some (Text (appData s')).
Proof.
  intros Hshape. unfold constructor. rewrite bind_eq.
  destruct (loadData _) as [[] s1 out1|e s1 out1|] eqn:Hload; [|discriminate..].
  intros H. injection H as <- _.
  destruct (loadData_stored _ _ _ _ Hload)
      as (_ & st & s2 & out2 & Hst & Hrestore & Hachs & Hstored).
  split; [|exact Hstored]. rewrite Hachs.
  change (prop (appData saved) "achievements")
    with (Some (JArr (map Achievement_toJSON (achievements saved)))) in Hrestore.
  unfold restoreAchievements in Hrestore. cbn [truthy] in Hrestore.
  rewrite (forEach_restore_saved (achievements saved) [] achievementTable) in Hrestore.
  - injection Hrestore as <- _. reflexivity.
  - exact Hst.
  - rewrite Hshape. reflexivity.
  - exact achievementTable_ids_NoDup.
Qed.

Lemma step_synced s op s' :
  no_import op -> synced s -> step s op s' ->
  synced s' /\ grows (achievements s) (achievements s').
Proof.
  intros Hop [Hshape Hstored] Hstep.
  assert (Hreload : (exists dark, op = Reload dark) \/ (forall dark, op <> Reload dark)).
  { destruct op; try (right; discriminate). left. eexists. reflexivity. }
  destruct Hreload as [[dark ->]|Hnot].
  - inversion Hstep as [? ? ? _ Hrun|? ? ? ? _ Hno _]; subst;
      [|exfalso; eapply Hno; reflexivity].
    cbn [run] in Hrun. split; [eapply boot_synced, Hrun|].
    destruct Hstored as [[Hnone Htable]|(saved & Hsome & Hsaved)].
    + rewrite Hnone in Hrun. injection Hrun as <- _. cbn. rewrite Htable. apply grows_refl.
    + rewrite Hsome in Hrun.
      apply reload_restores_flags in Hrun as [-> _]; [|rewrite Hsaved; exact Hshape].
      rewrite Hsaved. apply grows_refl.
  - destruct (run_keeps_flags op s Hop Hnot) as (s1 & out1 & Hrun & Hgrows & Hflags).
    inversion Hstep as [? ? ? _ Hrun'|? ? ? ? _ _ Hrun']; subst;
      rewrite Hrun in Hrun'; [|discriminate].
    injection Hrun' as <- _.
    split; [|exact Hgrows]. split.
    + unfold table_shape. rewrite (grows_shape _ _ Hgrows). exact Hshape.
    + destruct Hflags as [[Hsame Hachs]|Hsaved].
      * unfold flags_stored. rewrite Hsame, Hachs. exact Hstored.
      * right. exists s1. split; [exact Hsaved|reflexivity].
Qed.

Lemma steps_synced ops : forall s s',
  Forall no_import ops -> synced s -> steps s ops s' ->
  synced s' /\ grows (achievements s) (achievements s').
Proof.
  induction ops as [|op ops IH]; intros s s' Hops Hs Hsteps.
  - inversion Hsteps; subst. split; [exact Hs|apply grows_refl].
  - inversion Hsteps as [|? ? s1 ? Hstep Hrest]; subst.
    inversion Hops as [|? ? Hop Hops']; subst.
    destruct (step_synced _ _ _ Hop Hs Hstep) as [Hs1 Hg1].
    destruct (IH _ _ Hops' Hs1 Hrest) as [Hs' Hg'].
    split; [exact Hs'|]. eapply grows_trans; eassumption.
Qed.

(** C5, amended.  On a page that was opened and then used without any data
    import, an achievement that is unlocked stays unlocked, at its place in
    the table, through every further sequence of operations without import:
    timer and session completions, task operations, archiving, deletions
    and reloads. *)
Theorem unlocked_stays_without_import
    (dark : bool) (stored : option jsonText) (s0 : FocusPopApp) (out0 : list Event)
    (before after : list Op) (s s' : FocusPopApp) (i : nat) (a : Achievement.t) :
  constructor (initial dark stored) = Ok tt s0 out0 ->
  Forall no_import before -> steps s0 before s ->
  Forall no_import after -> steps s after s' ->
  achievements s !! i = Some a ->
  Achievement.unlocked a = true ->
  exists a',
    achievements s' !! i = Some a' /\
    Achievement.id a' = Achievement.id a /\
    Achievement.unlocked a' = true.
Proof.
  intros Hboot Hbefore Hsteps Hafter Hsteps' Hi Hu.
  destruct (steps_synced _ _ _ Hbefore (boot_synced _ _ _ _ Hboot) Hsteps) as [Hs _].
  destruct (steps_synced _ _ _ Hafter Hs Hsteps') as [_ Hg].
  destruct (grows_lookup _ _ _ _ Hg Hi) as (a' & Hi' & Hid & Hmono).
  exists a'. auto.
Qed.

Lemma oneSession_no_import : Forall no_import oneSession.
Proof.
  constructor; [exact I|].
  apply List.Forall_forall. intros op Hop. apply repeat_spec in Hop. subst op. exact I.
Qed.

Lemma unlocked_stays_without_import_witness :
  exists s s' a a',
    exec oneSession freshPage = Some s /\
    exec [FireSwitch; AddTask noon "write report"; Reload false] s = Some s' /\
    achievements s !! 0%nat = Some a /\
    Achievement.unlocked a = true /\
    achievements s' !! 0%nat = Some a' /\
    Achievement.id a' = Achievement.id a /\
    Achievement.unlocked a' = true.
Proof.
  destruct (exec oneSession freshPage) as [s|] eqn:Hexec; [|vm_compute in Hexec; discriminate].
  destruct (exec [FireSwitch; AddTask noon "write report"; Reload false] s) as [s'|] eqn:Hexec';
    [|vm_compute in Hexec; injection Hexec as <-; vm_compute in Hexec'; discriminate].
  assert (Hfirst : exists a, achievements s !! 0%nat = Some a /\ Achievement.unlocked a = true).
  { vm_compute in Hexec. injection Hexec as <-. eexists. split; reflexivity. }
  destruct Hfirst as (a & Ha & Hu).
  destruct (unlocked_stays_without_import false None freshPage _
              oneSession [FireSwitch; AddTask noon "write report"; Reload false]
              s s' 0%nat a freshPage_boots oneSession_no_import
              (exec_steps _ _ _ Hexec)
              ltac:(repeat constructor) (exec_steps _ _ _ Hexec') Ha Hu)
    as (a' & Ha' & Hid & Hu').
  exists s, s', a, a'. repeat split; assumption.
Defined.

(** C5 as stated fails for data import: after one completed work session
    the first achievement is unlocked; importing a backup that was exported
    before the session writes its [unlocked: false] over the flag. *)
Lemma import_relocks :
  exists s s' a a',
    exec oneSession freshPage = Some s /\
    reachable s /\
    step s (Import (Content (Text (appData freshPage))) true) s' /\
    achievements s !! 0%nat = Some a /\
    Achievement.unlocked a = true /\
    achievements s' !! 0%nat = Some a' /\
    Achievement.id a' = Achievement.id a /\
    Achievement.unlocked a' = false.
Proof.
  destruct (exec oneSession freshPage) as [s|] eqn:Hexec; [|vm_compute in Hexec; discriminate].
  exists s.
  assert (Hreach : reachable s) by apply (exec_reachable _ _ Hexec).
  vm_compute in Hexec. injection Hexec as <-.
  eexists _, _, _. split; [reflexivity|]. split; [exact Hreach|].
  split; [eapply step_ok; [reflexivity|vm_compute; reflexivity]|].
  repeat split; reflexivity.
Qed.

(** ** Snapshots without achievements *)

Lemma mapM_allocSet_ok sets : forall s,
  exists res objs, mapM allocSet sets s = Ok res (set_objects objs s) [].
Proof.
  induction sets as [|p sets IH]; intros s.
  - exists [], (objects s). destruct s; reflexivity.
  - cbn [mapM]. rewrite bind_eq, allocSet_eq, bind_eq.
    destruct (IH (set_objects (objects s ++ parsedTasks p) s)) as (res & objs & ->).
    eexists _, _. reflexivity.
Qed.

Lemma tasksOrEmpty_ok v s :
  negb (truthy v) || defined (asTasks v) = true ->
  exists refs objs, tasksOrEmpty v s = Ok refs (set_objects objs s) [].
Proof.
  unfold tasksOrEmpty. destruct (truthy v); cbn [negb orb]; intros H.
  - rewrite typed_bind. destruct (asTasks v) as [ts|]; [|discriminate].
    eexists _, _. apply alloc_eq.
  - exists [], (objects s). destruct s; reflexivity.
Qed.

Lemma historyOrEmpty_ok v s :
  negb (truthy v) || defined (asHistory v) = true ->
  exists sets objs, historyOrEmpty v s = Ok sets (set_objects objs s) [].
Proof.
  unfold historyOrEmpty. destruct (truthy v); cbn [negb orb]; intros H.
  - rewrite typed_bind. destruct (asHistory v) as [sets|]; [|discriminate].
    apply mapM_allocSet_ok.
  - exists [], (objects s). destruct s; reflexivity.
Qed.

Lemma numberOr_ok v d s :
  negb (truthy v) || defined (asNumber v) = true ->
  exists n, numberOr v d s = Ok n s [].
Proof.
  rewrite numberOr_eq. destruct (truthy v); cbn [negb orb]; intros H.
  - destruct (asNumber v); [eauto|discriminate].
  - eauto.
Qed.

Ltac alloc_in H :=
  match type of H with
  | context [tasksOrEmpty ?v ?st] =>
      let refs := fresh "refs" in let objs := fresh "objs" in let E := fresh in
      destruct (tasksOrEmpty_ok v st) as (refs & objs & E); [assumption|];
      rewrite E in H; clear E
  | context [historyOrEmpty ?v ?st] =>
      let sets := fresh "sets" in let objs := fresh "objs" in let E := fresh in
      destruct (historyOrEmpty_ok v st) as (sets & objs & E); [assumption|];
      rewrite E in H; clear E
  | context [numberOr ?v ?d ?st] =>
      let n := fresh "n" in let E := fresh in
      destruct (numberOr_ok v d st) as (n & E); [assumption|];
      rewrite E in H; clear E
  end.

(** What the two readers do with a snapshot without [achievements] whose
    other fields are well typed: both return, and neither touches the
    table.  [loadData] runs on the freshly built object, whose table is the
    default one; [importData] runs on the page in use and leaves the table
    that page has. *)
Lemma snapshot_without_achievements (j : json) (dark : bool) (s : FocusPopApp) :
  typed_snapshot j = true ->
  prop j "achievements" = None ->
  (exists s' out,
     loadData (initial dark (Some (Text j))) = Ok tt s' out /\
     achievements s' = achievementTable /\
     Forall (fun a => Achievement.unlocked a = false /\ Achievement.unlockedDate a = None)
            (achievements s')) /\
  (exists s',
     importData (Content (Text j)) true s = Ok tt s' importSuccess /\
     achievements s' = achievements s).
Proof.
  unfold typed_snapshot. intros Htyped Hnone.
  repeat (apply andb_prop in Htyped as [Htyped ?]).
  destruct j as [| | | | |fields]; try discriminate. clear Htyped.
  destruct (asMode (prop (JObj fields) "currentMode")) as [mode|] eqn:Hmode; [|discriminate].
  destruct (asNumber (prop (JObj fields) "timeLeft")) as [tl|] eqn:Htl; [|discriminate].
  destruct (asNumber (prop (JObj fields) "completedSessions")) as [cs|] eqn:Hcs;
    [|discriminate].
  split.
  - remember (loadData (initial dark (Some (Text (JObj fields))))) as o eqn:Ho.
    unfold loadData in Ho. rewrite this_bind in Ho.
    cbn [localStorage initial JSON_parse] in Ho.
    rewrite ret_bind in Ho. cbn [field] in Ho.
    rewrite ret_bind, Hmode, typed_bind, modify_bind in Ho.
    rewrite Htl, typed_bind, modify_bind, Hcs, typed_bind, modify_bind in Ho.
    rewrite bind_eq in Ho. alloc_in Ho.
    rewrite prepend_nil, modify_bind, bind_eq in Ho. alloc_in Ho.
    rewrite prepend_nil, modify_bind, bind_eq in Ho. alloc_in Ho.
    rewrite prepend_nil, modify_bind, Hnone in Ho.
    unfold restoreAchievements in Ho. cbn [truthy] in Ho.
    rewrite ret_bind, modify_bind, this_bind, switchMode_eq in Ho. cbn in Ho.
    subst o. eexists _, _. split; [reflexivity|]. cbn. split; [reflexivity|].
    repeat constructor.
  - remember (importData (Content (Text (JObj fields))) true s) as o eqn:Ho.
    unfold importData, try_catch in Ho. cbn [JSON_parse] in Ho. rewrite ret_bind in Ho.
    cbn [truthy typeof_object negb orb] in Ho. rewrite ret_bind in Ho.
    rewrite bind_eq in Ho.
    assert (Hm : exists m,
              (if truthy (prop (JObj fields) "currentMode")
               then typed (asMode (prop (JObj fields) "currentMode"))
               else mret work) s = Ok m s []).
    { rewrite Hmode. destruct (truthy (prop (JObj fields) "currentMode"));
        eexists; reflexivity. }
    destruct Hm as [m Hm]. rewrite Hm, prepend_nil, modify_bind in Ho.
    assert (Htl' : negb (truthy (prop (JObj fields) "timeLeft"))
                   || defined (asNumber (prop (JObj fields) "timeLeft")) = true).
    { rewrite Htl. apply orb_true_r. }
    assert (Hcs' : negb (truthy (prop (JObj fields) "completedSessions"))
                   || defined (asNumber (prop (JObj fields) "completedSessions")) = true).
    { rewrite Hcs. apply orb_true_r. }
    rewrite bind_eq in Ho. alloc_in Ho.
    rewrite prepend_nil, modify_bind, bind_eq in Ho. alloc_in Ho.
    rewrite prepend_nil, modify_bind, bind_eq in Ho. alloc_in Ho.
    rewrite prepend_nil, modify_bind, bind_eq in Ho. alloc_in Ho.
    rewrite prepend_nil, modify_bind, bind_eq in Ho. alloc_in Ho.
    rewrite prepend_nil, modify_bind, modify_bind, Hnone in Ho.
    unfold restoreAchievements in Ho. cbn [truthy] in Ho.
    rewrite ret_bind, this_bind, bind_eq, switchMode_eq in Ho.
    destruct (isRunning _) in Ho; msimpl_in Ho.
    all: subst o; eexists; split; reflexivity.
Qed.

(** C7.  The property holds for [loadData] and fails for [importData].  On a
    page with a completed work session and an archived set, "first-blood"
    is unlocked.  Importing a snapshot without [history], [totalBreaks] and
    [achievements] succeeds with the success message; the absent [history]
    and [totalBreaks] are replaced by their defaults, the absent
    [achievements] are not: the table is the one the page had, with
    "first-blood" unlocked and dated, and not the default all-locked table.
    The same snapshot read by [loadData] at startup gives the default
    table. *)
Theorem import_without_achievements_keeps_stale_unlocks :
  exists s s' a,
    exec usedPage freshPage = Some s /\
    reachable s /\
    typed_snapshot oldSnapshot = true /\
    prop oldSnapshot "history" = None /\
    prop oldSnapshot "totalBreaks" = None /\
    prop oldSnapshot "achievements" = None /\
    history s <> [] /\
    importData (Content (Text oldSnapshot)) true s = Ok tt s' importSuccess /\
    history s' = [] /\
    totalBreaks s' = 0 /\
    achievements s' = achievements s /\
    achievements s' !! 0%nat = Some a /\
    Achievement.id a = "first-blood" /\
    Achievement.unlocked a = true /\
    Achievement.unlockedDate a = Some (localeString noon) /\
    achievements s' <> achievementTable /\
    (exists s0 out,
       loadData (initial false (Some (Text oldSnapshot))) = Ok tt s0 out /\
       achievements s0 = achievementTable /\
       Forall (fun a => Achievement.unlocked a = false /\ Achievement.unlockedDate a = None)
              (achievements s0)).
Proof.
  destruct (exec usedPage freshPage) as [s|] eqn:Hexec; [|vm_compute in Hexec; discriminate].
  exists s.
  assert (Hreach : reachable s) by apply (exec_reachable _ _ Hexec).
  destruct (snapshot_without_achievements oldSnapshot false s eq_refl eq_refl)
    as [(s0 & out0 & Hload & Htable & Hlocked) (s' & Himport & Hkept)].
  exists s'.
  vm_compute in Hexec. injection Hexec as <-.
  eexists. split; [reflexivity|]. split; [exact Hreach|].
  split; [reflexivity|]. split; [reflexivity|]. split; [reflexivity|].
  split; [reflexivity|]. split; [discriminate|]. split; [exact Himport|].
  vm_compute in Himport. injection Himport as <-.
  split; [reflexivity|]. split; [reflexivity|]. split; [reflexivity|].
  split; [reflexivity|]. split; [reflexivity|]. split; [reflexivity|].
  split; [reflexivity|]. split; [discriminate|].
  exists s0, out0. auto.
Qed.

(** * Further properties *)

(** ** The countdown *)

Lemma set_timeLeft_same s : set_timeLeft (timeLeft s) s = s.
Proof. destruct s; reflexivity. Qed.

Lemma half_work : TimerMode.duration (modes work) / 2 = 750.
Proof. reflexivity. Qed.

Lemma encouragement_none mode t : encouragement mode t t = [].
Proof.
  unfold encouragement. rewrite half_work. destruct (is_work mode); [|reflexivity].
  cbn [andb]. destruct (Z.leb_spec t 750), (Z.ltb_spec 750 t); try reflexivity. lia.
Qed.

Lemma encouragement_split mode a b c :
  a <= b <= c ->
  encouragement mode c b ++ encouragement mode b a = encouragement mode c a.
Proof.
  intros H. unfold encouragement. rewrite half_work.
  destruct (is_work mode); [|reflexivity]. cbn [andb].
  destruct (Z.leb_spec b 750), (Z.ltb_spec 750 c), (Z.leb_spec a 750), (Z.ltb_spec 750 b);
    cbn; try reflexivity; lia.
Qed.

Lemma tick_counting clock s :
  1 < timeLeft s ->
  tick clock s
  = Ok tt (set_timeLeft (timeLeft s - 1) s)
       (encouragement (currentMode s) (timeLeft s) (timeLeft s - 1)).
Proof.
  intros H. unfold tick, encouragement. rewrite !half_work. msimpl.
  destruct (Z.leb_spec (timeLeft s - 1) 0); [lia|].
  destruct (is_work (currentMode s)); cbn; [|reflexivity].
  destruct (Z.eqb_spec (timeLeft s - 1) 750), (Z.leb_spec (timeLeft s - 1) 750),
    (Z.ltb_spec 750 (timeLeft s)); cbn; try reflexivity; lia.
Qed.

Lemma ticks_counting clock k : forall s,
  Z.of_nat k < timeLeft s ->
  ticks clock k s
  = Ok tt (set_timeLeft (timeLeft s - Z.of_nat k) s)
       (encouragement (currentMode s) (timeLeft s) (timeLeft s - Z.of_nat k)).
Proof.
  induction k as [|k IH]; intros s Hk.
  - cbn [ticks]. rewrite Z.sub_0_r, set_timeLeft_same, encouragement_none. reflexivity.
  - cbn [ticks]. rewrite bind_eq, tick_counting by lia.
    rewrite IH by (cbn; lia). cbn [prepend currentMode set_timeLeft timeLeft].
    rewrite encouragement_split by lia.
    replace (timeLeft s - 1 - Z.of_nat k) with (timeLeft s - Z.of_nat (S k)) by lia.
    reflexivity.
Qed.

(** X1.  While the countdown does not run out, the ticks of a running
    timer only count down: after [k] ticks with [k < timeLeft] the state is
    the same but for [timeLeft], which is [k] less, and the only message
    sent is the encouragement, once, when a work countdown passed through
    750 seconds. *)
Theorem ticks_count_down (clock : Clock) (k : nat) (s : FocusPopApp) :
  isRunning s = true ->
  Z.of_nat k < timeLeft s ->
  ticks clock k s
  = Ok tt (set_timeLeft (timeLeft s - Z.of_nat k) s)
       (if is_work (currentMode s) && (timeLeft s - Z.of_nat k <=? 750)
           && (750 <? timeLeft s)
        then [CharacterMessage "encouragement" "motivational"] else []).
Proof. intros _ Hk. apply (ticks_counting clock k s Hk). Qed.

Lemma ticks_count_down_witness :
  Z.of_nat 750 < timeLeft (set_isRunning true freshPage) /\
  ticks noon 750 (set_isRunning true freshPage)
  = Ok tt (set_timeLeft 750 (set_isRunning true freshPage))
       [CharacterMessage "encouragement" "motivational"].
Proof.
  split; [reflexivity|].
  apply (ticks_count_down noon 750 (set_isRunning true freshPage)); reflexivity.
Defined.

Lemma bind_ret_tt (m : M unit) s : (m;; mret tt) s = m s.
Proof.
  rewrite bind_eq. destruct (m s) as [[] s1 o1| |]; try reflexivity.
  cbn. rewrite app_nil_r. reflexivity.
Qed.

Lemma bind_assoc_tt (m1 m2 m3 : M unit) s :
  (m1;; (m2;; m3)) s = ((m1;; m2);; m3) s.
Proof.
  rewrite !bind_eq. destruct (m1 s) as [[] s1 o1| |]; try reflexivity.
  rewrite !bind_eq. destruct (m2 s1) as [[] s2 o2| |]; try reflexivity.
  cbn. destruct (m3 s2) as [[] s3 o3| |]; cbn; rewrite ?app_assoc; reflexivity.
Qed.

Lemma ticks_last clock k : forall s,
  ticks clock (S k) s = (ticks clock k;; tick clock) s.
Proof.
  induction k as [|k IH]; intros s.
  - cbn [ticks]. rewrite bind_ret_tt, ret_bind. reflexivity.
  - change (ticks clock (S (S k)) s) with ((tick clock;; ticks clock (S k)) s).
    change (ticks clock (S k)) with (tick clock;; ticks clock k) at 2.
    rewrite <- bind_assoc_tt, !(bind_eq (tick clock)).
    destruct (tick clock s) as [[] s1 o1| |]; try reflexivity.
    rewrite IH. reflexivity.
Qed.

Lemma tick_runs_out clock s :
  timeLeft s = 1 -> tick clock s = completeSession clock (set_timeLeft 0 s).
Proof.
  intros H. unfold tick. rewrite modify_bind, this_bind. cbn [timeLeft set_timeLeft currentMode].
  rewrite H, half_work. change (1 - 1) with 0. change (0 =? 750) with false.
  rewrite andb_false_r. cbn [when]. rewrite ret_bind. reflexivity.
Qed.

(** X2.  The countdown of a running timer ends after exactly [timeLeft]
    ticks, with one session completion: [timeLeft] is 0, the timer is
    stopped so that no further tick runs, one mode switch is scheduled and,
    in work mode, [completedSessions] is one more. *)
Theorem countdown_completes_once (clock : Clock) (s : FocusPopApp) :
  isRunning s = true ->
  0 < timeLeft s ->
  exists s' out,
    ticks clock (Z.to_nat (timeLeft s)) s = Ok tt s' out /\
    timeLeft s' = 0 /\
    isRunning s' = false /\
    enabled (Tick clock) s' = false /\
    currentMode s' = currentMode s /\
    completedSessions s' =
      (if is_work (currentMode s) then completedSessions s + 1 else completedSessions s) /\
    pendingSwitch s' =
      pendingSwitch s ++
      [if is_work (currentMode s)
       then if Z.rem (completedSessions s + 1) 4 =? 0 then long_break else short_break
       else work].
Proof.
  intros _ Hpos.
  destruct (Z.to_nat (timeLeft s)) as [|k] eqn:Hk; [lia|].
  rewrite ticks_last, bind_eq, ticks_counting by lia.
  replace (timeLeft s - Z.of_nat k) with 1 by lia.
  rewrite tick_runs_out by (cbn; lia).
  match goal with |- context [completeSession ?c ?x] =>
    destruct (completeSession_result c x)
      as (s' & out & Hrun & Hmode & Htl & Hrunning & Hcs & _ & _ & _ & _ & _ & Hpend & _)
  end.
  rewrite Hrun. cbn in *. eexists _, _. split; [reflexivity|]. auto 10.
Qed.

Lemma countdown_completes_once_witness :
  0 < timeLeft (set_isRunning true freshPage) /\
  exists s' out,
    ticks noon (Z.to_nat (timeLeft (set_isRunning true freshPage)))
      (set_isRunning true freshPage) = Ok tt s' out /\
    timeLeft s' = 0 /\ completedSessions s' = 1 /\ pendingSwitch s' = [short_break].
Proof.
  split; [reflexivity|].
  destruct (countdown_completes_once noon (set_isRunning true freshPage) eq_refl eq_refl)
    as (s' & out & Hrun & Htl & _ & _ & _ & Hcs & Hpend).
  exists s', out. auto.
Defined.

(** ** The task list *)




Lemma deref_app objs refs refs' :
  deref objs (refs ++ refs') = deref objs refs ++ deref objs refs'.
Proof.
  unfold deref. induction refs as [|l refs IH]; [reflexivity|].
  cbn [app omap list_omap]. rewrite IH. destruct (objs !! l); reflexivity.
Qed.

Lemma deref_grown objs extra refs :
  refs_in objs refs -> deref (objs ++ extra) refs = deref objs refs.
Proof.
  intros H. apply deref_ext. intros l Hl.
  unfold refs_in in H. rewrite Forall_forall in H.
  apply lookup_app_l, H, Hl.
Qed.

Lemma addTask_eq clock taskInput s :
  trim taskInput <> "" ->
  addTask clock taskInput s
  = let s1 := set_tasks (tasks s ++ [length (objects s)])
                (set_objects (objects s ++ [Task.mk (now clock) (trim taskInput) false]) s) in
    Ok tt (set_localStorage (Some (Text (appData s1))) s1) [].
Proof.
  intros H. unfold addTask. apply String.eqb_neq in H. rewrite H. reflexivity.
Qed.

(** X4.  On a page without dangling references, [addTask] with a text
    that is not blank puts one new task at the end of the active list: its
    text is the trimmed input, its id the clock's time, and it is not
    completed.  The tasks before it and the archived sets are as they were,
    and the page is saved. *)
Theorem addTask_appends (clock : Clock) (taskInput : string) (s : FocusPopApp) :
  well_formed s ->
  trim taskInput <> "" ->
  exists s',
    addTask clock taskInput s = Ok tt s' [] /\
    activeTasks s' = activeTasks s ++ [Task.mk (now clock) (trim taskInput) false] /\
    map (PomodoroSet_toJSON (objects s')) (history s')
      = map (PomodoroSet_toJSON (objects s)) (history s) /\
    localStorage s' = Some (Text (appData s')).
Proof.
  intros [Htasks Hsets] Htext. rewrite addTask_eq by exact Htext. cbn zeta.
  eexists. split; [reflexivity|]. unfold activeTasks. cbn. repeat split.
  - rewrite deref_app, deref_grown by exact Htasks. f_equal.
    unfold deref. cbn [omap list_omap].
    rewrite list_lookup_middle by reflexivity. reflexivity.
  - apply map_ext_in. intros set Hset. unfold PomodoroSet_toJSON.
    rewrite deref_grown; [reflexivity|].
    unfold sets_in in Hsets. rewrite Forall_forall in Hsets.
    apply Hsets, list_elem_of_In, Hset.
Qed.

Lemma addTask_appends_witness :
  (exists s',
     addTask noon " write report " freshPage = Ok tt s' [] /\
     activeTasks s' = [Task.mk 1700000000000 "write report" false]) /\
  (exists s',
     addTask noon (paddedInput "answer mail") freshPage = Ok tt s' [] /\
     activeTasks s' = [Task.mk 1700000000000 "answer mail" false]).
Proof.
  split.
  - destruct (addTask_appends noon " write report " freshPage) as (s' & Hrun & Hact & _).
    + split; constructor.
    + vm_compute. discriminate.
    + exists s'. split; [exact Hrun|exact Hact].
  - destruct (addTask_appends noon (paddedInput "answer mail") freshPage)
      as (s' & Hrun & Hact & _).
    + split; constructor.
    + vm_compute. discriminate.
    + exists s'. split; [exact Hrun|exact Hact].
Defined.

Lemma task_has_id_insert objs l task flag taskId :
  objs !! l = Some task ->
  forall l', task_has_id (<[l := Task.mk (Task.id task) (Task.text task) flag]> objs) taskId l'
             = task_has_id objs taskId l'.
Proof.
  intros Hl l'. unfold task_has_id. destruct (decide (l = l')) as [<-|Hne].
  - rewrite list_lookup_insert_eq by (eapply lookup_lt_Some; exact Hl). rewrite Hl. reflexivity.
  - rewrite list_lookup_insert_ne by exact Hne. reflexivity.
Qed.

Lemma find_ext {A} (f g : A -> bool) (l : list A) :
  (forall x, f x = g x) -> List.find f l = List.find g l.
Proof.
  intros H. induction l as [|x l IH]; [reflexivity|]. cbn. rewrite H, IH. reflexivity.
Qed.

Lemma find_task_stored objs taskId refs l :
  List.find (task_has_id objs taskId) refs = Some l ->
  exists task, objs !! l = Some task /\ Task.id task = taskId.
Proof.
  intros H. apply find_some in H as [_ H]. unfold task_has_id in H.
  destruct (objs !! l) as [task|]; [|discriminate].
  exists task. split; [reflexivity|]. apply Z.eqb_eq, H.
Qed.

Lemma toggleTask_found taskId s l task :
  List.find (task_has_id (objects s) taskId) (tasks s) = Some l ->
  objects s !! l = Some task ->
  toggleTask taskId s
  = let task' := Task.mk (Task.id task) (Task.text task) (negb (Task.completed task)) in
    let s1 := set_objects (<[l := task']> (objects s)) s in
    Ok tt (set_localStorage (Some (Text (appData s1))) s1)
       (if Task.completed task' then [CharacterMessage "taskComplete" "happy"] else []).
Proof.
  intros Hfind Hl. unfold toggleTask. rewrite this_bind, Hfind, Hl.
  destruct (Task.completed task); reflexivity.
Qed.

Lemma find_deref objs taskId refs :
  match List.find (task_has_id objs taskId) refs with
  | Some l =>
      exists t, objs !! l = Some t /\
                List.find (fun t => Task.id t =? taskId) (deref objs refs) = Some t
  | None => List.find (fun t => Task.id t =? taskId) (deref objs refs) = None
  end.
Proof.
  unfold deref. induction refs as [|r refs IH]; [reflexivity|].
  cbn [List.find omap list_omap]. unfold task_has_id at 1.
  destruct (objs !! r) as [t|] eqn:Hr; [|exact IH].
  cbn [List.find]. destruct (Task.id t =? taskId); [|exact IH].
  exists t. auto.
Qed.

Lemma deref_insert_changed objs l t t' refs :
  objs !! l = Some t -> t' <> t -> l ∈ refs ->
  deref (<[l := t']> objs) refs <> deref objs refs.
Proof.
  intros Hl Hne. unfold deref. induction refs as [|r refs IH]; intros Hin.
  - apply elem_of_nil in Hin. contradiction.
  - cbn [omap list_omap]. destruct (decide (r = l)) as [->|Hr].
    + rewrite list_lookup_insert_eq by (eapply lookup_lt_Some; exact Hl). rewrite Hl.
      intros H. injection H as H _. contradiction.
    + rewrite list_lookup_insert_ne by (intros E; apply Hr; symmetry; exact E).
      apply elem_of_cons in Hin as [E|Hin]; [exfalso; apply Hr; symmetry; exact E|].
      destruct (objs !! r); [|exact (IH Hin)].
      intros H. injection H as H. exact (IH Hin H).
Qed.

(** X5.  Toggling a task twice brings the task objects, the active list
    and the snapshot of the page back.  When a task of the active list has
    the id, the first call changes the active list, exactly one of the two
    calls sends the task-completed message (the first when the first such
    task was not completed, the second when it was), and the page is
    saved; when no task has the id, both calls leave the state as it is
    and send nothing. *)
Theorem toggleTask_twice (taskId : Z) (s : FocusPopApp) :
  exists s1 out1 s2 out2,
    toggleTask taskId s = Ok tt s1 out1 /\
    toggleTask taskId s1 = Ok tt s2 out2 /\
    objects s2 = objects s /\
    tasks s2 = tasks s /\
    appData s2 = appData s /\
    match List.find (fun t => Task.id t =? taskId) (activeTasks s) with
    | Some t =>
        activeTasks s1 <> activeTasks s /\
        out1 = (if Task.completed t then []
                else [CharacterMessage "taskComplete" "happy"]) /\
        out2 = (if Task.completed t then [CharacterMessage "taskComplete" "happy"]
                else []) /\
        localStorage s2 = Some (Text (appData s2))
    | None => s1 = s /\ s2 = s /\ out1 = [] /\ out2 = []
    end.
Proof.
  pose proof (find_deref (objects s) taskId (tasks s)) as Hvalues.
  destruct (List.find (task_has_id (objects s) taskId) (tasks s)) as [l|] eqn:Hfind.
  - destruct Hvalues as (task & Hl & Hvalue). unfold activeTasks at 1. rewrite Hvalue.
    rewrite (toggleTask_found taskId s l task Hfind Hl). cbn zeta.
    eexists _, _, _, _. split; [reflexivity|].
    erewrite (toggleTask_found taskId _ l).
    2:{ rewrite <- Hfind. apply find_ext. intros l'. cbn.
        apply task_has_id_insert, Hl. }
    2:{ cbn. apply list_lookup_insert_eq. eapply lookup_lt_Some. exact Hl. }
    cbn zeta. split; [reflexivity|].
    assert (Hin : l ∈ tasks s).
    { apply find_some in Hfind as [Hin _]. apply list_elem_of_In, Hin. }
    assert (Hflip : Task.mk (Task.id task) (Task.text task) (negb (Task.completed task))
                    <> task).
    { destruct task as [i text c]. cbn. intros H. injection H as H.
      destruct c; discriminate H. }
    cbn. rewrite list_insert_insert_eq, negb_involutive.
    assert (Hsame : <[l := Task.mk (Task.id task) (Task.text task) (Task.completed task)]>
                      (objects s) = objects s).
    { apply list_insert_id. rewrite Hl. destruct task; reflexivity. }
    rewrite Hsame.
    split; [reflexivity|]. split; [reflexivity|]. split; [reflexivity|].
    split; [|split; [|split; reflexivity]].
    + unfold activeTasks. cbn. exact (deref_insert_changed _ _ _ _ _ Hl Hflip Hin).
    + destruct (Task.completed task); reflexivity.
  - unfold activeTasks. rewrite Hvalues.
    unfold toggleTask. rewrite this_bind, Hfind. eexists _, _, _, _.
    split; [reflexivity|]. rewrite this_bind, Hfind. repeat split; auto.
Qed.

Lemma find_unknown objs taskId refs :
  Forall (fun t => Task.id t <> taskId) (deref objs refs) ->
  List.find (task_has_id objs taskId) refs = None.
Proof.
  unfold deref. induction refs as [|l refs IH]; [reflexivity|]. cbn [omap list_omap List.find].
  unfold task_has_id at 1. destruct (objs !! l) as [task|].
  - intros H. apply Forall_cons in H as [Hid H].
    apply Z.eqb_neq in Hid. rewrite Hid. apply IH, H.
  - exact IH.
Qed.

(** X6.  Toggling an id that no task of the active list has does nothing:
    the state is the same, nothing is saved and nothing is sent. *)
Theorem toggleTask_unknown_id (taskId : Z) (s : FocusPopApp) :
  Forall (fun t => Task.id t <> taskId) (activeTasks s) ->
  toggleTask taskId s = Ok tt s [].
Proof.
  intros H. unfold toggleTask. rewrite this_bind, find_unknown by exact H. reflexivity.
Qed.

Lemma toggleTask_unknown_id_witness :
  exists s,
    exec threeTasks freshPage = Some s /\
    activeTasks s = [ Task.mk 1700000000000 "write report" false;
                      Task.mk 1700000060000 "answer mail" false;
                      Task.mk 1700000060000 "review" false ] /\
    toggleTask 42 s = Ok tt s [].
Proof.
  destruct (exec threeTasks freshPage) as [s|] eqn:Hexec; [|vm_compute in Hexec; discriminate].
  exists s. split; [reflexivity|].
  assert (Hactive : activeTasks s = [ Task.mk 1700000000000 "write report" false;
                                      Task.mk 1700000060000 "answer mail" false;
                                      Task.mk 1700000060000 "review" false ])
    by (vm_compute in Hexec; injection Hexec as <-; reflexivity).
  split; [exact Hactive|].
  apply (toggleTask_unknown_id 42 s). rewrite Hactive.
  repeat (constructor; [intros H; discriminate H|]). constructor.
Defined.

Lemma deref_filter objs taskId refs :
  deref objs (List.filter (fun l => negb (task_has_id objs taskId l)) refs)
  = List.filter (fun t => negb (Task.id t =? taskId)) (deref objs refs).
Proof.
  unfold deref. induction refs as [|l refs IH]; [reflexivity|].
  cbn [List.filter omap list_omap]. unfold task_has_id at 1.
  destruct (objs !! l) as [task|] eqn:Hl.
  - cbn [List.filter]. destruct (Task.id task =? taskId); cbn [negb].
    + exact IH.
    + cbn [omap list_omap]. rewrite Hl, IH. reflexivity.
  - cbn [negb omap list_omap]. rewrite Hl. exact IH.
Qed.

Lemma deleteTask_eq taskId s :
  deleteTask taskId s
  = let s1 := set_tasks
                (List.filter (fun l => negb (task_has_id (objects s) taskId l)) (tasks s)) s in
    Ok tt (set_localStorage (Some (Text (appData s1))) s1) [].
Proof. reflexivity. Qed.

(** X7.  [deleteTask] removes from the active list every task with the
    given id, keeps the others in their order, leaves the task objects and
    the history alone, and saves; with an id no task has, the list is the
    same. *)
Theorem deleteTask_removes_all_with_id (taskId : Z) (s : FocusPopApp) :
  exists s',
    deleteTask taskId s = Ok tt s' [] /\
    activeTasks s' = List.filter (fun t => negb (Task.id t =? taskId)) (activeTasks s) /\
    objects s' = objects s /\
    history s' = history s /\
    localStorage s' = Some (Text (appData s')) /\
    (Forall (fun t => Task.id t <> taskId) (activeTasks s) -> activeTasks s' = activeTasks s).
Proof.
  rewrite deleteTask_eq. cbn zeta. eexists. split; [reflexivity|].
  unfold activeTasks. cbn. rewrite deref_filter. repeat split.
  intros H. induction H as [|t ts Hid _ IH]; [reflexivity|].
  cbn [List.filter]. apply Z.eqb_neq in Hid. rewrite Hid. cbn [negb]. f_equal. exact IH.
Qed.

Lemma filter_all {A} (f : A -> bool) (l : list A) :
  Forall (fun x => f x = true) l -> List.filter f l = l.
Proof.
  induction 1 as [|x l Hx _ IH]; [reflexivity|]. cbn. rewrite Hx, IH. reflexivity.
Qed.

(** X8.  Adding a task and deleting it again by its id brings the active
    list back, on a page without dangling references where no other active
    task has that id (ids are clock readings: a task added in the same
    millisecond would be deleted with it). *)
Theorem addTask_then_deleteTask (clock : Clock) (taskInput : string) (s : FocusPopApp) :
  well_formed s ->
  Forall (fun t => Task.id t <> now clock) (activeTasks s) ->
  exists s1 s2,
    addTask clock taskInput s = Ok tt s1 [] /\
    deleteTask (now clock) s1 = Ok tt s2 [] /\
    activeTasks s2 = activeTasks s /\
    history s2 = history s.
Proof.
  intros [Htasks Hsets] Hfresh.
  assert (Hkeep : List.filter (fun t => negb (Task.id t =? now clock)) (activeTasks s)
                  = activeTasks s).
  { apply filter_all. eapply Forall_impl; [exact Hfresh|].
    cbn. intros t Hid. apply Z.eqb_neq in Hid. rewrite Hid. reflexivity. }
  destruct (String.eqb (trim taskInput) "") eqn:Hblank.
  - unfold addTask. rewrite Hblank.
    eexists _, _. split; [reflexivity|]. rewrite deleteTask_eq. cbn zeta.
    split; [reflexivity|].
    unfold activeTasks in *. cbn. rewrite deref_filter, Hkeep. auto.
  - apply String.eqb_neq in Hblank. rewrite addTask_eq by exact Hblank. cbn zeta.
    eexists _, _. split; [reflexivity|]. rewrite deleteTask_eq. cbn zeta.
    split; [reflexivity|].
    unfold activeTasks in *. cbn. rewrite deref_filter, deref_app, deref_grown by exact Htasks.
    rewrite List.filter_app, Hkeep. unfold deref at 2. cbn [omap list_omap].
    rewrite list_lookup_middle by reflexivity. cbn. rewrite Z.eqb_refl. cbn.
    rewrite app_nil_r. auto.
Qed.

Lemma addTask_then_deleteTask_witness :
  exists s s1 s2,
    exec [AddTask noon "write report"] freshPage = Some s /\
    addTask later "answer mail" s = Ok tt s1 [] /\
    deleteTask (now later) s1 = Ok tt s2 [] /\
    activeTasks s2 = [Task.mk 1700000000000 "write report" false].
Proof.
  destruct (exec [AddTask noon "write report"] freshPage) as [s|] eqn:Hexec;
    [|vm_compute in Hexec; discriminate].
  assert (Hactive : activeTasks s = [Task.mk 1700000000000 "write report" false])
    by (vm_compute in Hexec; injection Hexec as <-; reflexivity).
  destruct (addTask_then_deleteTask later "answer mail" s)
    as (s1 & s2 & H1 & H2 & H3 & _).
  - apply (reachable_sound s (exec_reachable _ _ Hexec)).
  - rewrite Hactive. constructor; [intros H; discriminate H|constructor].
  - exists s, s1, s2. split; [reflexivity|]. split; [exact H1|]. split; [exact H2|].
    rewrite H3. exact Hactive.
Defined.

(** ** Sets and history *)

Lemma finishCurrentSet_eq clock setNameInput s :
  finishCurrentSet clock setNameInput s
  = let setData :=
      {| PomodoroSet.id := now clock;
         PomodoroSet.name :=
           if String.eqb (trim setNameInput) ""
           then "Set " +:+ pretty (len (history s) + 1) else trim setNameInput;
         PomodoroSet.date := localeString clock;
         PomodoroSet.completedSessions := completedSessions s;
         PomodoroSet.tasks := tasks s |} in
    let s1 := set_tasks [] (set_completedSessions 0 (set_history (setData :: history s) s)) in
    Ok tt (set_localStorage (Some (Text (appData s1))) s1)
       [CharacterMessage "milestone" "excited"].
Proof. reflexivity. Qed.

Lemma deleteHistory_eq setId s :
  deleteHistory setId s
  = let s1 := set_history
                (List.filter (fun set => negb (PomodoroSet.id set =? setId)) (history s)) s in
    Ok tt (set_localStorage (Some (Text (appData s1))) s1) [].
Proof. reflexivity. Qed.

(** X9.  Archiving the current set and then deleting the new record by its
    id does not bring the progress back: the active list stays empty and
    the session count stays 0.  The history is the old one without the
    records that had the same id (ids are clock readings), so it is the old
    history when no record had it. *)
Theorem finishCurrentSet_then_deleteHistory
    (clock : Clock) (setNameInput : string) (s : FocusPopApp) :
  exists s1 out1 s2,
    finishCurrentSet clock setNameInput s = Ok tt s1 out1 /\
    deleteHistory (now clock) s1 = Ok tt s2 [] /\
    history s2
      = List.filter (fun set => negb (PomodoroSet.id set =? now clock)) (history s) /\
    (Forall (fun set => PomodoroSet.id set <> now clock) (history s) ->
     history s2 = history s) /\
    tasks s2 = [] /\
    completedSessions s2 = 0 /\
    objects s2 = objects s.
Proof.
  rewrite finishCurrentSet_eq. cbn zeta. eexists _, _, _. split; [reflexivity|].
  rewrite deleteHistory_eq. cbn zeta. split; [reflexivity|].
  cbn. rewrite Z.eqb_refl. cbn. repeat split.
  intros H. apply filter_all. eapply Forall_impl; [exact H|].
  cbn. intros set Hid. apply Z.eqb_neq in Hid. rewrite Hid. reflexivity.
Qed.

(** X10.  [startNewSet] never archives an empty set: it returns, and either
    the state is the same (no progress, or the dialog was declined) or the
    dialog was confirmed and the new record at the head of [history] has a
    positive session count or a task. *)
Theorem startNewSet_never_archives_empty
    (clock : Clock) (setNameInput : string) (confirmed : bool) (s : FocusPopApp) :
  exists s' out,
    startNewSet clock setNameInput confirmed s = Ok tt s' out /\
    (s' = s \/
     confirmed = true /\
     exists set,
       history s' = set :: history s /\
       PomodoroSet.tasks set = tasks s /\
       PomodoroSet.completedSessions set = completedSessions s /\
       (0 < PomodoroSet.completedSessions set \/ PomodoroSet.tasks set <> [])).
Proof.
  unfold startNewSet. rewrite this_bind.
  destruct ((completedSessions s >? 0) || (len (tasks s) >? 0)) eqn:Hprogress.
  - destruct confirmed; cbn [when].
    + rewrite finishCurrentSet_eq. cbn zeta. eexists _, _. split; [reflexivity|].
      right. split; [reflexivity|]. eexists. split; [reflexivity|]. cbn.
      split; [reflexivity|]. split; [reflexivity|].
      apply orb_prop in Hprogress as [H|H].
      * left. apply Z.gtb_lt in H. lia.
      * right. unfold len in H. destruct (tasks s); [discriminate|discriminate].
    + eexists _, _. split; [reflexivity|]. left. reflexivity.
  - eexists _, _. split; [reflexivity|]. left. reflexivity.
Qed.

(** ** A session and the switch that follows it *)

Lemma fireSwitch_eq s :
  fireSwitch s =
    match pendingSwitch s with
    | mode :: rest => switchMode mode (set_pendingSwitch rest s)
    | [] => Ok tt s []
    end.
Proof.
  unfold fireSwitch. rewrite this_bind. destruct (pendingSwitch s); [reflexivity|].
  rewrite modify_bind. reflexivity.
Qed.

(** X11.  When a session completes and the deferred switch runs with the
    timer still stopped, the page is in the next mode with its full
    duration: after work a break (long when the new session count is
    divisible by 4), after a break work. *)
Theorem completed_session_switches (clock : Clock) (s : FocusPopApp) :
  pendingSwitch s = [] ->
  exists s1 out1 s2,
    completeSession clock s = Ok tt s1 out1 /\
    fireSwitch s1 = Ok tt s2 [] /\
    currentMode s2 =
      (if is_work (currentMode s)
       then if Z.rem (completedSessions s + 1) 4 =? 0 then long_break else short_break
       else work) /\
    timeLeft s2 = TimerMode.duration (modes (currentMode s2)) /\
    isRunning s2 = false /\
    pendingSwitch s2 = [] /\
    localStorage s2 = Some (Text (appData s2)).
Proof.
  intros Hnone.
  destruct (completeSession_result clock s)
    as (s1 & out1 & Hrun & _ & _ & Hidle & _ & _ & _ & _ & _ & _ & Hpend & _).
  rewrite Hnone in Hpend. cbn [app] in Hpend.
  exists s1, out1. eexists. split; [exact Hrun|].
  rewrite fireSwitch_eq, Hpend, switchMode_idle by exact Hidle.
  split; [reflexivity|]. cbn. rewrite Hidle. auto.
Qed.

Lemma completed_session_switches_witness :
  exists s1 out1 s2,
    completeSession noon freshPage = Ok tt s1 out1 /\
    fireSwitch s1 = Ok tt s2 [] /\
    currentMode s2 = short_break /\ timeLeft s2 = 300.
Proof.
  destruct (completed_session_switches noon freshPage eq_refl)
    as (s1 & out1 & s2 & H1 & H2 & Hmode & Htime & _).
  exists s1, out1, s2. split; [exact H1|]. split; [exact H2|].
  split; [exact Hmode|]. rewrite Htime, Hmode. reflexivity.
Defined.

Lemma startTimer_eq s :
  startTimer s
  = Ok tt (set_isRunning true s)
       [if is_work (currentMode s)
        then CharacterMessage "sessionStart" "motivational"
        else CharacterMessage "breakStart" "calm"].
Proof.
  unfold startTimer. rewrite modify_bind, this_bind. cbn [currentMode set_isRunning].
  destruct (is_work (currentMode s)); reflexivity.
Qed.

(** X12.  When the start button is pressed between the end of a session
    and the deferred switch, the switch is lost: it runs, is consumed and
    changes nothing, so the timer runs in the old mode from where the
    countdown stood. *)
Theorem restart_loses_switch (clock : Clock) (s : FocusPopApp) :
  pendingSwitch s = [] ->
  exists s1 out1 s2 out2 s3,
    completeSession clock s = Ok tt s1 out1 /\
    startTimer s1 = Ok tt s2 out2 /\
    fireSwitch s2 = Ok tt s3 [] /\
    currentMode s3 = currentMode s /\
    timeLeft s3 = timeLeft s /\
    isRunning s3 = true /\
    pendingSwitch s3 = [].
Proof.
  intros Hnone.
  destruct (completeSession_result clock s)
    as (s1 & out1 & Hrun & Hmode & Htime & _ & _ & _ & _ & _ & _ & _ & Hpend & _).
  rewrite Hnone in Hpend. cbn [app] in Hpend.
  exists s1, out1. eexists _, _, _. split; [exact Hrun|].
  rewrite startTimer_eq. split; [reflexivity|].
  rewrite fireSwitch_eq. cbn [pendingSwitch set_isRunning]. rewrite Hpend.
  rewrite switchMode_eq. cbn. split; [reflexivity|]. cbn. auto.
Qed.

Lemma restart_loses_switch_witness :
  exists s1 out1 s2 out2 s3,
    completeSession noon (set_timeLeft 0 freshPage) = Ok tt s1 out1 /\
    startTimer s1 = Ok tt s2 out2 /\
    fireSwitch s2 = Ok tt s3 [] /\
    currentMode s3 = work /\ timeLeft s3 = 0 /\ isRunning s3 = true.
Proof.
  destruct (restart_loses_switch noon (set_timeLeft 0 freshPage) eq_refl)
    as (s1 & out1 & s2 & out2 & s3 & H1 & H2 & H3 & Hmode & Htime & Hrunning & _).
  exists s1, out1, s2, out2, s3. auto 10.
Defined.

(** ** Evaluating the achievements *)

Lemma unlockPass_stable app clock clock' achs :
  hours clock' = hours clock ->
  unlockPass app clock' (fst (unlockPass app clock achs))
  = (fst (unlockPass app clock achs), []).
Proof.
  intros Hh. induction achs as [|a rest IH]; [reflexivity|].
  cbn [unlockPass]. destruct (unlockPass app clock rest) as [rest' news]. cbn [fst] in IH.
  destruct (negb (Achievement.unlocked a) && Achievement.condition a app (hours clock))
    eqn:Hdue; cbn [fst unlockPass]; rewrite IH; cbn.
  - reflexivity.
  - rewrite Hh, Hdue. reflexivity.
Qed.

(** X13.  Evaluating the achievements a second time in the same hour
    changes nothing and reports nothing: after one pass no locked
    achievement has its condition fulfilled. *)
Theorem checkAchievements_idempotent (clock clock' : Clock) (s : FocusPopApp) :
  hours clock' = hours clock ->
  exists s1 out1,
    checkAchievements clock s = Ok tt s1 out1 /\
    checkAchievements clock' s1 = Ok tt s1 [].
Proof.
  intros Hh.
  assert (Hagain : forall ls,
    checkAchievements clock' (set_localStorage ls (afterPass clock s))
    = Ok tt (set_localStorage ls (afterPass clock s)) []).
  { intros ls. rewrite checkAchievements_eq. unfold newUnlocks, afterPass.
    cbn [achievements set_achievements set_localStorage].
    change (getters (set_localStorage ls
              (set_achievements (fst (unlockPass (getters s) clock (achievements s))) s)))
      with (getters s).
    rewrite unlockPass_stable by exact Hh. cbn [fst snd].
    destruct s; reflexivity. }
  rewrite checkAchievements_eq. destruct (newUnlocks clock s) as [|first rest].
  - eexists _, _. split; [reflexivity|].
    specialize (Hagain (localStorage s)).
    replace (set_localStorage (localStorage s) (afterPass clock s))
      with (afterPass clock s) in Hagain by (destruct s; reflexivity).
    exact Hagain.
  - eexists _, _. split; [reflexivity|]. apply Hagain.
Qed.

Lemma checkAchievements_idempotent_witness :
  exists s1 out1,
    checkAchievements noon (set_completedSessions 1 freshPage) = Ok tt s1 out1 /\
    checkAchievements noon s1 = Ok tt s1 [].
Proof.
  apply (checkAchievements_idempotent noon noon (set_completedSessions 1 freshPage)).
  reflexivity.
Defined.

Lemma pass_nothing_due app clock achs :
  Forall (fun a => negb (Achievement.unlocked a)
                   && Achievement.condition a app (hours clock) = false)
         (fst (unlockPass app clock achs)).
Proof.
  rewrite unlockPass_fst. induction achs as [|a rest IH]; constructor; [|exact IH].
  destruct (negb (Achievement.unlocked a) && Achievement.condition a app (hours clock))
    eqn:Hdue; [reflexivity|exact Hdue].
Qed.

(** The pass inside [completeSession] reads the state that results. *)
Lemma completeSession_pass clock s :
  exists s' out,
    completeSession clock s = Ok tt s' out /\
    totalBreaks s' = totalBreaks s /\
    achievements s' = fst (unlockPass (getters s') clock (achievements s)).
Proof.
  unfold completeSession. msimpl.
  destruct (currentMode s) eqn:Hm; msimpl;
    try destruct (Z.rem (completedSessions s + 1) 4 =? 0) eqn:Hrem; msimpl;
    rewrite checkAchievements_eq;
    match goal with |- context [newUnlocks ?c ?x] => destruct (newUnlocks c x) end;
    unfold afterPass; msimpl; rewrite ?Hm; msimpl; rewrite ?Hrem;
    eexists _, _; (split; [reflexivity|]); cbn; split; reflexivity.
Qed.

(** X14.  When a session has completed, no locked achievement has its
    condition fulfilled by the resulting state at that hour: whatever was
    due has been unlocked. *)
Theorem completeSession_leaves_nothing_due (clock : Clock) (s : FocusPopApp) :
  exists s' out,
    completeSession clock s = Ok tt s' out /\
    Forall (fun a => due clock s' a = false) (achievements s').
Proof.
  destruct (completeSession_pass clock s) as (s' & out & Hrun & _ & Hachs).
  exists s', out. split; [exact Hrun|]. rewrite Hachs at 1.
  apply pass_nothing_due.
Qed.

Lemma tick_pass clock s :
  exists s' out,
    tick clock s = Ok tt s' out /\
    totalBreaks s' = totalBreaks s /\
    (achievements s' = achievements s \/
     achievements s' = fst (unlockPass (getters s') clock (achievements s))).
Proof.
  unfold tick. rewrite modify_bind, this_bind, bind_eq.
  cbn [currentMode timeLeft set_timeLeft].
  assert (Hmsg : exists out1,
    when (is_work (currentMode s) && (timeLeft s - 1 =? TimerMode.duration (modes work) / 2))
      (showCharacterMessage "encouragement" "motivational")
      (set_timeLeft (timeLeft s - 1) s) = Ok tt (set_timeLeft (timeLeft s - 1) s) out1).
  { destruct (is_work (currentMode s) && _); eexists; reflexivity. }
  destruct Hmsg as (out1 & ->).
  destruct (timeLeft s - 1 <=? 0); cbn [when].
  - destruct (completeSession_pass clock (set_timeLeft (timeLeft s - 1) s))
      as (s' & out & -> & Hb & Ha).
    eexists _, _. split; [reflexivity|]. split; [exact Hb|]. right. exact Ha.
  - eexists _, _. split; [reflexivity|]. split; [reflexivity|]. left. reflexivity.
Qed.

Ltac table_kept := split; [reflexivity|left; reflexivity].

Lemma run_table op s :
  no_import op -> (forall dark, op <> Reload dark) ->
  exists s' out,
    run op s = Ok tt s' out /\
    totalBreaks s' = totalBreaks s /\
    (achievements s' = achievements s \/
     exists clock, op = Tick clock /\
       achievements s' = fst (unlockPass (getters s') clock (achievements s))).
Proof.
  destruct op; cbn [no_import run]; intros Hop Hreload; try contradiction.
  - unfold startTimer. msimpl.
    destruct (is_work (currentMode s)); eexists _, _; (split; [reflexivity|table_kept]).
  - eexists _, _; split; [reflexivity|table_kept].
  - eexists _, _; split; [reflexivity|table_kept].
  - destruct (tick_pass clock s) as (s' & out & Hrun & Hb & [Ha|Ha]).
    + exists s', out. auto.
    + exists s', out. split; [exact Hrun|]. split; [exact Hb|]. right. eauto.
  - unfold switchMode. msimpl.
    destruct (isRunning s); eexists _, _; (split; [reflexivity|table_kept]).
  - unfold fireSwitch, switchMode. msimpl.
    destruct (pendingSwitch s); msimpl; [|destruct (isRunning s)];
      eexists _, _; (split; [reflexivity|table_kept]).
  - unfold addTask.
    destruct (String.eqb (trim taskInput) ""); msimpl;
      eexists _, _; (split; [reflexivity|table_kept]).
  - unfold toggleTask. msimpl.
    destruct (List.find _ (tasks s)) as [l|]; msimpl;
      [destruct (objects s !! l) as [task|]; msimpl;
       [destruct (negb (Task.completed task)); msimpl|]|];
      eexists _, _; (split; [reflexivity|table_kept]).
  - eexists _, _; split; [reflexivity|table_kept].
  - eexists _, _; split; [reflexivity|table_kept].
  - unfold startNewSet, finishCurrentSet. msimpl.
    destruct ((completedSessions s >? 0) || (len (tasks s) >? 0)); msimpl;
      [destruct confirmed; msimpl|];
      eexists _, _; (split; [reflexivity|table_kept]).
  - eexists _, _; split; [reflexivity|table_kept].
  - eexists _, _; split; [reflexivity|table_kept].
  - exfalso. eapply Hreload. reflexivity.
Qed.

Lemma step_run op s s' :
  no_import op -> (forall dark, op <> Reload dark) -> step s op s' ->
  exists out, run op s = Ok tt s' out.
Proof.
  intros Hop Hnot Hstep.
  destruct (run_table op s Hop Hnot) as (s1 & out1 & Hrun & _).
  inversion Hstep as [? ? ? _ Hrun'|? ? ? ? _ _ Hrun']; subst;
    rewrite Hrun in Hrun'; [|discriminate].
  injection Hrun' as <- _. eauto.
Qed.

(** X15.  Achievements are evaluated only when a session completes: an
    operation of the page other than a tick, an import or a reload leaves
    the achievement table as it is, also when it makes a condition true
    (archiving the third set does not unlock the achievement for three
    sets; the next completed session does). *)
Theorem only_ticks_evaluate_achievements (op : Op) (s s' : FocusPopApp) :
  evaluates op = false ->
  step s op s' ->
  achievements s' = achievements s.
Proof.
  intros Hop Hstep.
  assert (Hno : no_import op) by (destruct op; try exact I; discriminate).
  assert (Hnot : forall dark, op <> Reload dark) by (intros dark ->; discriminate).
  destruct (step_run op s s' Hno Hnot Hstep) as (out & Hrun).
  destruct (run_table op s Hno Hnot) as (s1 & out1 & Hrun1 & _ & [Ha|(clock & -> & _)]).
  - rewrite Hrun in Hrun1. injection Hrun1 as <- _. exact Ha.
  - discriminate.
Qed.

(** ** What an import-free run keeps *)

Lemma boot_current dark stored s0 out :
  constructor (initial dark stored) = Ok tt s0 out -> snapshot_current s0.
Proof.
  unfold constructor. rewrite bind_eq.
  destruct (loadData _) as [[] s1 out1|e s1 out1|] eqn:Hload; [|discriminate..].
  intros H. injection H as <- _.
  destruct stored as [[|j]|].
  - discriminate Hload.
  - destruct (loadData_stored _ _ _ _ Hload) as (_ & _ & _ & _ & _ & _ & _ & Hstored).
    right. exists s1. auto.
  - injection Hload as <- _. left. auto.
Qed.

Lemma reload_restores_breaks dark saved s' out :
  table_shape saved ->
  constructor (initial dark (Some (Text (appData saved)))) = Ok tt s' out ->
  totalBreaks s' = totalBreaks saved.
Proof.
  intros Hshape. unfold constructor. rewrite bind_eq.
  destruct (loadData_appData dark saved Hshape) as (s2 & out2 & -> & Hdata).
  intros H. injection H as <- _.
  assert (Hb : prop (appData s2) "totalBreaks"
               = prop (appData (set_timeLeft (TimerMode.duration (modes (currentMode saved)))
                                  saved)) "totalBreaks")
    by (rewrite Hdata; reflexivity).
  injection Hb as Hb. exact Hb.
Qed.

Lemma step_current s op s' :
  no_import op -> table_shape s -> snapshot_current s -> step s op s' ->
  snapshot_current s' /\
  totalBreaks s' = totalBreaks s /\
  (achievements s' = achievements s \/
   exists clock, achievements s' = fst (unlockPass (getters s') clock (achievements s))).
Proof.
  intros Hop Hshape Hcur Hstep.
  assert (Hreload : (exists dark, op = Reload dark) \/ (forall dark, op <> Reload dark)).
  { destruct op; try (right; discriminate). left. eexists. reflexivity. }
  destruct Hreload as [[dark ->]|Hnot].
  - inversion Hstep as [? ? ? _ Hrun|? ? ? ? _ Hno _]; subst;
      [|exfalso; eapply Hno; reflexivity].
    cbn [run] in Hrun. split; [eapply boot_current, Hrun|].
    destruct Hcur as [(Hnone & Htable & Hzero)|(saved & Hsome & Hachs & Hbreaks)].
    + rewrite Hnone in Hrun. injection Hrun as <- _. cbn. auto.
    + rewrite Hsome in Hrun.
      assert (Hsaved : table_shape saved) by (unfold table_shape; rewrite Hachs; exact Hshape).
      rewrite (reload_restores_breaks _ _ _ _ Hsaved Hrun).
      apply reload_restores_flags in Hrun as [-> _]; [|exact Hsaved]. auto.
  - destruct (step_run op s s' Hop Hnot Hstep) as (out & Hrun).
    destruct (run_keeps_flags op s Hop Hnot) as (s1 & out1 & Hrun1 & _ & Hflags).
    rewrite Hrun in Hrun1. injection Hrun1 as <- _.
    destruct (run_table op s Hop Hnot) as (s2 & out2 & Hrun2 & Hb & Ha).
    rewrite Hrun in Hrun2. injection Hrun2 as <- _.
    split; [|split; [exact Hb|]].
    + destruct Hflags as [[Hsame Hachs]|Hsaved].
      * unfold snapshot_current. rewrite Hsame, Hachs, Hb. exact Hcur.
      * right. exists s'. auto.
    + destruct Ha as [Ha|(clock & _ & Ha)]; eauto.
Qed.

Lemma table_shape_pass s s' :
  table_shape s ->
  achievements s' = achievements s \/
  (exists clock, achievements s' = fst (unlockPass (getters s') clock (achievements s))) ->
  table_shape s'.
Proof.
  unfold table_shape. intros Hshape [->|(clock & ->)]; [exact Hshape|].
  rewrite <- Hshape. apply grows_shape, unlockPass_grows.
Qed.

Lemma steps_current ops : forall s s',
  Forall no_import ops -> table_shape s -> snapshot_current s -> steps s ops s' ->
  table_shape s' /\ snapshot_current s' /\ totalBreaks s' = totalBreaks s.
Proof.
  induction ops as [|op ops IH]; intros s s' Hops Hshape Hcur Hsteps.
  - inversion Hsteps; subst. auto.
  - inversion Hsteps as [|? ? s1 ? Hstep Hrest]; subst.
    inversion Hops as [|? ? Hop Hops']; subst.
    destruct (step_current _ _ _ Hop Hshape Hcur Hstep) as (Hcur1 & Hb1 & Ha1).
    destruct (IH _ _ Hops' (table_shape_pass _ _ Hshape Ha1) Hcur1 Hrest) as (Hs' & Hc' & Hb').
    split; [exact Hs'|]. split; [exact Hc'|]. congruence.
Qed.

(** X16.  [totalBreaks] never changes on a page that is used without data
    import: through timer, completed sessions and breaks, task and history
    operations and reloads it keeps the value the page was opened with,
    which is 0 when the storage was empty. *)
Theorem totalBreaks_constant_without_import
    (dark : bool) (stored : option jsonText) (s0 : FocusPopApp) (out0 : list Event)
    (ops : list Op) (s : FocusPopApp) :
  constructor (initial dark stored) = Ok tt s0 out0 ->
  Forall no_import ops ->
  steps s0 ops s ->
  totalBreaks s = totalBreaks s0 /\ (stored = None -> totalBreaks s = 0).
Proof.
  intros Hboot Hops Hsteps.
  destruct (steps_current ops s0 s Hops (proj2 (boot_sound _ _ _ _ Hboot))
              (boot_current _ _ _ _ Hboot) Hsteps) as (_ & _ & Hb).
  split; [exact Hb|]. intros ->. rewrite Hb.
  cbn in Hboot. injection Hboot as <- _. reflexivity.
Qed.

Lemma zen_stays_locked s s' a :
  table_shape s ->
  totalBreaks s' < 20 ->
  achievements s' = achievements s \/
  (exists clock, achievements s' = fst (unlockPass (getters s') clock (achievements s))) ->
  achievements s !! zenMaster = Some a ->
  Achievement.unlocked a = false ->
  achievements s' !! zenMaster = Some a.
Proof.
  intros Hshape Hb [->|(clock & ->)] Ha Hlocked; [exact Ha|].
  rewrite unlockPass_fst, list_lookup_fmap, Ha. cbn [fmap option_fmap option_map].
  assert (Hrule : Achievement.condition a = fun app _ => getTotalBreaks app >=? 20).
  { assert (H : map lock (achievements s) !! zenMaster = Some (lock a))
      by (rewrite list_lookup_fmap, Ha; reflexivity).
    rewrite Hshape in H. unfold achievementTable, zenMaster in H.
    cbn [lookup list_lookup] in H. injection H as _ _ _ _ Hc.
    symmetry. exact Hc. }
  rewrite Hrule. cbn [getTotalBreaks getters].
  destruct (Z.geb_spec (totalBreaks s') 20); [lia|].
  rewrite andb_false_r. reflexivity.
Qed.

Lemma step_zen s op s' a :
  no_import op -> table_shape s -> snapshot_current s -> step s op s' ->
  totalBreaks s < 20 ->
  achievements s !! zenMaster = Some a ->
  Achievement.unlocked a = false ->
  achievements s' !! zenMaster = Some a.
Proof.
  intros Hop Hshape Hcur Hstep Hb Ha Hlocked.
  destruct (step_current _ _ _ Hop Hshape Hcur Hstep) as (_ & Hb1 & Ha1).
  eapply zen_stays_locked; eauto. lia.
Qed.

(** X17.  The "Zen Master" achievement ("Complete 20 break sessions")
    cannot be earned on the page: while it is locked and [totalBreaks] is
    below 20, no sequence of operations without data import unlocks it,
    however many breaks are completed. *)
Theorem zen_master_never_unlocks
    (dark : bool) (stored : option jsonText) (s0 : FocusPopApp) (out0 : list Event)
    (ops : list Op) (s : FocusPopApp) (a : Achievement.t) :
  constructor (initial dark stored) = Ok tt s0 out0 ->
  totalBreaks s0 < 20 ->
  achievements s0 !! zenMaster = Some a ->
  Achievement.unlocked a = false ->
  Forall no_import ops ->
  steps s0 ops s ->
  achievements s !! zenMaster = Some a.
Proof.
  intros Hboot Hb Ha Hlocked Hops Hsteps.
  pose proof (proj2 (boot_sound _ _ _ _ Hboot)) as Hshape.
  pose proof (boot_current _ _ _ _ Hboot) as Hcur.
  clear Hboot. revert Hb Ha Hshape Hcur.
  induction Hsteps as [|s op ops s1 s2 Hstep _ IH]; intros Hb Ha Hshape Hcur; [exact Ha|].
  inversion Hops as [|? ? Hop Hops']; subst.
  destruct (step_current _ _ _ Hop Hshape Hcur Hstep) as (Hcur1 & Hb1 & Ha1).
  apply (IH Hops').
  - lia.
  - eapply step_zen; eauto.
  - eapply table_shape_pass; eauto.
  - exact Hcur1.
Qed.

(** ** Reloading the page *)












(** ** Export and import *)

Lemma exportData_eq s :
  exportData s
  = Ok (Text (appData s)) s
       [ CharacterMessage "taskComplete" "happy";
         CharacterText "Data exported successfully! Your backup is ready." ].
Proof. reflexivity. Qed.

Lemma numberOr_number n d s :
  numberOr (Some (JNum n)) d s = Ok (if n =? 0 then d else n) s [].
Proof. rewrite numberOr_eq. cbn. destruct (n =? 0); reflexivity. Qed.

Lemma map_id_lock achs : map Achievement.id (map lock achs) = map Achievement.id achs.
Proof. induction achs as [|a achs IH]; [reflexivity|]. cbn. rewrite IH. reflexivity. Qed.

Lemma table_shape_NoDup s : table_shape s -> NoDup (map Achievement.id (achievements s)).
Proof.
  intros Hshape. rewrite <- map_id_lock. unfold table_shape in Hshape. rewrite Hshape.
  exact achievementTable_ids_NoDup.
Qed.

Lemma importData_appData s :
  table_shape s ->
  exists s',
    importData (Content (Text (appData s))) true s = Ok tt s' importSuccess /\
    appData s' = appData (set_timeLeft (reimportedTime s) s) /\
    isRunning s' = isRunning s /\
    pendingSwitch s' = pendingSwitch s /\
    localStorage s' = Some (Text (appData s')).
Proof.
  intros Hshape.
  remember (importData (Content (Text (appData s))) true s) as o eqn:Ho.
  unfold importData in Ho. rewrite try_catch_eq in Ho.
  cbn [JSON_parse] in Ho. rewrite ret_bind in Ho.
  change (truthy (Some (appData s))) with true in Ho.
  change (typeof_object (appData s)) with true in Ho.
  cbn [negb orb] in Ho. rewrite ret_bind in Ho.
  change (prop (appData s) "currentMode")
    with (Some (JStr (mode_string (currentMode s)))) in Ho.
  assert (Hmode : truthy (Some (JStr (mode_string (currentMode s)))) = true)
    by (destruct (currentMode s); reflexivity).
  rewrite Hmode in Ho. cbn [asMode] in Ho.
  rewrite asModeType_mode_string, typed_bind, modify_bind in Ho.
  change (prop (appData s) "timeLeft") with (Some (JNum (timeLeft s))) in Ho.
  rewrite bind_eq, numberOr_number, prepend_nil, modify_bind in Ho.
  change (prop (appData s) "completedSessions")
    with (Some (JNum (completedSessions s))) in Ho.
  rewrite bind_eq, truthy_number_or_zero, prepend_nil, modify_bind in Ho by reflexivity.
  change (prop (appData s) "tasks")
    with (Some (JArr (map Task_toJSON (deref (objects s) (tasks s))))) in Ho.
  unfold tasksOrEmpty in Ho. cbn [truthy] in Ho.
  rewrite bind_eq, typed_bind, asTasks_toJSON, alloc_eq, prepend_nil, modify_bind in Ho.
  change (prop (appData s) "history")
    with (Some (JArr (map (PomodoroSet_toJSON (objects s)) (history s)))) in Ho.
  unfold historyOrEmpty in Ho. cbn [truthy] in Ho.
  rewrite bind_eq, typed_bind, asHistory_toJSON in Ho.
  match type of Ho with context [mapM allocSet ?ps ?st] =>
    destruct (mapM_allocSet_parsed (objects s) (history s) st)
      as (sets' & extra & Hsets & Hjson)
  end.
  rewrite Hsets, prepend_nil, modify_bind in Ho.
  change (prop (appData s) "totalBreaks") with (Some (JNum (totalBreaks s))) in Ho.
  rewrite bind_eq, truthy_number_or_zero, prepend_nil, modify_bind, modify_bind in Ho
    by reflexivity.
  change (prop (appData s) "achievements")
    with (Some (JArr (map Achievement_toJSON (achievements s)))) in Ho.
  unfold restoreAchievements in Ho. cbn [truthy] in Ho.
  rewrite bind_eq in Ho.
  rewrite (forEach_restore_saved (achievements s) [] (achievements s)) in Ho;
    [|reflexivity|reflexivity|exact (table_shape_NoDup s Hshape)].
  rewrite prepend_nil, this_bind, bind_eq, switchMode_eq in Ho.
  change (prop (appData s) "isDark") with (Some (JBool (isDark s))) in Ho.
  cbn in Ho, Hjson.
  specialize (Hjson []). rewrite app_nil_r, <- ?app_assoc in Hjson.
  pose proof (deref_seq (deref (objects s) (tasks s)) (objects s) extra) as Hts.
  unfold reimportedTime.
  destruct (isRunning s) eqn:Hrunning; cbn in Ho; subst o;
    (eexists; split; [reflexivity|]); unfold appData; cbn;
    rewrite <- ?app_assoc, Hjson, Hts; auto.
Qed.

(** X19.  A page that imports its own export keeps every durable field
    but [timeLeft]: mode, session count, the values of the active tasks,
    theme, history, achievements and [totalBreaks] are the same.  With the
    timer stopped [timeLeft] becomes the full duration of the mode; with
    the timer running it is kept, unless it is 0, which is read as absent
    and replaced by 1500. *)
Theorem export_then_import (s : FocusPopApp) :
  table_shape s ->
  exists data out s',
    exportData s = Ok data s out /\
    importData (Content data) true s = Ok tt s' importSuccess /\
    appData s' = appData (set_timeLeft (reimportedTime s) s) /\
    isRunning s' = isRunning s /\
    localStorage s' = Some (Text (appData s')).
Proof.
  intros Hshape. rewrite exportData_eq.
  destruct (importData_appData s Hshape) as (s' & Himport & Hdata & Hrunning & _ & Hstored).
  eexists _, _, s'. split; [reflexivity|]. auto.
Qed.

(** ** Reloading loses only the countdown *)

Lemma loadData_snapshot dark s :
  table_shape s ->
  exists s' out,
    loadData (initial dark (Some (Text (appData s)))) = Ok tt s' out /\
    appData s' = appData (set_timeLeft (TimerMode.duration (modes (currentMode s))) s) /\
    isRunning s' = false /\
    pendingSwitch s' = [] /\
    localStorage s' = Some (Text (appData s')).
Proof.
  intros Hshape.
  remember (loadData (initial dark (Some (Text (appData s))))) as o eqn:Ho.
  unfold loadData in Ho. rewrite this_bind in Ho.
  cbn [localStorage initial JSON_parse] in Ho. rewrite ret_bind in Ho.
  change (field (appData s) "currentMode")
    with (mret (M:=M) (Some (JStr (mode_string (currentMode s))))) in Ho.
  rewrite ret_bind in Ho. cbn [asMode] in Ho.
  rewrite asModeType_mode_string, typed_bind, modify_bind in Ho.
  change (prop (appData s) "timeLeft") with (Some (JNum (timeLeft s))) in Ho.
  change (prop (appData s) "completedSessions")
    with (Some (JNum (completedSessions s))) in Ho.
  cbn [asNumber] in Ho. rewrite typed_bind, modify_bind, typed_bind, modify_bind in Ho.
  change (prop (appData s) "tasks")
    with (Some (JArr (map Task_toJSON (deref (objects s) (tasks s))))) in Ho.
  unfold tasksOrEmpty in Ho. cbn [truthy] in Ho.
  rewrite bind_eq, typed_bind, asTasks_toJSON, alloc_eq, prepend_nil, modify_bind in Ho.
  change (prop (appData s) "history")
    with (Some (JArr (map (PomodoroSet_toJSON (objects s)) (history s)))) in Ho.
  unfold historyOrEmpty in Ho. cbn [truthy] in Ho.
  rewrite bind_eq, typed_bind, asHistory_toJSON in Ho.
  match type of Ho with context [mapM allocSet ?ps ?st] =>
    destruct (mapM_allocSet_parsed (objects s) (history s) st)
      as (sets' & extra & Hsets & Hjson)
  end.
  rewrite Hsets, prepend_nil, modify_bind in Ho.
  change (prop (appData s) "totalBreaks") with (Some (JNum (totalBreaks s))) in Ho.
  rewrite bind_eq, truthy_number_or_zero, prepend_nil, modify_bind in Ho by reflexivity.
  change (prop (appData s) "achievements")
    with (Some (JArr (map Achievement_toJSON (achievements s)))) in Ho.
  unfold restoreAchievements in Ho. cbn [truthy] in Ho.
  rewrite bind_eq in Ho.
  rewrite (forEach_restore_saved (achievements s) [] achievementTable) in Ho;
    [|reflexivity|rewrite Hshape; reflexivity|exact achievementTable_ids_NoDup].
  rewrite prepend_nil, modify_bind, this_bind, switchMode_eq in Ho.
  change (prop (appData s) "isDark") with (Some (JBool (isDark s))) in Ho.
  cbn in Ho. subst o. eexists _, _. split; [reflexivity|].
  split; [|cbn; auto].
  unfold appData. cbn.
  specialize (Hjson []). cbn in Hjson. rewrite app_nil_r in Hjson. rewrite Hjson.
  pose proof (deref_seq (deref (objects s) (tasks s)) [] extra) as Hts.
  cbn [app length] in Hts. rewrite Hts. reflexivity.
Qed.

Lemma durable_appData a b :
  appData a = appData b -> durable a = durable b.
Proof.
  unfold durable, appData. cbn. intros H.
  injection H as Hm _ Hc Ht Hd Hh Ha Hb. congruence.
Qed.

Lemma durable_set_timeLeft t s : durable (set_timeLeft t s) = durable s.
Proof. reflexivity. Qed.

Lemma appData_durable a b t :
  durable a = durable b ->
  currentMode a = currentMode b /\
  appData (set_timeLeft t a) = appData (set_timeLeft t b).
Proof.
  unfold durable, appData. cbn. intros H.
  injection H as Hm Hc Ht Hd Hh Ha Hb. split; [|congruence].
  assert (Hs : asModeType (JStr (mode_string (currentMode a)))
               = asModeType (JStr (mode_string (currentMode b)))) by congruence.
  rewrite !asModeType_mode_string in Hs. congruence.
Qed.

Lemma appData_set_isDark d a b :
  appData a = appData b -> appData (set_isDark d a) = appData (set_isDark d b).
Proof.
  unfold appData. cbn. intros H. injection H as Hm Ht Hc Hs _ Hh Ha Hb. congruence.
Qed.

Lemma boot_up_to_date dark stored s0 out :
  constructor (initial dark stored) = Ok tt s0 out -> up_to_date s0.
Proof.
  intros Hboot. pose proof (proj2 (boot_sound _ _ _ _ Hboot)) as Hshape.
  revert Hboot. unfold constructor. rewrite bind_eq.
  destruct (loadData _) as [[] s1 out1|e s1 out1|] eqn:Hload; [|discriminate..].
  intros H. injection H as <- _.
  destruct stored as [[|j]|].
  - discriminate Hload.
  - destruct (loadData_stored _ _ _ _ Hload) as (_ & _ & _ & _ & _ & _ & _ & Hstored).
    right. exists s1. auto.
  - injection Hload as <- _. left. split; reflexivity.
Qed.

Ltac counted := first [left; split; reflexivity | right; reflexivity].

Lemma run_saves op s :
  no_import op -> (forall dark, op <> Reload dark) ->
  exists s' out, run op s = Ok tt s' out /\ saves_or_counts s s'.
Proof.
  destruct op; cbn [no_import run]; intros Hop Hreload; try contradiction.
  - unfold startTimer. msimpl.
    destruct (is_work (currentMode s)); eexists _, _; (split; [reflexivity|counted]).
  - eexists _, _; split; [reflexivity|counted].
  - eexists _, _; split; [reflexivity|counted].
  - unfold tick. rewrite modify_bind, this_bind, bind_eq.
    cbn [currentMode timeLeft set_timeLeft].
    assert (Hmsg : exists out1,
      when (is_work (currentMode s)
            && (timeLeft s - 1 =? TimerMode.duration (modes work) / 2))
        (showCharacterMessage "encouragement" "motivational")
        (set_timeLeft (timeLeft s - 1) s) = Ok tt (set_timeLeft (timeLeft s - 1) s) out1).
    { destruct (is_work (currentMode s) && _); eexists; reflexivity. }
    destruct Hmsg as (out1 & ->).
    destruct (timeLeft s - 1 <=? 0); cbn [when].
    + destruct (completeSession_result clock (set_timeLeft (timeLeft s - 1) s))
        as (s' & out & -> & _ & _ & _ & _ & _ & _ & _ & _ & _ & _ & Hst & _).
      eexists _, _. split; [reflexivity|]. right. exact Hst.
    + eexists _, _. split; [reflexivity|]. left. split; reflexivity.
  - unfold switchMode. msimpl.
    destruct (isRunning s); eexists _, _; (split; [reflexivity|counted]).
  - unfold fireSwitch, switchMode. msimpl.
    destruct (pendingSwitch s); msimpl; [|destruct (isRunning s)];
      eexists _, _; (split; [reflexivity|counted]).
  - unfold addTask.
    destruct (String.eqb (trim taskInput) ""); msimpl;
      eexists _, _; (split; [reflexivity|counted]).
  - unfold toggleTask. msimpl.
    destruct (List.find _ (tasks s)) as [l|]; msimpl;
      [destruct (objects s !! l) as [task|]; msimpl;
       [destruct (negb (Task.completed task)); msimpl|]|];
      eexists _, _; (split; [reflexivity|counted]).
  - eexists _, _; split; [reflexivity|counted].
  - eexists _, _; split; [reflexivity|counted].
  - unfold startNewSet, finishCurrentSet. msimpl.
    destruct ((completedSessions s >? 0) || (len (tasks s) >? 0)); msimpl;
      [destruct confirmed; msimpl|];
      eexists _, _; (split; [reflexivity|counted]).
  - eexists _, _; split; [reflexivity|counted].
  - eexists _, _; split; [reflexivity|counted].
  - exfalso. eapply Hreload. reflexivity.
Qed.

Lemma isDark_durable a b : durable a = durable b -> isDark a = isDark b.
Proof.
  unfold durable, appData. cbn. intros H. injection H as _ _ _ Hd _ _ _. exact Hd.
Qed.

Lemma step_up_to_date s op s' :
  no_import op -> sound s -> up_to_date s -> step s op s' -> up_to_date s'.
Proof.
  intros Hop Hs Hup Hstep.
  pose proof (proj2 (step_sound _ _ _ Hs Hstep)) as Hshape'.
  assert (Hreload : (exists dark, op = Reload dark) \/ (forall dark, op <> Reload dark)).
  { destruct op; try (right; discriminate). left. eexists. reflexivity. }
  destruct Hreload as [[dark ->]|Hnot].
  - inversion Hstep as [? ? ? _ Hrun|? ? ? ? _ Hno _]; subst;
      [|exfalso; eapply Hno; reflexivity].
    eapply boot_up_to_date, Hrun.
  - destruct (step_run op s s' Hop Hnot Hstep) as (out & Hrun).
    destruct (run_saves op s Hop Hnot) as (s1 & out1 & Hrun1 & Hsaves).
    rewrite Hrun in Hrun1. injection Hrun1 as <- _.
    destruct Hsaves as [[Hsame Hd]|Hsaved].
    + unfold up_to_date. rewrite Hsame, Hd, (isDark_durable _ _ Hd). exact Hup.
    + right. exists s'. auto.
Qed.

Lemma steps_up_to_date ops : forall s s',
  Forall no_import ops -> sound s -> up_to_date s -> steps s ops s' -> up_to_date s'.
Proof.
  induction ops as [|op ops IH]; intros s s' Hops Hs Hup Hsteps.
  - inversion Hsteps; subst. exact Hup.
  - inversion Hsteps as [|? ? s1 ? Hstep Hrest]; subst.
    inversion Hops as [|? ? Hop Hops']; subst.
    apply (IH s1 s' Hops'); [eapply step_sound; eassumption| |exact Hrest].
    eapply step_up_to_date; eassumption.
Qed.

(** X20.  On a page used without data import, a reload at any moment
    loses only the countdown: the reloaded page has the mode, session
    count, task values, history, achievements and [totalBreaks] of the page
    that was left, with the timer stopped at the full duration of the mode
    and no switch pending; the theme is kept too once anything was saved. *)
Theorem reload_loses_only_countdown
    (dark : bool) (stored : option jsonText) (s0 : FocusPopApp) (out0 : list Event)
    (ops : list Op) (s : FocusPopApp) (dark' : bool) :
  constructor (initial dark stored) = Ok tt s0 out0 ->
  Forall no_import ops ->
  steps s0 ops s ->
  exists s' out,
    run (Reload dark') s = Ok tt s' out /\
    appData s'
      = appData (set_isDark (isDark s')
                   (set_timeLeft (TimerMode.duration (modes (currentMode s))) s)) /\
    (localStorage s <> None -> isDark s' = isDark s) /\
    isRunning s' = false /\
    pendingSwitch s' = [].
Proof.
  intros Hboot Hops Hsteps.
  pose proof (steps_up_to_date ops s0 s Hops (boot_sound _ _ _ _ Hboot)
                (boot_up_to_date _ _ _ _ Hboot) Hsteps) as Hup.
  cbn [run]. unfold constructor.
  destruct Hup as [[Hnone Hd]|(saved & Hshape & Hsome & Hd)].
  - rewrite Hnone. eexists _, _. split; [reflexivity|].
    destruct (appData_durable _ _ 1500 Hd) as [Hmode Hdata].
    rewrite Hmode.
    split; [|split; [congruence|split; reflexivity]].
    apply (appData_set_isDark dark') in Hdata. symmetry. exact Hdata.
  - rewrite Hsome, bind_eq.
    destruct (loadData_snapshot dark' saved Hshape)
      as (s' & out & -> & Hdata & Hidle & Hpend & _).
    eexists _, _. split; [reflexivity|].
    destruct (appData_durable _ _ (TimerMode.duration (modes (currentMode saved))) Hd)
      as [Hmode Hdata'].
    rewrite Hdata' in Hdata. rewrite Hmode in Hdata.
    assert (Hdark : isDark s' = isDark s).
    { assert (Hdk : prop (appData s') "isDark"
                    = prop (appData (set_timeLeft
                                       (TimerMode.duration (modes (currentMode s))) s))
                        "isDark") by (rewrite Hdata; reflexivity).
      injection Hdk as Hdk. exact Hdk. }
    split; [|auto]. rewrite Hdata, Hdark. destruct s; reflexivity.
Qed.

(** X21.  [importData] is guarded: no exception escapes it, and it changes
    the state only when the dialog was confirmed and the file parsed to an
    object or an array; without a file, with an unreadable file, a text
    that does not parse, a value that is not an object, or a declined
    dialog, the state is the same. *)
Theorem importData_guarded
    (upload : Upload) (confirmed : bool) (s : FocusPopApp) :
  (forall e s' out, importData upload confirmed s <> Throw e s' out) /\
  (forall s' out,
     importData upload confirmed s = Ok tt s' out ->
     s' <> s ->
     confirmed = true /\
     exists j, upload = Content (Text j) /\ truthy (Some j) && typeof_object j = true).
Proof.
  split.
  - intros e s' out. destruct upload as [| |content]; try discriminate.
    unfold importData. rewrite try_catch_eq.
    match goal with |- context [match ?m with Ok _ _ _ => _ | _ => _ end] =>
      destruct m as [[] s1 out1|e1 s1 out1|] end; discriminate.
  - intros s' out Hrun Hchanged.
    destruct upload as [| |[|j]].
    + injection Hrun as <- _. contradiction.
    + injection Hrun as <- _. contradiction.
    + rewrite importData_rejects in Hrun by exact I. injection Hrun as <- _. contradiction.
    + destruct (truthy (Some j) && typeof_object j) eqn:Hobject.
      * destruct confirmed; [eauto|].
        exfalso. apply Hchanged.
        unfold importData in Hrun. rewrite try_catch_eq in Hrun.
        cbn [JSON_parse] in Hrun. rewrite ret_bind, bind_eq in Hrun.
        apply andb_prop in Hobject as [Ht Ho]. rewrite Ht, Ho in Hrun.
        cbn in Hrun. injection Hrun as <- _. reflexivity.
      * rewrite importData_rejects in Hrun by exact Hobject.
        injection Hrun as <- _. contradiction.
Qed.

(** ** What the page shows *)

Lemma display_table :
  forallb (fun n =>
    let t := Z.of_nat n in
    String.eqb (display t)
      (String (digit (t / 600)) (String (digit (t / 60 mod 10)) (String ":"
        (String (digit (t mod 60 / 10)) (String (digit (t mod 10)) ""))))))
    (seq 0 (Z.to_nat 6000)) = true.
Proof. vm_compute. reflexivity. Qed.

Lemma display_negative_table :
  forallb (fun n =>
    let t := - Z.of_nat n in
    String.eqb (display t) ("-1:-" +:+ String (digit (- t)) ""))
    (seq 1 9) = true.
Proof. vm_compute. reflexivity. Qed.

(** X22.  For every [timeLeft] from 0 to 5999 the timer display is the
    minutes and the seconds in two digits each, [MM:SS]; for a [timeLeft]
    from -1 to -9 (a page can reach -1) it reads [-1:-S]. *)
Theorem display_format (t : Z) :
  (0 <= t < 6000 ->
   display t =
     String (digit (t / 600)) (String (digit (t / 60 mod 10)) (String ":"
       (String (digit (t mod 60 / 10)) (String (digit (t mod 10)) ""))))) /\
  (-9 <= t < 0 -> display t = "-1:-" +:+ String (digit (- t)) "").
Proof.
  split; intros Ht.
  - pose proof display_table as H. rewrite forallb_forall in H.
    specialize (H (Z.to_nat t)). rewrite Z2Nat.id in H by lia.
    apply String.eqb_eq, H, in_seq. lia.
  - pose proof display_negative_table as H. rewrite forallb_forall in H.
    specialize (H (Z.to_nat (- t))). rewrite Z2Nat.id in H by lia.
    replace (- - t) with t in H by lia.
    apply String.eqb_eq, H, in_seq. lia.
Qed.

(** X23.  Of the eight session icons the first [completedSessions] are
    highlighted, and all eight from the eighth session on: the icons do
    not show sessions beyond eight. *)
Theorem sessionIcons_saturate (s : FocusPopApp) :
  sessionIcons s
  = repeat true (Z.to_nat (Z.min 8 (completedSessions s)))
    ++ repeat false (8 - Z.to_nat (Z.min 8 (completedSessions s))).
Proof.
  unfold sessionIcons.
  assert (Hcases : completedSessions s <= 0 \/ completedSessions s = 1 \/
                   completedSessions s = 2 \/ completedSessions s = 3 \/
                   completedSessions s = 4 \/ completedSessions s = 5 \/
                   completedSessions s = 6 \/ completedSessions s = 7 \/
                   8 <= completedSessions s) by lia.
  destruct Hcases as [H|[H|[H|[H|[H|[H|[H|[H|H]]]]]]]];
    try (rewrite H; reflexivity).
  - replace (Z.to_nat (Z.min 8 (completedSessions s))) with 0%nat by lia.
    cbn [seq map repeat app Nat.sub].
    repeat match goal with |- context [?a <? completedSessions s] =>
      replace (a <? completedSessions s) with false by (symmetry; apply Z.ltb_ge; lia) end.
    reflexivity.
  - replace (Z.to_nat (Z.min 8 (completedSessions s))) with 8%nat by lia.
    cbn [seq map repeat app Nat.sub].
    repeat match goal with |- context [?a <? completedSessions s] =>
      replace (a <? completedSessions s) with true by (symmetry; apply Z.ltb_lt; lia) end.
    reflexivity.
Qed.

(** ** The active list holds each task once *)

Lemma tasksOrEmpty_NoDup v s refs s' out :
  tasksOrEmpty v s = Ok refs s' out -> NoDup refs.
Proof.
  unfold tasksOrEmpty. destruct (truthy v).
  - rewrite typed_bind. destruct (asTasks v) as [ts|]; [|discriminate].
    rewrite alloc_eq. intros H. injection H as <- _ _. apply NoDup_seq.
  - intros H. injection H as <- _ _. constructor.
Qed.

Lemma loadData_tasks dark j s0 out :
  loadData (initial dark (Some (Text j))) = Ok tt s0 out -> NoDup (tasks s0).
Proof.
  unfold loadData. rewrite this_bind. cbn [localStorage initial JSON_parse].
  rewrite ret_bind.
  assert (Hfield : forall (k : option json -> M unit) s,
            j <> JNull -> (field j "currentMode" ≫= k) s = k (prop j "currentMode") s).
  { intros k s Hj. destruct j; try (apply ret_bind). contradiction. }
  assert (Hj : j = JNull \/ j <> JNull).
  { destruct j; [left; reflexivity|right; discriminate..]. }
  destruct Hj as [->|Hj]; [intros H; discriminate H|].
  rewrite Hfield by exact Hj. clear Hfield Hj.
  rewrite typed_bind; destruct (asMode _) as [mode|]; [|discriminate].
  rewrite modify_bind, typed_bind; destruct (asNumber _) as [tl|]; [|discriminate].
  rewrite modify_bind, typed_bind; destruct (asNumber _) as [cs|]; [|discriminate].
  rewrite modify_bind, bind_eq.
  match goal with |- context [tasksOrEmpty ?v ?st] =>
    pose proof (tasksOrEmpty_allocates v st) as Ht;
    pose proof (tasksOrEmpty_NoDup v st) as Hnd;
    destruct (tasksOrEmpty v st) as [refs st1 o1| |]; cbn in Ht;
    [destruct Ht as (extra1 & -> & Hrefs & ->)|contradiction|discriminate]
  end.
  specialize (Hnd _ _ _ eq_refl).
  rewrite prepend_nil, modify_bind, bind_eq.
  match goal with |- context [historyOrEmpty ?v ?st] =>
    pose proof (historyOrEmpty_allocates v st) as Hh;
    destruct (historyOrEmpty v st) as [sets st1 o1| |]; cbn in Hh;
    [destruct Hh as (extra2 & -> & Hsets & ->)|contradiction|discriminate]
  end.
  rewrite prepend_nil, modify_bind, bind_eq, numberOr_eq.
  match goal with |- context [if ?c then _ else _] =>
    destruct c; [destruct (asNumber _) as [tb|]; [|discriminate]|] end.
  all: rewrite prepend_nil, modify_bind, bind_eq.
  all: match goal with |- context [restoreAchievements ?v ?st] =>
         pose proof (restoreAchievements_restores v st) as Hr;
         assert (Htasks : tasks st = refs) by reflexivity;
         revert Hr Htasks; generalize st; intros st0 Hr Htasks;
         destruct (restoreAchievements v st0) as [[] st1 o1|e st1 o1|] eqn:Hrun;
         [|discriminate..];
         destruct Hr as [(achs & -> & _) ->]
       end.
  all: rewrite prepend_nil, modify_bind, this_bind, switchMode_eq.
  all: rewrite <- Htasks in Hnd.
  all: destruct (isRunning _); intros H; injection H as <- _; exact Hnd.
Qed.

Lemma importData_tasks upload confirmed s :
  NoDup (tasks s) ->
  match importData upload confirmed s with
  | Ok _ s' _ | Throw _ s' _ => NoDup (tasks s')
  | OutOfType => True
  end.
Proof.
  intros Hs. destruct upload as [| |[|j]]; try exact Hs.
  unfold importData. rewrite try_catch_eq. cbn [JSON_parse]. rewrite ret_bind, bind_eq.
  destruct (negb (truthy (Some j)) || negb (typeof_object j)); [exact Hs|].
  cbn [mret M_ret ret]. rewrite prepend_nil.
  destruct confirmed; cbn [negb]; [|exact Hs].
  rewrite bind_eq.
  assert (Hmode : exists o,
    (if truthy (prop j "currentMode") then typed (asMode (prop j "currentMode"))
     else mret work) s = o /\ (o = OutOfType \/ exists m, o = Ok m s [])).
  { eexists. split; [reflexivity|].
    destruct (truthy (prop j "currentMode"));
      [destruct (asMode (prop j "currentMode"))|]; eauto. }
  destruct Hmode as (o & -> & [->|[m ->]]); [exact I|].
  rewrite prepend_nil, modify_bind, bind_eq, numberOr_eq.
  destruct (truthy (prop j "timeLeft"));
    [destruct (asNumber (prop j "timeLeft")); [|exact I]|].
  all: rewrite prepend_nil, modify_bind, bind_eq, numberOr_eq.
  all: destruct (truthy (prop j "completedSessions"));
    [destruct (asNumber (prop j "completedSessions")); [|exact I]|].
  all: rewrite prepend_nil, modify_bind, bind_eq.
  all: match goal with |- context [tasksOrEmpty ?v ?st] =>
         pose proof (tasksOrEmpty_allocates v st) as Ht;
         pose proof (tasksOrEmpty_NoDup v st) as Hnd;
         destruct (tasksOrEmpty v st) as [refs st1 o1| |]; cbn in Ht;
         [destruct Ht as (extra1 & -> & Hrefs & ->)|contradiction|exact I]
       end.
  all: specialize (Hnd _ _ _ eq_refl).
  all: rewrite prepend_nil, modify_bind, bind_eq.
  all: match goal with |- context [historyOrEmpty ?v ?st] =>
         pose proof (historyOrEmpty_allocates v st) as Hh;
         destruct (historyOrEmpty v st) as [sets st1 o1| |]; cbn in Hh;
         [destruct Hh as (extra2 & -> & Hsets & ->)|contradiction|exact I]
       end.
  all: rewrite prepend_nil, modify_bind, bind_eq, numberOr_eq.
  all: destruct (truthy (prop j "totalBreaks"));
    [destruct (asNumber (prop j "totalBreaks")); [|exact I]|].
  all: rewrite prepend_nil, modify_bind, modify_bind, bind_eq.
  all: match goal with |- context [restoreAchievements ?v ?st] =>
         pose proof (restoreAchievements_restores v st) as Hr;
         assert (Hst : tasks st = refs) by reflexivity;
         revert Hr Hst; generalize st; intros st0 Hr Hst;
         destruct (restoreAchievements v st0) as [[] st1 o1|e st1 o1|];
         [| |exact I];
         destruct Hr as [(achs & -> & Hlock) ->]
       end.
  all: rewrite <- Hst in Hnd.
  all: try exact Hnd.
  all: rewrite prepend_nil, this_bind, bind_eq, switchMode_eq.
  all: destruct (isRunning _); exact Hnd.
Qed.

Lemma boot_distinct dark stored s0 out :
  constructor (initial dark stored) = Ok tt s0 out -> NoDup (tasks s0).
Proof.
  unfold constructor. rewrite bind_eq.
  destruct (loadData _) as [[] s1 out1|e s1 out1|] eqn:Hload; [|discriminate..].
  intros H. injection H as <- _.
  destruct stored as [[|j]|].
  - discriminate Hload.
  - apply (loadData_tasks _ _ _ _ Hload).
  - injection Hload as <- _. constructor.
Qed.

Lemma NoDup_filter_list {A} (f : A -> bool) (l : list A) : NoDup l -> NoDup (List.filter f l).
Proof.
  induction 1 as [|x l Hx _ IH]; [constructor|]. cbn. destruct (f x); [|exact IH].
  constructor; [|exact IH]. intros Hin. apply Hx.
  apply list_elem_of_In in Hin. apply filter_In in Hin as [Hin _].
  apply list_elem_of_In, Hin.
Qed.

Lemma run_distinct op s :
  no_import op -> (forall dark, op <> Reload dark) ->
  exists s' out,
    run op s = Ok tt s' out /\ (well_formed s -> NoDup (tasks s) -> NoDup (tasks s')).
Proof.
  destruct op; cbn [no_import run]; intros Hop Hreload; try contradiction.
  - unfold startTimer. msimpl.
    destruct (is_work (currentMode s)); eexists _, _; (split; [reflexivity|auto]).
  - eexists _, _; split; [reflexivity|auto].
  - eexists _, _; split; [reflexivity|auto].
  - destruct (tick_result clock s) as (s' & out & Hrun & Ht & _).
    exists s', out. split; [exact Hrun|]. rewrite Ht. auto.
  - unfold switchMode. msimpl.
    destruct (isRunning s); eexists _, _; (split; [reflexivity|auto]).
  - unfold fireSwitch, switchMode. msimpl.
    destruct (pendingSwitch s); msimpl; [|destruct (isRunning s)];
      eexists _, _; (split; [reflexivity|auto]).
  - unfold addTask.
    destruct (String.eqb (trim taskInput) ""); msimpl;
      eexists _, _; (split; [reflexivity|auto]).
    intros [Hrefs _] Hnd. apply NoDup_app. split; [exact Hnd|].
    split; [|apply NoDup_singleton].
    intros l Hl Hnew. apply list_elem_of_singleton in Hnew. subst l.
    unfold refs_in in Hrefs. rewrite Forall_forall in Hrefs.
    specialize (Hrefs _ Hl). lia.
  - unfold toggleTask. msimpl.
    destruct (List.find _ (tasks s)) as [l|]; msimpl;
      [destruct (objects s !! l) as [task|]; msimpl;
       [destruct (negb (Task.completed task)); msimpl|]|];
      eexists _, _; (split; [reflexivity|auto]).
  - eexists _, _; split; [reflexivity|]. cbn. intros _ Hnd. apply NoDup_filter_list, Hnd.
  - eexists _, _; split; [reflexivity|]. cbn. intros _ _. constructor.
  - unfold startNewSet, finishCurrentSet. msimpl.
    destruct ((completedSessions s >? 0) || (len (tasks s) >? 0)); msimpl;
      [destruct confirmed; msimpl|];
      eexists _, _; (split; [reflexivity|auto]).
    cbn. intros _ _. constructor.
  - eexists _, _; split; [reflexivity|auto].
  - eexists _, _; split; [reflexivity|auto].
  - exfalso. eapply Hreload. reflexivity.
Qed.

Lemma step_distinct s op s' :
  sound s -> NoDup (tasks s) -> step s op s' -> NoDup (tasks s').
Proof.
  intros Hs Hnd Hstep.
  assert (Hcases : (exists u c, op = Import u c) \/ (exists dark, op = Reload dark) \/
                   (no_import op /\ forall dark, op <> Reload dark)).
  { destruct op; try (right; right; split; [exact I|discriminate]).
    - left. eauto.
    - right. left. eauto. }
  destruct Hcases as [(u & c & ->)|[(dark & ->)|[Hop Hnot]]].
  - pose proof (importData_tasks u c s Hnd) as Himp.
    inversion Hstep as [? ? ? _ Hrun|? ? ? ? _ _ Hrun]; subst;
      cbn [run] in Hrun; rewrite Hrun in Himp; exact Himp.
  - inversion Hstep as [? ? ? _ Hrun|? ? ? ? _ Hno _]; subst;
      [|exfalso; eapply Hno; reflexivity].
    eapply boot_distinct, Hrun.
  - destruct (step_run op s s' Hop Hnot Hstep) as (out & Hrun).
    destruct (run_distinct op s Hop Hnot) as (s1 & out1 & Hrun1 & Hkeep).
    rewrite Hrun in Hrun1. injection Hrun1 as <- _.
    apply Hkeep; [exact (proj1 Hs)|exact Hnd].
Qed.

Lemma reachable_distinct s : reachable s -> NoDup (tasks s).
Proof.
  intros (dark & stored & s0 & out & ops & Hboot & Hsteps).
  pose proof (boot_sound _ _ _ _ Hboot) as Hsound.
  pose proof (boot_distinct _ _ _ _ Hboot) as Hnd. clear Hboot.
  induction Hsteps as [|s op ops s1 s2 Hstep _ IH]; [exact Hnd|].
  apply IH; [eapply step_sound; eassumption|eapply step_distinct; eassumption].
Qed.

Lemma deref_split objs refs : forall before t after,
  refs_in objs refs ->
  deref objs refs = before ++ t :: after ->
  exists r1 l r2,
    refs = r1 ++ l :: r2 /\ deref objs r1 = before /\ objs !! l = Some t /\
    deref objs r2 = after.
Proof.
  unfold deref. induction refs as [|l refs IH]; intros before t after Hin Hd.
  - destruct before; discriminate.
  - apply Forall_cons in Hin as [Hl Hin].
    destruct (lookup_lt_is_Some_2 objs l Hl) as [x Hx].
    cbn [omap list_omap] in Hd. rewrite Hx in Hd.
    destruct before as [|b before]; cbn in Hd; injection Hd as -> Hd.
    + exists [], l, refs. auto.
    + destruct (IH before t after Hin Hd) as (r1 & l' & r2 & -> & H1 & H2 & H3).
      exists (l :: r1), l', r2. cbn [omap list_omap]. rewrite Hx, H1. auto.
Qed.

Lemma find_app_none {A} (f : A -> bool) (l1 l2 : list A) :
  List.find f l1 = None -> List.find f (l1 ++ l2) = List.find f l2.
Proof.
  induction l1 as [|x l1 IH]; [reflexivity|]. cbn. destruct (f x); [discriminate|exact IH].
Qed.

(** X24.  On every page that can be reached, [toggleTask] flips the
    completed flag of exactly one task of the active list, the first with
    the given id: the tasks before and after it, and its id and text, stay
    as they are.  The task-completed message is sent when the task becomes
    completed, and the page is saved. *)
Theorem toggleTask_flips_first
    (taskId : Z) (s : FocusPopApp) (before after : list Task.t) (t : Task.t) :
  reachable s ->
  activeTasks s = before ++ t :: after ->
  Forall (fun x => Task.id x <> taskId) before ->
  Task.id t = taskId ->
  exists s',
    toggleTask taskId s
    = Ok tt s' (if Task.completed t then []
                else [CharacterMessage "taskComplete" "happy"]) /\
    activeTasks s'
    = before ++ Task.mk (Task.id t) (Task.text t) (negb (Task.completed t)) :: after /\
    localStorage s' = Some (Text (appData s')).
Proof.
  intros Hreach Hactive Hbefore Hid.
  destruct (reachable_sound s Hreach) as [[Hrefs _] _].
  pose proof (reachable_distinct s Hreach) as Hnd.
  destruct (deref_split _ _ _ _ _ Hrefs Hactive) as (r1 & l & r2 & Htasks & H1 & Hl & H2).
  assert (Hfind : List.find (task_has_id (objects s) taskId) (tasks s) = Some l).
  { rewrite Htasks, find_app_none by (apply find_unknown; rewrite H1; exact Hbefore).
    cbn. unfold task_has_id. rewrite Hl, Hid, Z.eqb_refl. reflexivity. }
  rewrite (toggleTask_found taskId s l t Hfind Hl). cbn zeta.
  cbn [Task.completed].
  replace (if negb (Task.completed t) then [CharacterMessage "taskComplete" "happy"] else [])
    with (if Task.completed t then [] else [CharacterMessage "taskComplete" "happy"])
    by (destruct (Task.completed t); reflexivity).
  eexists. split; [reflexivity|].
  split; [|reflexivity].
  unfold activeTasks. cbn. rewrite Htasks in *. rewrite deref_app.
  apply NoDup_app in Hnd as (_ & Hdisj & Hnd2). apply NoDup_cons in Hnd2 as [Hl2 _].
  f_equal.
  - rewrite <- H1. apply deref_ext. intros l' Hl'. apply list_lookup_insert_ne.
    intros <-. apply (Hdisj _ Hl'). apply list_elem_of_here.
  - unfold deref. cbn [omap list_omap].
    rewrite list_lookup_insert_eq by (eapply lookup_lt_Some; exact Hl). f_equal.
    rewrite <- H2. apply deref_ext. intros l' Hl'. apply list_lookup_insert_ne.
    intros <-. contradiction.
Qed.

Lemma toggleTask_flips_first_witness :
  exists s s',
    exec threeTasks freshPage = Some s /\
    toggleTask 1700000060000 s = Ok tt s' [CharacterMessage "taskComplete" "happy"] /\
    activeTasks s' = [ Task.mk 1700000000000 "write report" false;
                       Task.mk 1700000060000 "answer mail" true;
                       Task.mk 1700000060000 "review" false ].
Proof.
  destruct (exec threeTasks freshPage) as [s|] eqn:Hexec; [|vm_compute in Hexec; discriminate].
  assert (Hactive : activeTasks s
                    = [Task.mk 1700000000000 "write report" false]
                      ++ Task.mk 1700000060000 "answer mail" false
                      :: [Task.mk 1700000060000 "review" false])
    by (vm_compute in Hexec; injection Hexec as <-; reflexivity).
  destruct (toggleTask_flips_first 1700000060000 s
              [Task.mk 1700000000000 "write report" false]
              [Task.mk 1700000060000 "review" false]
              (Task.mk 1700000060000 "answer mail" false)
              (exec_reachable _ _ Hexec) Hactive)
    as (s' & Hrun & Hact & _).
  - constructor; [intros H; discriminate H|constructor].
  - reflexivity.
  - exists s, s'. split; [reflexivity|]. split; [exact Hrun|exact Hact].
Defined.

(** X25.  On every page that can be reached, also after imports and
    reloads, the achievement table holds the twelve rules of the program in
    their order: ids, names, descriptions, icons and conditions are never
    changed, added or removed; only the unlocked flags and dates vary. *)
Theorem achievement_rules_fixed (s : FocusPopApp) :
  reachable s ->
  map lock (achievements s) = achievementTable /\
  totalCount s = 12%nat /\
  (unlockedCount s <= 12)%nat.
Proof.
  intros Hreach. destruct (reachable_sound s Hreach) as [_ Hshape].
  assert (Hlen : totalCount s = 12%nat).
  { unfold totalCount. rewrite <- (length_map lock), Hshape. reflexivity. }
  split; [exact Hshape|]. split; [exact Hlen|].
  unfold unlockedCount, totalCount in *. rewrite <- Hlen. apply filter_length_le.
Qed.

(** ** Examples *)

Lemma ticks_no_import clock n : Forall no_import (repeat (Tick clock) n).
Proof.
  apply List.Forall_forall. intros op Hop. apply repeat_spec in Hop. subst op. exact I.
Qed.

Lemma sessionAndBreak_no_import : Forall no_import sessionAndBreak.
Proof.
  unfold sessionAndBreak. apply Forall_app. split; [exact oneSession_no_import|].
  constructor; [exact I|]. constructor; [exact I|]. apply ticks_no_import.
Qed.

Lemma only_ticks_evaluate_achievements_witness :
  exists s s',
    exec twoSets freshPage = Some s /\
    step s (FinishCurrentSet noon "") s' /\
    len (history s') = 3 /\
    achievements s' = achievements s.
Proof.
  destruct (exec twoSets freshPage) as [s|] eqn:Hexec; [|vm_compute in Hexec; discriminate].
  destruct (finishCurrentSet noon "" s) as [[] s' out|e s' out|] eqn:Hrun.
  - assert (Hstep : step s (FinishCurrentSet noon "") s')
      by (eapply step_ok; [reflexivity|exact Hrun]).
    exists s, s'. split; [reflexivity|]. split; [exact Hstep|].
    split.
    + vm_compute in Hexec. injection Hexec as <-.
      vm_compute in Hrun. injection Hrun as <- _. reflexivity.
    + apply (only_ticks_evaluate_achievements (FinishCurrentSet noon "") s s' eq_refl Hstep).
  - rewrite finishCurrentSet_eq in Hrun. discriminate.
  - rewrite finishCurrentSet_eq in Hrun. discriminate.
Defined.

Lemma totalBreaks_constant_without_import_witness :
  exists s,
    exec sessionAndBreak freshPage = Some s /\
    currentMode s = short_break /\
    timeLeft s = 0 /\
    totalBreaks s = 0.
Proof.
  destruct (exec sessionAndBreak freshPage) as [s|] eqn:Hexec;
    [|vm_compute in Hexec; discriminate].
  exists s. split; [reflexivity|].
  destruct (totalBreaks_constant_without_import false None freshPage _ sessionAndBreak s
              freshPage_boots sessionAndBreak_no_import (exec_steps _ _ _ Hexec))
    as [_ Hzero].
  vm_compute in Hexec. injection Hexec as <-.
  split; [reflexivity|]. split; [reflexivity|]. apply Hzero. reflexivity.
Defined.

Lemma zen_master_never_unlocks_witness :
  exists s a,
    exec sessionAndBreak freshPage = Some s /\
    achievements s !! zenMaster = Some a /\
    Achievement.id a = "zen-master" /\
    Achievement.unlocked a = false.
Proof.
  destruct (exec sessionAndBreak freshPage) as [s|] eqn:Hexec;
    [|vm_compute in Hexec; discriminate].
  destruct (achievements freshPage !! zenMaster) as [a|] eqn:Ha; [|discriminate Ha].
  exists s, a. split; [reflexivity|].
  assert (Hlocked : Achievement.unlocked a = false)
    by (cbn in Ha; injection Ha as <-; reflexivity).
  assert (Hid : Achievement.id a = "zen-master")
    by (cbn in Ha; injection Ha as <-; reflexivity).
  split; [|split; [exact Hid|exact Hlocked]].
  apply (zen_master_never_unlocks false None freshPage _ sessionAndBreak s a
           freshPage_boots).
  - reflexivity.
  - exact Ha.
  - exact Hlocked.
  - exact sessionAndBreak_no_import.
  - exact (exec_steps _ _ _ Hexec).
Defined.


Lemma export_then_import_witness :
  exists s data out s',
    exec (usedPage ++ threeTasks ++ [Start; Tick noon]) freshPage = Some s /\
    isRunning s = true /\
    timeLeft s = 299 /\
    exportData s = Ok data s out /\
    importData (Content data) true s = Ok tt s' importSuccess /\
    appData s' = appData s.
Proof.
  destruct (exec (usedPage ++ threeTasks ++ [Start; Tick noon]) freshPage) as [s|] eqn:Hexec;
    [|vm_compute in Hexec; discriminate].
  destruct (export_then_import s (proj2 (reachable_sound s (exec_reachable _ _ Hexec))))
    as (data & out & s' & Hexport & Himport & Hdata & _).
  exists s, data, out, s'.
  assert (Hrunning : isRunning s = true)
    by (vm_compute in Hexec; injection Hexec as <-; reflexivity).
  assert (Htime : timeLeft s = 299)
    by (vm_compute in Hexec; injection Hexec as <-; reflexivity).
  split; [reflexivity|]. split; [exact Hrunning|]. split; [exact Htime|].
  split; [exact Hexport|]. split; [exact Himport|].
  rewrite Hdata. unfold reimportedTime. rewrite Hrunning, Htime. cbn [Z.eqb].
  rewrite <- Htime. rewrite set_timeLeft_same. reflexivity.
Defined.

Lemma reload_loses_only_countdown_witness :
  exists s s' out,
    exec [AddTask noon "write report"; Start; Tick noon] freshPage = Some s /\
    timeLeft s = 1499 /\
    run (Reload false) s = Ok tt s' out /\
    timeLeft s' = 1500 /\
    activeTasks s' = activeTasks s.
Proof.
  match goal with |- exists s s' out, exec ?ops _ = _ /\ _ =>
    destruct (exec ops freshPage) as [s|] eqn:Hexec; [|vm_compute in Hexec; discriminate]
  end.
  destruct (reload_loses_only_countdown false None freshPage _
              [AddTask noon "write report"; Start; Tick noon] s false
              freshPage_boots
              ltac:(repeat constructor) (exec_steps _ _ _ Hexec))
    as (s' & out & Hrun & Hdata & _).
  exists s, s', out. split; [reflexivity|].
  assert (Htasks : prop (appData s') "tasks"
                   = prop (appData (set_isDark (isDark s')
                             (set_timeLeft (TimerMode.duration (modes (currentMode s))) s)))
                       "tasks") by (rewrite Hdata; reflexivity).
  assert (Htime : prop (appData s') "timeLeft"
                  = prop (appData (set_isDark (isDark s')
                            (set_timeLeft (TimerMode.duration (modes (currentMode s))) s)))
                      "timeLeft") by (rewrite Hdata; reflexivity).
  clear Hdata. vm_compute in Hexec. injection Hexec as <-.
  split; [reflexivity|]. split; [exact Hrun|].
  split.
  - injection Htime as Htime. exact Htime.
  - injection Htasks as Htasks.
    assert (Hsome : asTasks (Some (JArr (map Task_toJSON (activeTasks s'))))
                    = asTasks (Some (JArr (map Task_toJSON
                        [Task.mk 1700000000000 "write report" false]))))
      by (unfold activeTasks; rewrite Htasks; reflexivity).
    rewrite !asTasks_toJSON in Hsome. injection Hsome as ->. reflexivity.
Defined.

Lemma importData_guarded_witness :
  exists s' out,
    importData (Content (Text (JArr []))) true (set_completedSessions 3 freshPage)
      = Ok tt s' out /\
    s' <> set_completedSessions 3 freshPage /\
    truthy (Some (JArr [])) && typeof_object (JArr []) = true.
Proof.
  destruct (importData (Content (Text (JArr []))) true (set_completedSessions 3 freshPage))
    as [[] s' out|e s' out|] eqn:Hrun; [|vm_compute in Hrun; discriminate..].
  exists s', out. split; [reflexivity|].
  assert (Hchanged : s' <> set_completedSessions 3 freshPage).
  { vm_compute in Hrun. injection Hrun as <- _.
    intros H. apply (f_equal completedSessions) in H. discriminate H. }
  split; [exact Hchanged|].
  destruct (proj2 (importData_guarded _ _ _) s' out Hrun Hchanged)
    as (_ & j & Hj & Hobject).
  injection Hj as <-. exact Hobject.
Defined.

Lemma display_format_witness :
  display 1499 = "24:59" /\ display (-1) = "-1:-1".
Proof.
  split.
  - rewrite (proj1 (display_format 1499)) by lia. reflexivity.
  - rewrite (proj2 (display_format (-1))) by lia. reflexivity.
Defined.

Lemma achievement_rules_fixed_witness :
  exists s,
    exec sessionAndBreak freshPage = Some s /\
    totalCount s = 12%nat /\ unlockedCount s = 1%nat.
Proof.
  destruct (exec sessionAndBreak freshPage) as [s|] eqn:Hexec;
    [|vm_compute in Hexec; discriminate].
  destruct (achievement_rules_fixed s (exec_reachable _ _ Hexec)) as (_ & Htotal & _).
  exists s. split; [reflexivity|]. split; [exact Htotal|].
  vm_compute in Hexec. injection Hexec as <-. reflexivity.
Defined.

(** ** The timer after a load, and its upper bound *)

Lemma loadData_timer dark j s0 out :
  loadData (initial dark (Some (Text j))) = Ok tt s0 out ->
  timeLeft s0 = TimerMode.duration (modes (currentMode s0)) /\
  isRunning s0 = false /\
  pendingSwitch s0 = [].
Proof.
  unfold loadData. rewrite this_bind. cbn [localStorage initial JSON_parse].
  rewrite ret_bind.
  assert (Hfield : forall (k : option json -> M unit) s,
            j <> JNull -> (field j "currentMode" ≫= k) s = k (prop j "currentMode") s).
  { intros k s Hj. destruct j; try (apply ret_bind). contradiction. }
  assert (Hj : j = JNull \/ j <> JNull).
  { destruct j; [left; reflexivity|right; discriminate..]. }
  destruct Hj as [->|Hj]; [intros H; discriminate H|].
  rewrite Hfield by exact Hj. clear Hfield Hj.
  rewrite typed_bind; destruct (asMode _) as [mode|]; [|discriminate].
  rewrite modify_bind, typed_bind; destruct (asNumber _) as [tl|]; [|discriminate].
  rewrite modify_bind, typed_bind; destruct (asNumber _) as [cs|]; [|discriminate].
  rewrite modify_bind, bind_eq.
  match goal with |- context [tasksOrEmpty ?v ?st] =>
    pose proof (tasksOrEmpty_allocates v st) as Ht;
    destruct (tasksOrEmpty v st) as [refs st1 o1| |]; cbn in Ht;
    [destruct Ht as (extra1 & -> & Hrefs & ->)|contradiction|discriminate]
  end.
  rewrite prepend_nil, modify_bind, bind_eq.
  match goal with |- context [historyOrEmpty ?v ?st] =>
    pose proof (historyOrEmpty_allocates v st) as Hh;
    destruct (historyOrEmpty v st) as [sets st1 o1| |]; cbn in Hh;
    [destruct Hh as (extra2 & -> & Hsets & ->)|contradiction|discriminate]
  end.
  rewrite prepend_nil, modify_bind, bind_eq, numberOr_eq.
  match goal with |- context [if ?c then _ else _] =>
    destruct c; [destruct (asNumber _) as [tb|]; [|discriminate]|] end.
  all: rewrite prepend_nil, modify_bind, bind_eq.
  all: match goal with |- context [restoreAchievements ?v ?st] =>
         pose proof (restoreAchievements_restores v st) as Hr;
         assert (Hidle : isRunning st = false) by reflexivity;
         assert (Hpend : pendingSwitch st = []) by reflexivity;
         revert Hr Hidle Hpend; generalize st; intros st0 Hr Hidle Hpend;
         destruct (restoreAchievements v st0) as [[] st1 o1|e st1 o1|] eqn:Hrun;
         [|discriminate..];
         destruct Hr as [(achs & -> & _) ->]
       end.
  all: rewrite prepend_nil, modify_bind, this_bind.
  all: rewrite switchMode_idle by exact Hidle.
  all: intros H; injection H as <- _.
  all: split; [reflexivity|split; [exact Hidle|exact Hpend]].
Qed.

(** X26.  Whatever the storage holds, a page that opens has its timer
    stopped at the full duration of the restored mode, with no switch
    pending: the stored [timeLeft] is read and then overwritten by the
    [switchMode] call at the end of [loadData]. *)
Theorem opened_page_has_full_timer
    (dark : bool) (stored : option jsonText) (s0 : FocusPopApp) (out : list Event) :
  constructor (initial dark stored) = Ok tt s0 out ->
  timeLeft s0 = TimerMode.duration (modes (currentMode s0)) /\
  isRunning s0 = false /\
  pendingSwitch s0 = [].
Proof.
  unfold constructor. rewrite bind_eq.
  destruct (loadData _) as [[] s1 out1|e s1 out1|] eqn:Hload; [|discriminate..].
  intros H. injection H as <- _.
  destruct stored as [[|j]|].
  - discriminate Hload.
  - apply (loadData_timer _ _ _ _ Hload).
  - injection Hload as <- _. repeat split.
Qed.

Lemma opened_page_has_full_timer_witness :
  exists s0 out,
    constructor (initial false (Some (Text (JObj [ ("currentMode", JStr "short-break");
                                                   ("timeLeft", JNum 17);
                                                   ("completedSessions", JNum 2) ]))))
      = Ok tt s0 out /\
    currentMode s0 = short_break /\ timeLeft s0 = 300 /\ isRunning s0 = false.
Proof.
  match goal with |- exists s0 out, ?c = _ /\ _ =>
    destruct c as [[] s0 out|e s0 out|] eqn:Hboot; [|vm_compute in Hboot; discriminate..]
  end.
  destruct (opened_page_has_full_timer _ _ _ _ Hboot) as (Htime & Hidle & _).
  exists s0, out. split; [reflexivity|].
  assert (Hmode : currentMode s0 = short_break)
    by (vm_compute in Hboot; injection Hboot as <- _; reflexivity).
  split; [exact Hmode|]. split; [|exact Hidle].
  rewrite Htime, Hmode. reflexivity.
Defined.

Lemma tick_time clock s :
  exists s' out,
    tick clock s = Ok tt s' out /\
    currentMode s' = currentMode s /\ timeLeft s' = timeLeft s - 1.
Proof.
  unfold tick. rewrite modify_bind, this_bind, bind_eq.
  cbn [currentMode timeLeft set_timeLeft].
  assert (Hmsg : exists out1,
    when (is_work (currentMode s) && (timeLeft s - 1 =? TimerMode.duration (modes work) / 2))
      (showCharacterMessage "encouragement" "motivational")
      (set_timeLeft (timeLeft s - 1) s) = Ok tt (set_timeLeft (timeLeft s - 1) s) out1).
  { destruct (is_work (currentMode s) && _); eexists; reflexivity. }
  destruct Hmsg as (out1 & ->).
  destruct (timeLeft s - 1 <=? 0); cbn [when].
  - destruct (completeSession_result clock (set_timeLeft (timeLeft s - 1) s))
      as (s' & out & -> & Hm & Ht & _).
    eexists _, _. split; [reflexivity|]. auto.
  - eexists _, _. split; [reflexivity|]. split; reflexivity.
Qed.

Lemma run_below op s :
  no_import op -> (forall dark, op <> Reload dark) ->
  exists s' out,
    run op s = Ok tt s' out /\
    (timeLeft s <= TimerMode.duration (modes (currentMode s)) ->
     timeLeft s' <= TimerMode.duration (modes (currentMode s'))).
Proof.
  destruct op; cbn [no_import run]; intros Hop Hreload; try contradiction.
  - unfold startTimer. msimpl.
    destruct (is_work (currentMode s)); eexists _, _; (split; [reflexivity|auto]).
  - eexists _, _; split; [reflexivity|auto].
  - eexists _, _; split; [reflexivity|]. cbn. lia.
  - destruct (tick_time clock s) as (s' & out & Hrun & Hm & Ht).
    exists s', out. split; [exact Hrun|]. rewrite Hm, Ht. lia.
  - unfold switchMode. msimpl.
    destruct (isRunning s); eexists _, _; (split; [reflexivity|auto]). cbn. lia.
  - unfold fireSwitch, switchMode. msimpl.
    destruct (pendingSwitch s); msimpl; [|destruct (isRunning s)];
      eexists _, _; (split; [reflexivity|auto]). cbn. lia.
  - unfold addTask.
    destruct (String.eqb (trim taskInput) ""); msimpl;
      eexists _, _; (split; [reflexivity|auto]).
  - unfold toggleTask. msimpl.
    destruct (List.find _ (tasks s)) as [l|]; msimpl;
      [destruct (objects s !! l) as [task|]; msimpl;
       [destruct (negb (Task.completed task)); msimpl|]|];
      eexists _, _; (split; [reflexivity|auto]).
  - eexists _, _; split; [reflexivity|auto].
  - eexists _, _; split; [reflexivity|auto].
  - unfold startNewSet, finishCurrentSet. msimpl.
    destruct ((completedSessions s >? 0) || (len (tasks s) >? 0)); msimpl;
      [destruct confirmed; msimpl|];
      eexists _, _; (split; [reflexivity|auto]).
  - eexists _, _; split; [reflexivity|auto].
  - eexists _, _; split; [reflexivity|auto].
  - exfalso. eapply Hreload. reflexivity.
Qed.

Lemma step_below s op s' :
  no_import op -> step s op s' ->
  timeLeft s <= TimerMode.duration (modes (currentMode s)) ->
  timeLeft s' <= TimerMode.duration (modes (currentMode s')).
Proof.
  intros Hop Hstep Hs.
  assert (Hreload : (exists dark, op = Reload dark) \/ (forall dark, op <> Reload dark)).
  { destruct op; try (right; discriminate). left. eexists. reflexivity. }
  destruct Hreload as [[dark ->]|Hnot].
  - inversion Hstep as [? ? ? _ Hrun|? ? ? ? _ Hno _]; subst;
      [|exfalso; eapply Hno; reflexivity].
    cbn [run] in Hrun. unfold constructor in Hrun. rewrite bind_eq in Hrun.
    destruct (loadData _) as [[] s1 out1|e s1 out1|] eqn:Hload; [|discriminate..].
    injection Hrun as <- _.
    destruct (localStorage s) as [[|j]|].
    + discriminate Hload.
    + destruct (loadData_timer _ _ _ _ Hload) as [-> _]. lia.
    + injection Hload as <- _. cbn. lia.
  - destruct (step_run op s s' Hop Hnot Hstep) as (out & Hrun).
    destruct (run_below op s Hop Hnot) as (s1 & out1 & Hrun1 & Hkeep).
    rewrite Hrun in Hrun1. injection Hrun1 as <- _. apply Hkeep, Hs.
Qed.

(** X27.  On a page used without data import, [timeLeft] never exceeds
    the duration of the current mode, through every sequence of timer,
    task, history and theme operations and reloads. *)
Theorem timeLeft_bounded_above_without_import
    (dark : bool) (stored : option jsonText) (s0 : FocusPopApp) (out0 : list Event)
    (ops : list Op) (s : FocusPopApp) :
  constructor (initial dark stored) = Ok tt s0 out0 ->
  Forall no_import ops ->
  steps s0 ops s ->
  timeLeft s <= TimerMode.duration (modes (currentMode s)).
Proof.
  intros Hboot Hops Hsteps.
  assert (Hs0 : timeLeft s0 <= TimerMode.duration (modes (currentMode s0))).
  { unfold constructor in Hboot. rewrite bind_eq in Hboot.
    destruct (loadData _) as [[] s1 out1|e s1 out1|] eqn:Hload; [|discriminate..].
    injection Hboot as <- _.
    destruct stored as [[|j]|].
    - discriminate Hload.
    - destruct (loadData_timer _ _ _ _ Hload) as [-> _]. lia.
    - injection Hload as <- _. cbn. lia. }
  clear Hboot. induction Hsteps as [|s op ops s1 s2 Hstep _ IH]; [exact Hs0|].
  inversion Hops as [|? ? Hop Hops']; subst.
  apply (IH Hops'). eapply step_below; eassumption.
Qed.

Lemma timeLeft_bounded_above_without_import_witness :
  exists s,
    exec sessionAndBreak freshPage = Some s /\
    currentMode s = short_break /\
    timeLeft s <= 300.
Proof.
  destruct (exec sessionAndBreak freshPage) as [s|] eqn:Hexec;
    [|vm_compute in Hexec; discriminate].
  pose proof (timeLeft_bounded_above_without_import false None freshPage _ sessionAndBreak s
                freshPage_boots sessionAndBreak_no_import (exec_steps _ _ _ Hexec)) as Hle.
  exists s. split; [reflexivity|].
  assert (Hmode : currentMode s = short_break)
    by (vm_compute in Hexec; injection Hexec as <-; reflexivity).
  split; [exact Hmode|]. rewrite Hmode in Hle. exact Hle.
Defined.
